(** * Simple-QA-EMNLP-2018: a shallow embedding of the training toolkit

    The development follows the repository's layout:

    - [lib/utils.py]: [pad_tensor], [pad_batch], [resplit_datasets],
      [batch], [torch_equals_ignore_index], [get_total_parameters],
      [StreamFork];
    - [lib/datasets/zero_to_zero.py]: [zero_to_zero];
    - [lib/nn/attention.py]: the [Attention] module ([__init__], [forward]);
    - [scripts/python/train_seq_to_label.py]: the command line entry point
      and [train].

    Python exceptions are values of [exn] carried by [result]; integers are
    [Z]; one-dimensional [LongTensor]s are [list Z]; dictionaries are
    [gmap string _]; float tensors are index functions over the real
    numbers together with their sizes, so that what is proved of them is
    proved of the formulas that the code computes, not of their rounding
    in machine floats. *)

From Stdlib Require Import ZArith List Ascii Reals Lra Lia.
From stdpp Require Import base gmap strings list.

(* ===================================================================== *)
(** * Part I: the embedding                                              *)
(* ===================================================================== *)

(** ** Exceptions *)

(** The exceptions of the Python runtime that the code raises.
    [AssertionFailed] is the [AssertionError] of an [assert] without a
    message, [ClosedFileError] the [ValueError] of a write to a closed
    file. *)
Inductive exn : Type :=
| AssertionError (msg : string)
| AssertionFailed
| ValueError (msg : string)
| ClosedFileError (msg : string)
| TypeError (msg : string)
| IndexError (msg : string)
| ZeroDivisionError (msg : string)
| OverflowError
| KeyError (key : string)
| AttributeError (name : string)
| RuntimeError (msg : string)
| FileExistsError (path : string)
| FileNotFoundError (path : string).

Inductive result (A : Type) : Type :=
| Ok (a : A)
| Raise (e : exn).
Arguments Ok {A} a.
Arguments Raise {A} e.

#[global] Instance result_bind : MBind result :=
  fun A B (k : A -> result B) (r : result A) =>
    match r with
    | Ok a => k a
    | Raise e => Raise e
    end.

#[global] Instance result_ret : MRet result := fun A a => Ok a.

Definition raises {A : Type} (r : result A) : Prop := exists e, r = Raise e.

(** The same as a sum, for the functions written with plain matches:
    [inl] of an [outcome] is a raise. *)
Definition outcome (A : Type) : Type := (exn + A)%type.

(** ** The dataset wrapper *)

(** Modelled from the spec: [lib.datasets.Dataset] is not among the source
    files. The spec describes it as "an ordered sequence of row mappings";
    the callers build it with [Dataset(rows)], read [.rows], take [len] and
    iterate over it. [Row] is the representation of one row: a dictionary
    where rows are only read, a reference into a store where the caller
    mutates them. *)
Record Dataset (Row : Type) : Type := mkDataset { rows : list Row }.
Arguments mkDataset {Row} rows.
Arguments rows {Row} d.

Definition len_Dataset {Row : Type} (d : Dataset Row) : nat := length (rows d).

(** ** lib/utils.py *)

(** [range(n)] for an integer [n]: empty when [n <= 0]. *)
Definition py_range (n : Z) : list Z := map Z.of_nat (seq 0 (Z.to_nat n)).

(** [n * [x]] for an integer [n]: the empty list when [n <= 0]. *)
Definition py_repeat {A : Type} (n : Z) (x : A) : list A := repeat x (Z.to_nat n).

(** [max(l)]: raises [ValueError] on an empty sequence. *)
Definition py_max (l : list Z) : result Z :=
  match l with
  | [] => Raise (ValueError "max() arg is an empty sequence")
  | x :: xs => Ok (fold_left Z.max xs x)
  end.

Section Padding.

(** [PADDING_INDEX] is imported from [lib.text_encoders], which is not
    among the source files: the reserved padding index is a parameter. *)
Variable PADDING_INDEX : Z.

(** [pad_tensor(tensor, length)], lines 223-233. *)
Definition pad_tensor (tensor : list Z) (length_ : Z) : list Z :=
  let n_padding := (length_ - Z.of_nat (length tensor))%Z in
  let padding := py_repeat n_padding PADDING_INDEX in
  tensor ++ padding.

(** [pad_batch(batch)], lines 236-248. *)
Definition pad_batch (batch : list (list Z)) : result (list (list Z) * list Z) :=
  let lengths := map (fun row => Z.of_nat (length row)) batch in
  max_len ← py_max lengths;
  let padded := map (fun row => pad_tensor row max_len) batch in
  Ok (padded, lengths).

End Padding.

Section Resplit.

Context {Row : Type}.

(** The pseudo random generator behind [random.Random] belongs to the
    Python runtime. [rng] is the state of one generator instance,
    [seed_rng s] the state after seeding with the integer [s] and
    [randbelow g n] draws an index below [n]. *)
Variable rng : Type.
Variable seed_rng : Z -> rng.
Variable randbelow : rng -> nat -> nat * rng.

(** [cut] is a Python float; the product [len(concat) * cut] and its
    rounding are float operations of the runtime. [round_len_times n cut]
    is [round(n * cut)]; it raises for a NaN or an infinite product. *)
Variable float : Type.
Variable round_len_times : nat -> float -> result Z.

(** [random.Random(random_seed)]: a fresh generator. With [None] it is
    seeded from the operating system, here the value [entropy] that the
    system supplies at the time of the call. *)
Definition Random (entropy : Z) (random_seed : option Z) : rng :=
  match random_seed with
  | Some s => seed_rng s
  | None => seed_rng entropy
  end.

(** [x[i], x[j] = x[j], x[i]] *)
Definition swap (x : list Row) (i j : nat) : list Row :=
  match x !! i, x !! j with
  | Some xi, Some xj => <[j := xi]> (<[i := xj]> x)
  | _, _ => x
  end.

(** The loop of [Random.shuffle]:
    [for i in reversed(range(1, len(x))): j = randbelow(i + 1); swap].
    [shuffle_from k] runs the iterations [i = k, k-1, ..., 1]. *)
Fixpoint shuffle_from (k : nat) (g : rng) (x : list Row) : list Row :=
  match k with
  | O => x
  | S k' =>
      let '(j, g') := randbelow g (S k) in
      shuffle_from k' g' (swap x k j)
  end.

Definition shuffle (g : rng) (x : list Row) : list Row :=
  shuffle_from (length x - 1) g x.

(** [resplit_datasets(dataset, other_dataset, random_seed, cut)],
    lines 20-45. *)
Definition resplit_datasets (entropy : Z)
    (dataset other_dataset : Dataset Row)
    (random_seed : option Z) (cut : option float)
  : result (Dataset Row * Dataset Row) :=
  let concat := rows dataset ++ rows other_dataset in
  let concat := shuffle (Random entropy random_seed) concat in
  match cut with
  | None =>
      Ok (mkDataset (take (len_Dataset dataset) concat),
          mkDataset (drop (len_Dataset dataset) concat))
  | Some cut =>
      r ← round_len_times (length concat) cut;
      let cut := Z.max (Z.min r (Z.of_nat (length concat))) 0 in
      Ok (mkDataset (take (Z.to_nat cut) concat),
          mkDataset (drop (Z.to_nat cut) concat))
  end.

End Resplit.

(** ** lib/datasets/zero_to_zero.py *)

(** What [zero_to_zero] returns: [ret[0]] or [tuple(ret)]. *)
Inductive datasets_or_tuple (Row : Type) : Type :=
| SingleDataset (d : Dataset Row)
| TupleOfDatasets (ds : list (Dataset Row)).
Arguments SingleDataset {Row} d.
Arguments TupleOfDatasets {Row} ds.

(** [{'source': str(0), 'target': str(0)}] *)
Definition zero_row : gmap string string :=
  {[ "source" := "0"; "target" := "0" ]}.

(** [zero_to_zero(train, dev, test, train_rows, dev_rows, test_rows,
    seq_max_length)], lines 4-21. *)
Definition zero_to_zero (train dev test : bool)
    (train_rows dev_rows test_rows : Z) (seq_max_length : Z)
  : datasets_or_tuple (gmap string string) :=
  let ret :=
    fold_left
      (fun ret '(is_requested, n_rows) =>
         if negb is_requested then ret
         else
           let rows := map (fun i => zero_row) (py_range n_rows) in
           ret ++ [mkDataset rows])
      [(train, train_rows); (dev, dev_rows); (test, test_rows)] [] in
  if Nat.eqb (length ret) 1 then
    match ret with
    | d :: _ => SingleDataset d
    | [] => TupleOfDatasets ret
    end
  else TupleOfDatasets ret.

(** A small concrete generator, used to run [resplit_datasets]: the state
    is a counter, and [randbelow] returns it modulo the bound. *)
Definition counter_randbelow (g : nat) (n : nat) : nat * nat :=
  (g mod n, S g).

(** A concrete rounding for runs of [resplit_datasets] whose cut is given
    as a ratio of naturals [(p, q)]: the nearest integer to [n * p / q],
    ties to even as Python's [round] does, and [ValueError] for [q = 0].
    It rounds the exact ratio, where Python rounds the product of the
    length with a float: the two agree when that product is exact. It
    serves the runs below only; the properties of [resplit_datasets] are
    proved for any rounding. *)
Definition ratio_round_len_times (n : nat) (cut : nat * nat) : result Z :=
  let '(p, q) := cut in
  if Nat.eqb q 0 then Raise (ValueError "cannot convert float NaN to integer")
  else
    let num := n * p in
    let lo := num / q in
    let twice := 2 * (num mod q) in
    if Nat.ltb twice q then Ok (Z.of_nat lo)
    else if Nat.ltb q twice then Ok (Z.of_nat (S lo))
    else if Nat.even lo then Ok (Z.of_nat lo) else Ok (Z.of_nat (S lo)).


(** The datasets behind a return value of [zero_to_zero], in order. *)
Definition returned_datasets {Row : Type} (ret : datasets_or_tuple Row)
  : list (Dataset Row) :=
  match ret with
  | SingleDataset d => [d]
  | TupleOfDatasets ds => ds
  end.


(** One requested split: [n] rows, each the dictionary
    [{'source': '0', 'target': '0'}]. *)
Definition zero_dataset_of (n : Z) (d : Dataset (gmap string string)) : Prop :=
  Z.of_nat (length (rows d)) = n
  ∧ ∀ r, r ∈ rows d →
      r !! "source" = Some "0" ∧ r !! "target" = Some "0"
      ∧ ∀ k, k ≠ "source" → k ≠ "target" → r !! k = None.


(** ** Tensors of the tensor library *)

(** A tensor is its sizes and its entries by index; the entries of a float
    tensor are real numbers, so the arithmetic below is exact: rounding,
    overflow and NaN of machine floats are outside this model. Entries at
    indices beyond the sizes carry no meaning. *)
Record Tensor2 (A : Type) : Type := mkTensor2 {
  rows2 : nat;
  cols2 : nat;
  at2 : nat -> nat -> A
}.
Arguments mkTensor2 {A} rows2 cols2 at2.
Arguments rows2 {A} t.
Arguments cols2 {A} t.
Arguments at2 {A} t i j.

Record Tensor3 (A : Type) : Type := mkTensor3 {
  size0 : nat;
  size1 : nat;
  size2 : nat;
  at3 : nat -> nat -> nat -> A
}.
Arguments mkTensor3 {A} size0 size1 size2 at3.
Arguments size0 {A} t.
Arguments size1 {A} t.
Arguments size2 {A} t.
Arguments at3 {A} t b i j.

(** The sum of [f 0], ..., [f (n - 1)]. *)
Fixpoint rsum (n : nat) (f : nat -> R) : R :=
  match n with
  | O => 0%R
  | S n' => (rsum n' f + f n')%R
  end.

(** [t.view(r, c)] of a three-dimensional tensor: the entries in row-major
    order, regrouped; the number of entries must agree. *)
Definition view3_2 {A : Type} (t : Tensor3 A) (r c : nat) : result (Tensor2 A) :=
  if Nat.eqb (r * c) (size0 t * size1 t * size2 t) then
    Ok (mkTensor2 r c
          (fun i j =>
             let flat := i * c + j in
             at3 t (flat / (size1 t * size2 t))
                   ((flat / size2 t) mod size1 t)
                   (flat mod size2 t)))
  else Raise (RuntimeError "size mismatch in view").

(** [t.view(a, b, c)] of a two-dimensional tensor. *)
Definition view2_3 {A : Type} (t : Tensor2 A) (a b c : nat) : result (Tensor3 A) :=
  if Nat.eqb (a * b * c) (rows2 t * cols2 t) then
    Ok (mkTensor3 a b c
          (fun i j k =>
             let flat := (i * b + j) * c + k in
             at2 t (flat / cols2 t) (flat mod cols2 t)))
  else Raise (RuntimeError "size mismatch in view").

(** [t.transpose(1, 2).contiguous()] *)
Definition transpose12 {A : Type} (t : Tensor3 A) : Tensor3 A :=
  mkTensor3 (size0 t) (size2 t) (size1 t) (fun b i j => at3 t b j i).

(** [torch.bmm(a, b)]: batched matrix product. *)
Definition bmm (a b : Tensor3 R) : result (Tensor3 R) :=
  if Nat.eqb (size0 a) (size0 b) && Nat.eqb (size2 a) (size1 b) then
    Ok (mkTensor3 (size0 a) (size1 a) (size2 b)
          (fun n i j => rsum (size2 a) (fun k => at3 a n i k * at3 b n k j)%R))
  else Raise (RuntimeError "size mismatch in bmm").

(** [torch.cat((a, b), dim=2)] *)
Definition cat_dim2 (a b : Tensor3 R) : result (Tensor3 R) :=
  if Nat.eqb (size0 a) (size0 b) && Nat.eqb (size1 a) (size1 b) then
    Ok (mkTensor3 (size0 a) (size1 a) (size2 a + size2 b)
          (fun n i k =>
             if Nat.ltb k (size2 a) then at3 a n i k
             else at3 b n i (k - size2 a)))
  else Raise (RuntimeError "size mismatch in cat").

(** [nn.Linear(in_features, out_features, bias=False)]: [weight] has one
    row per output feature. *)
Record Linear : Type := mkLinear {
  in_features : nat;
  out_features : nat;
  weight : nat -> nat -> R
}.

(** Calling a [Linear] on a two-dimensional input: [y = x A^T]. *)
Definition apply_Linear (l : Linear) (x : Tensor2 R) : result (Tensor2 R) :=
  if Nat.eqb (cols2 x) (in_features l) then
    Ok (mkTensor2 (rows2 x) (out_features l)
          (fun i o => rsum (in_features l) (fun k => at2 x i k * weight l o k)%R))
  else Raise (RuntimeError "size mismatch in Linear").

(** Attention scores after masking: a real number or minus infinity. *)
Inductive score : Type :=
| Finite (r : R)
| NegInf.

(** [exp] on scores: [exp(-inf) = 0]. *)
Definition score_exp (s : score) : R :=
  match s with
  | Finite r => exp r
  | NegInf => 0%R
  end.

(** [scores.masked_fill_(mask, -inf)] for the mask that the docstring of
    [__init__] asks for, one of the sizes [batch_size, output_len,
    input_len] of the scores. A mask of other sizes, which the library
    broadcasts when it can and refuses when it cannot, is outside this
    model and shows as a raise; the properties of [forward] with a mask
    are stated for a mask of these sizes. *)
Definition masked_fill_ (scores : Tensor3 R) (mask : Tensor3 bool)
  : result (Tensor3 score) :=
  if Nat.eqb (size0 mask) (size0 scores) && Nat.eqb (size1 mask) (size1 scores)
     && Nat.eqb (size2 mask) (size2 scores) then
    Ok (mkTensor3 (size0 scores) (size1 scores) (size2 scores)
          (fun b i j => if at3 mask b i j then NegInf else Finite (at3 scores b i j)))
  else Raise (RuntimeError "size mismatch in masked_fill_").

Definition unmasked (scores : Tensor3 R) : Tensor3 score :=
  mkTensor3 (size0 scores) (size1 scores) (size2 scores)
    (fun b i j => Finite (at3 scores b i j)).

(** [nn.Softmax()] on a two-dimensional input normalises every row:
    [exp(x_j) / sum_j' exp(x_j')]. This is the formula over the real
    numbers: what the rounding, the underflow and the overflow of machine
    floats make of a row (weights that are exactly 0, a sum that is 1 only
    up to rounding, a row of NaN) is not in it, and neither is a row that
    is minus infinity throughout, NaN for the library. *)
Definition Softmax (x : Tensor2 score) : Tensor2 R :=
  mkTensor2 (rows2 x) (cols2 x)
    (fun i j =>
       (score_exp (at2 x i j) / rsum (cols2 x) (fun j' => score_exp (at2 x i j')))%R).

(** [nn.Tanh()], entry by entry, over the real numbers: the machine
    value saturates to exactly 1 or -1 for large arguments. *)
Definition Tanh (x : Tensor3 R) : Tensor3 R :=
  mkTensor3 (size0 x) (size1 x) (size2 x) (fun b i j => tanh (at3 x b i j)).

(** ** lib/nn/attention.py *)

Module Attention.

(** The attributes set by [__init__]. [linear_in] exists only for the
    'general' attention type. *)
Record t : Type := mk {
  attention_type : string;
  linear_in : option Linear;
  linear_out : Linear;
  mask : option (Tensor3 bool)
}.

(** [Attention.__init__(dimensions, mask, attention_type)], lines 18-35.
    The [configurable] decorator (not among the source files) only
    supplies arguments the caller left out. The initial weights of the
    two linear layers are drawn by the library: [init_in] and [init_out]
    stand for the values drawn. *)
Definition __init__ (dimensions : nat) (mask : option (Tensor3 bool))
    (attention_type : string) (init_in init_out : nat -> nat -> R)
  : result t :=
  if negb (bool_decide (attention_type ∈ ["dot"; "general"])) then
    Raise (AssertionError "Invalid attention type selected.")
  else
    let linear_in :=
      if String.eqb attention_type "general"
      then Some (mkLinear dimensions dimensions init_in)
      else None in
    let linear_out := mkLinear (dimensions * 2) dimensions init_out in
    Ok (mk attention_type linear_in linear_out mask).

(** Lines 52-55: the input used for scoring. *)
Definition project_input (self : t) (input_ : Tensor3 R) : result (Tensor3 R) :=
  let batch_size := size0 input_ in
  let output_len := size1 input_ in
  let dimensions := size2 input_ in
  if String.eqb (attention_type self) "general" then
    input_ ← view3_2 input_ (batch_size * output_len) dimensions;
    lin ← match linear_in self with
          | Some l => Ok l
          | None => Raise (AttributeError "linear_in")
          end;
    input_ ← apply_Linear lin input_;
    view2_3 input_ batch_size output_len dimensions
  else Ok input_.

(** Line 59: the alignment scores before masking and normalisation. *)
Definition attention_scores (input_ context : Tensor3 R) : result (Tensor3 R) :=
  bmm input_ (transpose12 context).

(** Lines 60-61: the optional mask. *)
Definition apply_mask (self : t) (scores : Tensor3 R) : result (Tensor3 score) :=
  match mask self with
  | Some m => masked_fill_ scores m
  | None => Ok (unmasked scores)
  end.

(** [Attention.forward(input_, context)], lines 37-81. *)
Definition forward (self : t) (input_ context : Tensor3 R)
  : result (Tensor3 R * Tensor3 R) :=
  let batch_size := size0 input_ in
  let output_len := size1 input_ in
  let dimensions := size2 input_ in
  let input_len := size1 context in
  input_ ← project_input self input_;
  scores ← attention_scores input_ context;
  scores ← apply_mask self scores;
  scores ← view3_2 scores (batch_size * output_len) input_len;
  let attention_weights := Softmax scores in
  attention_weights ← view2_3 attention_weights batch_size output_len input_len;
  mix ← bmm attention_weights context;
  combined ← cat_dim2 mix input_;
  combined ← view3_2 combined (batch_size * output_len) (2 * dimensions);
  output ← apply_Linear (linear_out self) combined;
  output ← view2_3 output batch_size output_len dimensions;
  let output := Tanh output in
  Ok (output, attention_weights).

End Attention.


(** *** Reading [forward] entry by entry *)

(** The dot product of two vectors of [n] entries. *)
Definition dot (n : nat) (u v : nat -> R) : R :=
  rsum n (fun k => u k * v k)%R.

(** The input vector at batch [b], output position [i] as it enters the
    scores: for 'general' the [linear_in] projection of the input vector,
    for 'dot' the input vector itself. *)
Definition scoring_input (attention_type : string) (w_in : nat -> nat -> R)
    (input_ : Tensor3 R) (b i : nat) : nat -> R :=
  if String.eqb attention_type "general"
  then fun k => dot (size2 input_) (at3 input_ b i) (w_in k)
  else at3 input_ b i.

(** The score of context position [j] for output position [i] as it enters
    the softmax: minus infinity where the mask is set. *)
Definition masked_score (mask : option (Tensor3 bool)) (s : nat -> nat -> nat -> R)
    (b i j : nat) : score :=
  match mask with
  | Some m => if at3 m b i j then NegInf else Finite (s b i j)
  | None => Finite (s b i j)
  end.

(** The softmax weight of position [j] among [n] scores. *)
Definition softmax_weight (n : nat) (s : nat -> score) (j : nat) : R :=
  (score_exp (s j) / rsum n (fun j' => score_exp (s j')))%R.

(** The concatenation [mix ++ v] of the weighted mixture of the context
    vectors with a vector [v], both of [d] entries. *)
Definition mix_concat (d input_len : nat) (weights : nat -> R)
    (context_b : nat -> nat -> R) (v : nat -> R) (k : nat) : R :=
  if Nat.ltb k d
  then rsum input_len (fun j => weights j * context_b j k)%R
  else v (k - d).

(** The mask, when there is one, has the sizes of the scores. *)
Definition mask_fits (mask : option (Tensor3 bool)) (input_ context : Tensor3 R)
  : Prop :=
  match mask with
  | Some m =>
      size0 m = size0 input_ ∧ size1 m = size1 input_ ∧ size2 m = size1 context
  | None => True
  end.

(** The "scaled dot-product" of the attention literature: the dot product
    divided by the square root of the number of dimensions. *)
Definition scaled_dot_product (dimensions : nat) (u v : nat -> R) : R :=
  (dot dimensions u v / sqrt (INR dimensions))%R.

(** Concrete tensors for running [forward]. *)
Definition constant3 (s0 s1 s2 : nat) (x : R) : Tensor3 R :=
  mkTensor3 s0 s1 s2 (fun _ _ _ => x).

Definition zero_weights : nat -> nat -> R := fun _ _ => 0%R.

(** A [linear_out] weight that copies the second half of its input. *)
Definition second_half_weights (d : nat) : nat -> nat -> R :=
  fun o k => if Nat.eqb k (d + o) then 1%R else 0%R.


(** ** lib/utils.py: batch *)

(** [range(start, stop, step)], fully consumed: [ValueError] for a zero
    step, and [len(range(...))] elements otherwise. *)
Definition py_range3 (start stop step : Z) : result (list Z) :=
  if Z.eqb step 0 then Raise (ValueError "range() arg 3 must not be zero")
  else
    let count :=
      if Z.ltb 0 step then ((stop - start + step - 1) / step)%Z
      else ((start - stop - step - 1) / (- step))%Z in
    Ok (map (fun k => (start + Z.of_nat k * step)%Z) (seq 0 (Z.to_nat count))).

(** A slice bound as Python reads it: a negative bound counts from the
    end, and every bound is clipped to the sequence. *)
Definition py_slice_bound (len i : Z) : Z :=
  if Z.ltb i 0 then Z.max (i + len) 0 else Z.min i len.

(** [xs[lo:hi]] *)
Definition py_slice {A : Type} (xs : list A) (lo hi : Z) : list A :=
  let len := Z.of_nat (length xs) in
  let lo := py_slice_bound len lo in
  let hi := py_slice_bound len hi in
  take (Z.to_nat (hi - lo)) (drop (Z.to_nat lo) xs).

(** The types whose values have [__len__] and are sliced as sequences
    are, a slice being of the type of the value and holding its items
    between the bounds: list, tuple and str, and any other such type
    (bytes, range, ...) by its name. *)
Inductive sequence_type : Type :=
| list_type
| tuple_type
| str_type
| other_sequence_type (name : string).

(** A value of such a type, by its type and its items (the characters of
    a str). *)
Record sequence (A : Type) : Type := mkSequence {
  seq_type : sequence_type;
  seq_items : list A
}.
Arguments mkSequence {A} seq_type seq_items.
Arguments seq_type {A} s.
Arguments seq_items {A} s.

(** An object with [__len__], by the items that iterating over it gives:
    a sequence, or an object that cannot be sliced (a set, a frozenset, a
    dict), with what its subscription with a slice raises: for a set,
    the [TypeError] that it is not subscriptable. *)
Inductive sized (A : Type) : Type :=
| Sliceable (t : sequence_type) (items : list A)
| Unsliceable (items : list A) (e : exn).
Arguments Sliceable {A} t items.
Arguments Unsliceable {A} items e.

(** What [batch] is given: an iterable without [__len__] (a generator, an
    iterator) or an object with it. *)
Inductive iterable (A : Type) : Type :=
| Unsized (items : list A)
| Sized (s : sized A).
Arguments Unsized {A} items.
Arguments Sized {A} s.

Definition sized_items {A : Type} (s : sized A) : list A :=
  match s with
  | Sliceable _ items => items
  | Unsliceable items _ => items
  end.

Definition items_of {A : Type} (it : iterable A) : list A :=
  match it with
  | Unsized items => items
  | Sized s => sized_items s
  end.

(** Lines 85-92, the loop over an iterable without [__len__]:
    [current_batch] collects items and is yielded when it holds [n]. The
    batches are lists. *)
Fixpoint batch_slow {A : Type} (items : list A) (n : Z) (current_batch : list A)
  : list (list A) :=
  match items with
  | [] =>
      match current_batch with
      | [] => []
      | _ => [current_batch]
      end
  | item :: items' =>
      let current_batch := current_batch ++ [item] in
      if Z.eqb (Z.of_nat (length current_batch)) n
      then current_batch :: batch_slow items' n []
      else batch_slow items' n current_batch
  end.

(** [iterable[lo:hi]] *)
Definition getslice {A : Type} (s : sized A) (lo hi : Z) : result (sequence A) :=
  match s with
  | Sliceable t items => Ok (mkSequence t (py_slice items lo hi))
  | Unsliceable _ e => Raise e
  end.

(** A generator consumed to its end: the values of its [yield]s, or what
    the first failing one raises. *)
Fixpoint yield_each {B C : Type} (f : B → result C) (xs : list B) : result (list C) :=
  match xs with
  | [] => Ok []
  | x :: xs' =>
      y ← f x;
      ys ← yield_each f xs';
      Ok (y :: ys)
  end.

(** Lines 95-97, the slices of an iterable with [__len__]. *)
Definition batch_fast {A : Type} (s : sized A) (n : Z)
  : result (list (sequence A)) :=
  let l := Z.of_nat (length (sized_items s)) in
  ndxs ← py_range3 0 l n;
  yield_each (fun ndx => getslice s ndx (Z.min (ndx + n) l)) ndxs.

(** [batch(iterable, n)], lines 82-97: the batches that the generator
    yields when it is consumed to its end, or what it raises. *)
Definition batch {A : Type} (it : iterable A) (n : Z) : result (list (sequence A)) :=
  match it with
  | Unsized items => Ok (map (mkSequence list_type) (batch_slow items n []))
  | Sized s => batch_fast s n
  end.

(** The items of the slices [items[ndx:min(ndx + n, l)]] of lines 95-97,
    slice by slice. *)
Definition slices {A : Type} (items : list A) (n : Z) : result (list (list A)) :=
  let l := Z.of_nat (length items) in
  ndxs ← py_range3 0 l n;
  Ok (map (fun ndx => py_slice items ndx (Z.min (ndx + n) l)) ndxs).

(** ** lib/utils.py: torch_equals_ignore_index, get_total_parameters *)

(** An integer tensor: its sizes and its entries in row-major order. A
    tensor of the library holds as many entries as its sizes multiply
    to, each a 64-bit integer. *)
Record LongTensor : Type := mkLongTensor {
  sizes : list nat;
  entries : list Z
}.

Definition in_int64 (z : Z) : Prop :=
  (-9223372036854775808 ≤ z < 9223372036854775808)%Z.

Definition LongTensor_wf (t : LongTensor) : Prop :=
  length (entries t) = fold_right Nat.mul 1 (sizes t)
  ∧ Forall in_int64 (entries t).

(** The tensor library converts a Python integer that is compared with
    the entries of a [LongTensor] to a 64-bit integer. A 64-bit integer
    is left as it is; beyond, the library wraps the integer around or
    raises, depending on its version. *)
Class ScalarConversion : Type := {
  to_int64 : Z → outcome Z
}.

(** The conversion that wraps around, as two's complement does. *)
Definition wrap_int64 (z : Z) : Z :=
  ((z + 9223372036854775808) mod 18446744073709551616 - 9223372036854775808)%Z.

#[local] Instance wrapping_conversion : ScalarConversion := {
  to_int64 := fun z => inr (wrap_int64 z)
}.

(** [tensor.ne(x)]: the mask of the entries that differ from [x], once
    [x] is converted. *)
Definition ne `{!ScalarConversion} (t : LongTensor) (x : Z) : outcome (list bool) :=
  match to_int64 x with
  | inl e => inl e
  | inr x => inr (map (fun v => negb (Z.eqb v x)) (entries t))
  end.

(** The entries kept by [tensor.masked_select(mask)], in order. *)
Fixpoint select_entries (entries : list Z) (mask : list bool) : list Z :=
  match entries, mask with
  | v :: entries', b :: mask' =>
      if b then v :: select_entries entries' mask'
      else select_entries entries' mask'
  | _, _ => []
  end.

(** [tensor.masked_select(mask)]: a one-dimensional tensor. *)
Definition masked_select (t : LongTensor) (mask : list bool) : LongTensor :=
  let kept := select_entries (entries t) mask in
  mkLongTensor [length kept] kept.

(** [torch.equal(a, b)]: same sizes and same entries. *)
Definition torch_equal (a b : LongTensor) : bool :=
  bool_decide (sizes a = sizes b) && bool_decide (entries a = entries b).

(** [torch_equals_ignore_index(tensor, tensor_other, ignore_index)],
    lines 266-281. *)
Definition torch_equals_ignore_index `{!ScalarConversion}
    (tensor tensor_other : LongTensor) (ignore_index : option Z) : outcome bool :=
  match ignore_index with
  | Some ignore_index =>
      if negb (bool_decide (sizes tensor = sizes tensor_other))
      then inl AssertionFailed
      else
        match ne tensor ignore_index with
        | inl e => inl e
        | inr mask_arr =>
            let tensor := masked_select tensor mask_arr in
            let tensor_other := masked_select tensor_other mask_arr in
            inr (torch_equal tensor tensor_other)
        end
  | None => inr (torch_equal tensor tensor_other)
  end.

(** A parameter of a model, as [get_total_parameters] reads it. *)
Record TorchParameter : Type := mkTorchParameter {
  requires_grad : bool;
  size : list nat
}.

(** The term that line 220 adds for one parameter:
    [x.size()[0] * x.size()[1] if len(x.size()) > 1 else x.size()[0]]. *)
Definition counted_size (x : TorchParameter) : outcome nat :=
  match size x with
  | s0 :: s1 :: _ => inr (s0 * s1)
  | [s0] => inr s0
  | [] => inl (IndexError "tuple index out of range")
  end.

(** [sum(...)] over the generator: the first raise ends it. *)
Fixpoint sum_counted (params : list TorchParameter) : outcome nat :=
  match params with
  | [] => inr 0
  | x :: params' =>
      match counted_size x with
      | inl e => inl e
      | inr c =>
          match sum_counted params' with
          | inl e => inl e
          | inr s => inr (c + s)
          end
      end
  end.

(** [get_total_parameters(model)], lines 217-220, on the parameters of
    the model. *)
Definition get_total_parameters (parameters : list TorchParameter) : outcome nat :=
  let params := List.filter requires_grad parameters in
  sum_counted params.

(** The number of entries of a parameter. *)
Definition numel (x : TorchParameter) : nat := fold_right Nat.mul 1 (size x).

(** ** lib/utils.py: StreamFork *)

(** A text stream of the runtime: what has been written to it and whether
    it is closed. Writing to a closed stream raises. *)
Record stream : Type := mkStream {
  written : string;
  is_closed : bool
}.



Module StreamFork.

(** The attributes set by [__init__], lines 104-106: the stream and the
    file opened for appending. *)
Record t : Type := mk {
  stream_ : stream;
  file_ : stream
}.





End StreamFork.

(** ** scripts/python/train_seq_to_label.py *)

(** *** The file system calls of [__main__] *)

Definition sep : Ascii.ascii := "/"%char.

Definition is_sep (c : Ascii.ascii) : bool := Ascii.eqb c sep.

(** [s.rstrip('/')] on the characters of [s]. *)
Fixpoint rstrip_sep (s : list Ascii.ascii) : list Ascii.ascii :=
  match s with
  | [] => []
  | c :: s' =>
      match rstrip_sep s' with
      | [] => if is_sep c then [] else [c]
      | r => c :: r
      end
  end.

(** [p[:p.rfind('/') + 1]]: the longest prefix that ends in a separator,
    empty when there is none. *)
Fixpoint upto_last_sep (p : list Ascii.ascii) : list Ascii.ascii :=
  match p with
  | [] => []
  | c :: p' =>
      match upto_last_sep p' with
      | [] => if is_sep c then [c] else []
      | r => c :: r
      end
  end.

(** [os.path.dirname(p)] of [posixpath]:
    [head = p[:p.rfind('/') + 1]], stripped of its trailing separators
    unless it is made of separators only. *)
Definition dirname (p : string) : string :=
  let head := upto_last_sep (String.list_ascii_of_string p) in
  if negb (Nat.eqb (length head) 0) && negb (forallb is_sep head)
  then String.string_of_list_ascii (rstrip_sep head)
  else String.string_of_list_ascii head.

(** The proper ancestors of a path, nearest first: what [os.makedirs]
    creates on its way when they are missing. *)
Fixpoint ancestors (fuel : nat) (p : string) : list string :=
  match fuel with
  | O => []
  | S fuel' =>
      let d := dirname p in
      if String.eqb d "" || String.eqb d p then []
      else d :: ancestors fuel' d
  end.

(** *** The parts of the toolkit that the script calls *)

(** Rows are dictionaries held by reference: the datasets of [train] are
    lists of references into the store of rows. *)
Definition loc : Type := nat.

(** Modelled from the spec: [lib.checkpoint.Checkpoint] is not among the
    source files. The spec describes it as "a snapshot of { model
    parameters, optimizer state, encoders, device, save path }"; [train]
    reads [model], [input_encoder] and [output_encoder] from it. *)
Record Checkpoint (Model Encoder : Type) : Type := mkCheckpoint {
  model : Model;
  input_encoder : Encoder;
  output_encoder : Encoder
}.
Arguments mkCheckpoint {Model Encoder} model input_encoder output_encoder.
Arguments model {Model Encoder} c.
Arguments input_encoder {Model Encoder} c.
Arguments output_encoder {Model Encoder} c.

(** The calls of [train] into the model, the optimizer, the loss, the
    checkpoint writer and the reporting functions, in the order made. *)
Inductive call (Model Encoder batch : Type) : Type :=
| log_epoch (epoch : Z)
| model_train (mode : bool)
| optimizer_zero_grad
| model_forward (m : Model) (b : batch)
| criterion (b : batch)
| loss_backward
| optimizer_step
| Checkpoint_save (save_directory : string) (m : Model)
    (input_text_encoder output_text_encoder : Encoder)
| optimizer_update (epoch : Z)
| log_loss
| get_accuracy
| get_bucket_accuracy
| get_random_sample
| log_done.
Arguments log_epoch {Model Encoder batch} epoch.
Arguments model_train {Model Encoder batch} mode.
Arguments optimizer_zero_grad {Model Encoder batch}.
Arguments model_forward {Model Encoder batch} m b.
Arguments criterion {Model Encoder batch} b.
Arguments loss_backward {Model Encoder batch}.
Arguments optimizer_step {Model Encoder batch}.
Arguments Checkpoint_save {Model Encoder batch} save_directory m
  input_text_encoder output_text_encoder.
Arguments optimizer_update {Model Encoder batch} epoch.
Arguments log_loss {Model Encoder batch}.
Arguments get_accuracy {Model Encoder batch}.
Arguments get_bucket_accuracy {Model Encoder batch}.
Arguments get_random_sample {Model Encoder batch}.
Arguments log_done {Model Encoder batch}.

Definition is_Checkpoint_save {Model Encoder batch : Type}
    (c : call Model Encoder batch) : bool :=
  match c with
  | Checkpoint_save _ _ _ _ => true
  | _ => false
  end.

(** What the script acts on: the store of rows, the directories and files
    that exist, and the calls made so far. Paths are compared as written. *)
Record world (value Model Encoder batch : Type) : Type := mkWorld {
  row_heap : gmap loc (gmap string value);
  directories : gset string;
  files : gset string;
  calls : list (call Model Encoder batch)
}.
Arguments mkWorld {value Model Encoder batch} row_heap directories files calls.
Arguments row_heap {value Model Encoder batch} w.
Arguments directories {value Model Encoder batch} w.
Arguments files {value Model Encoder batch} w.
Arguments calls {value Model Encoder batch} w.

(** Every file lies in a directory that exists, or in the current
    directory, and no file has the empty name. *)
Definition fs_consistent {value Model Encoder batch : Type}
    (w : world value Model Encoder batch) : Prop :=
  ∀ f, f ∈ files w → f ≠ "" ∧ (dirname f = "" ∨ dirname f ∈ directories w).

(** Computations of the script: they act on the world and return a value
    or raise; what was done before a raise stays done. *)
Definition M (value Model Encoder batch : Type) (A : Type) : Type :=
  world value Model Encoder batch → result A * world value Model Encoder batch.

#[global] Instance M_ret {value Model Encoder batch : Type} :
  MRet (M value Model Encoder batch) :=
  fun A a w => (Ok a, w).

#[global] Instance M_bind {value Model Encoder batch : Type} :
  MBind (M value Model Encoder batch) :=
  fun A B (k : A → M value Model Encoder batch B) m w =>
    match m w with
    | (Ok a, w') => k a w'
    | (Raise e, w') => (Raise e, w')
    end.


(** The modules that the script imports and that are not among the source
    files ([lib.text_encoders], [lib.nn.SeqToLabel], [lib.samplers],
    [lib.utils.setup_training], [lib.datasets.count]) and the constants
    computed from the clock, as an interface. *)
Class Externals (value Model Encoder batch : Type) : Type := {
  (** [encoder.encode(x)] *)
  encode : Encoder → value → value;
  (** [WordEncoder(column)] and [IdentityEncoder(column)] *)
  WordEncoder : list value → Encoder;
  IdentityEncoder : list value → Encoder;
  (** [SeqToLabel(text_encoder.vocab_size, label_encoder.vocab_size)] with
      its parameters drawn uniformly *)
  SeqToLabel : Encoder → Encoder → Model;
  (** [model.parameters()]: of each parameter, its [requires_grad] and
      its [size()] *)
  parameters : Model → list TorchParameter;
  (** [setup_training(dataset, checkpoint_path, save_directory, ...)]: the
      loaded checkpoint, if any *)
  setup_training : option string → string → M value Model Encoder batch
                     (option (Checkpoint Model Encoder));
  (** [dataset(train=True, dev=True, test=False)] *)
  dataset : M value Model Encoder batch (Dataset loc * Dataset loc);
  (** the batches that the [DataLoader] over the [BucketBatchSampler]
      yields in one epoch, and those of the development split *)
  train_iterator : gmap loc (gmap string value) → Dataset loc → Z → list batch;
  dev_iterator : gmap loc (gmap string value) → Dataset loc → list batch;
  (** ['save/' + script name + start time] *)
  DEFAULT_SAVE_DIRECTORY : string
}.

Section TrainScript.

Context {value Model Encoder batch : Type}.
Context `{!Externals value Model Encoder batch}.

Local Abbreviation M' := (M value Model Encoder batch).
Local Abbreviation world' := (world value Model Encoder batch).
Local Abbreviation call' := (call Model Encoder batch).

Definition raise {A : Type} (e : exn) : M' A := fun w => (Raise e, w).

(** One call into the toolkit, recorded. The toolkit is not among the
    source files: its calls are taken to return. *)
Definition emit (c : call') : M' unit :=
  fun w => (Ok (), mkWorld (row_heap w) (directories w) (files w) (calls w ++ [c])).

Definition get_heap : M' (gmap loc (gmap string value)) :=
  fun w => (Ok (row_heap w), w).

(** [for x in xs: body(x)] *)
Fixpoint for_each {A : Type} (xs : list A) (body : A → M' unit) : M' unit :=
  match xs with
  | [] => mret ()
  | x :: xs' => body x ≫= fun _ => for_each xs' body
  end.

(** [row[key]] *)
Definition getitem (row : loc) (key : string) : M' value :=
  fun w =>
    match row_heap w !! row with
    | Some r =>
        match r !! key with
        | Some v => (Ok v, w)
        | None => (Raise (KeyError key), w)
        end
    | None => (Raise (RuntimeError "no such row"), w)
    end.

(** [row[key] = v] *)
Definition setitem (row : loc) (key : string) (v : value) : M' unit :=
  fun w =>
    match row_heap w !! row with
    | Some r =>
        (Ok (), mkWorld (<[row := <[key := v]> r]> (row_heap w))
                  (directories w) (files w) (calls w))
    | None => (Raise (RuntimeError "no such row"), w)
    end.

(** [dataset[key]]: the column of a key. *)
Fixpoint column (rows : list loc) (key : string) : M' (list value) :=
  match rows with
  | [] => mret []
  | row :: rows' =>
      v ← getitem row key;
      vs ← column rows' key;
      mret (v :: vs)
  end.

(** [os.makedirs(name)] with [exist_ok=False]: it raises when the target
    exists and creates it, with its missing ancestors, otherwise. Failures
    for want of permissions or for a file in the place of an ancestor are
    left out. *)
Definition os_makedirs (name : string) : M' unit :=
  fun w =>
    if bool_decide (name ∈ directories w) || bool_decide (name ∈ files w)
    then (Raise (FileExistsError name), w)
    else if String.eqb name ""
    then (Raise (FileNotFoundError name), w)
    else
      (Ok (), mkWorld (row_heap w)
                (directories w ∪ {[name]}
                 ∪ list_to_set (ancestors (String.length name) name))
                (files w) (calls w)).

(** Lines 98-102. *)
Definition init_encoders (checkpoint : option (Checkpoint Model Encoder))
    (train_dataset : Dataset loc) : M' (Encoder * Encoder) :=
  match checkpoint with
  | Some c => mret (input_encoder c, output_encoder c)
  | None =>
      texts ← column (rows train_dataset) "text";
      labels ← column (rows train_dataset) "label";
      mret (WordEncoder texts, IdentityEncoder labels)
  end.

(** Lines 105-106, the body of the encoding loop. *)
Definition encode_row (text_encoder label_encoder : Encoder) (row : loc)
  : M' unit :=
  text ← getitem row "text";
  _ ← setitem row "text" (encode text_encoder text);
  label ← getitem row "label";
  setitem row "label" (encode label_encoder label).

(** Lines 103-106. *)
Definition encode_datasets (text_encoder label_encoder : Encoder)
    (train_dataset dev_dataset : Dataset loc) : M' unit :=
  for_each [train_dataset; dev_dataset] (fun dataset =>
    for_each (rows dataset) (fun row =>
      encode_row text_encoder label_encoder row)).

(** Lines 109-114. *)
Definition init_model (checkpoint : option (Checkpoint Model Encoder))
    (text_encoder label_encoder : Encoder) : Model :=
  match checkpoint with
  | Some c => model c
  | None => SeqToLabel text_encoder label_encoder
  end.

(** Lines 156-164, the body of the training loop. *)
Definition train_batch (m : Model) (b : batch) : M' unit :=
  _ ← emit optimizer_zero_grad;
  _ ← emit (model_forward m b);
  _ ← emit (criterion b);
  _ ← emit loss_backward;
  emit optimizer_step.

(** Lines 184-191, the body of the evaluation loop. *)
Definition evaluate_batch (m : Model) (b : batch) : M' unit :=
  _ ← emit (model_forward m b);
  emit (criterion b).

(** Line 117, [get_total_parameters(model)] for the log: what it raises,
    [train] raises. *)
Definition log_total_parameters (m : Model) : M' unit :=
  fun w =>
    match get_total_parameters (parameters m) with
    | inl e => (Raise e, w)
    | inr _ => (Ok (), w)
    end.

(** Lines 129-130, [Adam(params=params)] on the parameters that require
    a gradient: the optimizer of the library refuses an empty list. *)
Definition init_optimizer (m : Model) : M' unit :=
  match List.filter requires_grad (parameters m) with
  | [] => raise (ValueError "optimizer got an empty parameter list")
  | _ => mret ()
  end.

(** [total_loss / len(dev_dataset)], line 193. On an empty development
    split the loop above it has left [total_loss] the integer [0], and
    the division raises. *)
Definition divide_by_len (dev_dataset : Dataset loc) : M' unit :=
  if Nat.eqb (len_Dataset dev_dataset) 0
  then raise (ZeroDivisionError "division by zero")
  else mret ().

(** Lines 145-200. *)
Definition train_epochs (m : Model) (text_encoder label_encoder : Encoder)
    (train_dataset dev_dataset : Dataset loc) (save_directory : string)
    (epochs : Z) : M' unit :=
  _ ← for_each (py_range epochs) (fun epoch =>
    _ ← emit (log_epoch epoch);
    _ ← emit (model_train true);
    h ← get_heap;
    _ ← for_each (train_iterator h train_dataset epoch) (train_batch m);
    _ ← emit (Checkpoint_save save_directory m text_encoder label_encoder);
    _ ← emit (model_train false);
    h ← get_heap;
    _ ← for_each (dev_iterator h dev_dataset) (evaluate_batch m);
    _ ← divide_by_len dev_dataset;
    _ ← emit (optimizer_update epoch);
    _ ← emit log_loss;
    _ ← emit get_accuracy;
    _ ← emit get_bucket_accuracy;
    emit get_random_sample);
  emit log_done.

(** [train(dataset, checkpoint_path, save_directory, ..., epochs)],
    lines 80-200. Logging of sizes, the transfer to the GPU and the
    construction of the loss are left out. *)
Definition train (checkpoint_path : option string) (save_directory : string)
    (epochs : Z) : M' unit :=
  checkpoint ← setup_training checkpoint_path save_directory;
  '(train_dataset, dev_dataset) ← dataset;
  '(text_encoder, label_encoder) ← init_encoders checkpoint train_dataset;
  _ ← encode_datasets text_encoder label_encoder train_dataset dev_dataset;
  let m := init_model checkpoint text_encoder label_encoder in
  _ ← log_total_parameters m;
  _ ← init_optimizer m;
  train_epochs m text_encoder label_encoder train_dataset dev_dataset
    save_directory epochs.

(** *** The command line *)

(** One [parser.add_argument] declaration. *)
Record Argument : Type := mkArgument {
  flag : string;
  default : option string;
  help : string
}.

(** Lines 212-214: the arguments declared on the parser. *)
Definition parser_arguments : list Argument :=
  [mkArgument "--checkpoint_path" None "Path to checkpoint to resume training."].

(** [args], the namespace returned by [parser.parse_args()]. *)
Record Namespace : Type := mkNamespace { checkpoint_path : option string }.

(** The truth value of [args.checkpoint_path]: [None] and the empty
    string are false. *)
Definition truthy (s : option string) : bool :=
  match s with
  | Some s => negb (String.eqb s "")
  | None => false
  end.

(** Lines 216-217. *)
Definition main_save_directory (args : Namespace) : string :=
  match checkpoint_path args with
  | Some p => if truthy (Some p) then dirname p else DEFAULT_SAVE_DIRECTORY
  | None => DEFAULT_SAVE_DIRECTORY
  end.

(** [__main__], lines 208-219, after the parsing of the arguments; [train]
    runs its default two epochs. *)
Definition main (args : Namespace) : M' unit :=
  let save_directory := main_save_directory args in
  _ ← os_makedirs save_directory;
  train (checkpoint_path args) save_directory 2.

End TrainScript.


(** *** Reading the calls of [train] *)

Section TrainCalls.

Context {Model Encoder batch : Type}.

(** The five steps on one training batch. *)
Definition training_steps (m : Model) (b : batch) : list (call Model Encoder batch) :=
  [optimizer_zero_grad; model_forward m b; criterion b; loss_backward;
   optimizer_step].

(** The two steps on one batch of the development split. *)
Definition evaluation_steps (m : Model) (b : batch) : list (call Model Encoder batch) :=
  [model_forward m b; criterion b].

(** The training part of an epoch: all its batches, one after the other. *)
Definition training_calls (m : Model) (batches : list batch) (epoch : Z)
  : list (call Model Encoder batch) :=
  [log_epoch epoch; model_train true] ++ flat_map (training_steps m) batches.

(** The evaluation part of an epoch, on the development split. *)
Definition evaluation_calls (m : Model) (batches : list batch) (epoch : Z)
  : list (call Model Encoder batch) :=
  [model_train false] ++ flat_map (evaluation_steps m) batches
  ++ [optimizer_update epoch; log_loss; get_accuracy; get_bucket_accuracy;
      get_random_sample].

End TrainCalls.

(** What the encoding loop does to one row: 'text' and 'label' hold the
    encoded values, every other key is as before. *)
Definition row_encoded {value : Type} (encode_text encode_label : value → value)
    (r r' : gmap string value) : Prop :=
  r' !! "text" = encode_text <$> r !! "text"
  ∧ r' !! "label" = encode_label <$> r !! "label"
  ∧ ∀ k, k ≠ "text" → k ≠ "label" → r' !! k = r !! k.

(** Every row of the list is in the store and has its 'text' and 'label'. *)
Definition rows_ready {value : Type} (h : gmap loc (gmap string value))
    (ls : list loc) : bool :=
  forallb (fun l =>
             match h !! l with
             | Some r =>
                 match r !! "text", r !! "label" with
                 | Some _, Some _ => true
                 | _, _ => false
                 end
             | None => false
             end) ls.

(** A small instance of the interface, to run the script: values are
    strings, an encoder is the prefix it puts before a value, there is one
    model, of two trainable parameters and a frozen one, and a batch is
    one row. *)
#[local] Instance toy_externals : Externals string unit string loc := {
  encode := fun e v => String.append e v;
  WordEncoder := fun _ => "w:";
  IdentityEncoder := fun _ => "i:";
  SeqToLabel := fun _ _ => ();
  parameters := fun _ =>
    [mkTorchParameter true [4; 3]; mkTorchParameter true [3];
     mkTorchParameter false [5; 4]];
  setup_training := fun path _ w =>
    match path with
    | Some p =>
        if bool_decide (p ∈ files w)
        then (Ok (Some (mkCheckpoint () "W:" "I:")), w)
        else (Raise (FileNotFoundError p), w)
    | None => (Ok None, w)
    end;
  dataset := fun w => (Ok (mkDataset [0; 1], mkDataset [2]), w);
  train_iterator := fun _ d _ => rows d;
  dev_iterator := fun _ d => rows d;
  DEFAULT_SAVE_DIRECTORY := "save/train_seq_to_label"
}.

Definition toy_rows : gmap loc (gmap string string) :=
  {[ 0 := {[ "text" := "a b"; "label" := "x"; "id" := "7" ]};
     1 := {[ "text" := "c"; "label" := "y" ]};
     2 := {[ "text" := "d"; "label" := "x" ]} ]}.

(** A world in which a first run has left a checkpoint behind. *)
Definition toy_world : world string unit string loc :=
  mkWorld toy_rows {[ "save"; "save/run" ]} {[ "save/run/1.pt" ]} [].


(** The world after some more calls. *)
Definition after_calls {value Model Encoder batch : Type}
    (w : world value Model Encoder batch) (cs : list (call Model Encoder batch))
  : world value Model Encoder batch :=
  mkWorld (row_heap w) (directories w) (files w) (calls w ++ cs).



(** Whether the mask of the module is set at a position. *)
Definition is_masked (mask : option (Tensor3 bool)) (b i j : nat) : bool :=
  match mask with
  | Some m => at3 m b i j
  | None => false
  end.

(** The weights of a [linear_in] that leaves its input as it is. *)
Definition identity_weights : nat -> nat -> R :=
  fun o k => if Nat.eqb o k then 1%R else 0%R.


(** The values that the rows of a list hold under a key. *)
Definition raw_column {value : Type} (h : gmap loc (gmap string value))
    (ls : list loc) (key : string) : list value :=
  omap (fun l => h !! l ≫= fun r => r !! key) ls.


(** The rows of the small instance with one more row that has no label. *)
Definition toy_rows_unlabelled : gmap loc (gmap string string) :=
  <[3 := {[ "text" := "e" ]}]> toy_rows.

Definition toy_world_unlabelled : world string unit string loc :=
  mkWorld toy_rows_unlabelled {[ "save"; "save/run" ]} {[ "save/run/1.pt" ]} [].


(* ===================================================================== *)
(** * Part II: properties                                                *)
(* ===================================================================== *)

(** ** lib/utils.py: padding *)

Lemma fold_left_max_ge (xs : list Z) (x : Z) :
  (x ≤ fold_left Z.max xs x)%Z ∧ ∀ y, y ∈ xs → (y ≤ fold_left Z.max xs x)%Z.
Proof.
  revert x. induction xs as [|a xs IH]; intros x; simpl.
  - split; [lia | intros y Hy; inversion Hy].
  - destruct (IH (Z.max x a)) as [H1 H2]. split; [lia|].
    intros y Hy. apply elem_of_cons in Hy as [->|Hy]; [lia | auto].
Qed.

Lemma fold_left_max_elem (xs : list Z) (x : Z) :
  fold_left Z.max xs x ∈ x :: xs.
Proof.
  revert x. induction xs as [|a xs IH]; intros x; simpl.
  - apply list_elem_of_here.
  - specialize (IH (Z.max x a)).
    apply elem_of_cons in IH as [Heq|Hin].
    + rewrite Heq. destruct (Z.max_spec x a) as [[_ ->]|[_ ->]].
      * apply list_elem_of_further, list_elem_of_here.
      * apply list_elem_of_here.
    + do 2 apply list_elem_of_further. exact Hin.
Qed.

Lemma py_max_spec (l : list Z) :
  l ≠ [] →
  ∃ m, py_max l = Ok m ∧ m ∈ l ∧ ∀ y, y ∈ l → (y ≤ m)%Z.
Proof.
  destruct l as [|x xs]; [congruence|]. intros _.
  exists (fold_left Z.max xs x). split; [reflexivity|].
  split; [apply fold_left_max_elem|].
  intros y Hy. destruct (fold_left_max_ge xs x) as [H1 H2].
  apply elem_of_cons in Hy as [->|Hy]; auto.
Qed.

Lemma length_pad_tensor (PADDING_INDEX : Z) (tensor : list Z) (n : Z) :
  (Z.of_nat (length tensor) ≤ n)%Z →
  Z.of_nat (length (pad_tensor PADDING_INDEX tensor n)) = n.
Proof.
  intros Hle. unfold pad_tensor, py_repeat.
  rewrite length_app, repeat_length. lia.
Qed.

(** C5: on a non-empty batch [pad_batch] returns, next to the original
    lengths in input order, the rows in input order, each followed by as
    many [PADDING_INDEX] entries as it is shorter than the longest row, so
    that every padded row has exactly the maximum length. *)
Theorem pad_batch_pads_to_max (PADDING_INDEX : Z) (batch : list (list Z)) :
  batch ≠ [] →
  ∃ (max_len : Z) (padded : list (list Z)),
    pad_batch PADDING_INDEX batch
      = Ok (padded, map (λ row, Z.of_nat (length row)) batch)
    ∧ (∃ row, row ∈ batch ∧ Z.of_nat (length row) = max_len)
    ∧ (∀ row, row ∈ batch → (Z.of_nat (length row) ≤ max_len)%Z)
    ∧ length padded = length batch
    ∧ ∀ (i : nat) (row : list Z), batch !! i = Some row →
        ∃ p, padded !! i = Some p
          ∧ p = row ++ repeat PADDING_INDEX (Z.to_nat max_len - length row)
          ∧ Z.of_nat (length p) = max_len.
Proof.
  intros Hne.
  destruct (py_max_spec (map (λ row, Z.of_nat (length row)) batch))
    as (m & Hmax & Hin & Hge).
  { destruct batch; [congruence | discriminate]. }
  exists m, (map (λ row, pad_tensor PADDING_INDEX row m) batch).
  assert (Hall : ∀ row, row ∈ batch → (Z.of_nat (length row) ≤ m)%Z).
  { intros row Hrow. apply Hge. apply list_elem_of_fmap. eauto. }
  split; [|split; [|split; [|split]]].
  - unfold pad_batch. rewrite Hmax. reflexivity.
  - apply list_elem_of_fmap in Hin as (row & -> & Hrow). eauto.
  - exact Hall.
  - apply length_map.
  - intros i row Hi.
    exists (pad_tensor PADDING_INDEX row m). split; [|split].
    + rewrite list_lookup_fmap, Hi. reflexivity.
    + unfold pad_tensor, py_repeat. f_equal. f_equal.
      assert (Z.of_nat (length row) ≤ m)%Z
        by (apply Hall; eapply list_elem_of_lookup_2; eauto).
      lia.
    + apply length_pad_tensor, Hall. eapply list_elem_of_lookup_2; eauto.
Qed.

Lemma pad_batch_pads_to_max_witness :
  ∃ (max_len : Z) (padded : list (list Z)),
    pad_batch 0 [[5; 6; 7]; [8]]%Z
      = Ok (padded, map (λ row, Z.of_nat (length row)) [[5; 6; 7]; [8]]%Z)
    ∧ (∃ row, row ∈ [[5; 6; 7]; [8]]%Z ∧ Z.of_nat (length row) = max_len)
    ∧ (∀ row, row ∈ [[5; 6; 7]; [8]]%Z → (Z.of_nat (length row) ≤ max_len)%Z)
    ∧ length padded = length [[5; 6; 7]; [8]]%Z
    ∧ ∀ (i : nat) (row : list Z), [[5; 6; 7]; [8]]%Z !! i = Some row →
        ∃ p, padded !! i = Some p
          ∧ p = row ++ repeat 0%Z (Z.to_nat max_len - length row)
          ∧ Z.of_nat (length p) = max_len.
Proof. apply (pad_batch_pads_to_max 0 [[5; 6; 7]; [8]]%Z). discriminate. Defined.

(** The error path: [max] of an empty sequence. *)
Lemma pad_batch_empty (PADDING_INDEX : Z) :
  pad_batch PADDING_INDEX [] = Raise (ValueError "max() arg is an empty sequence").
Proof. reflexivity. Qed.

Example pad_batch_example :
  pad_batch 0 [[5; 6; 7]; [8]; []]%Z
  = Ok ([[5; 6; 7]; [8; 0; 0]; [0; 0; 0]], [3; 1; 0])%Z.
Proof. reflexivity. Qed.

(** ** lib/utils.py: resplit_datasets *)

Section ResplitProperties.

Context {Row : Type}.
Variable rng : Type.
Variable seed_rng : Z -> rng.
Variable randbelow : rng -> nat -> nat * rng.
Variable float : Type.
Variable round_len_times : nat -> float -> result Z.

Local Abbreviation resplit :=
  (resplit_datasets rng seed_rng randbelow float round_len_times).

Lemma length_swap (x : list Row) (i j : nat) : length (swap x i j) = length x.
Proof.
  unfold swap. destruct (x !! i), (x !! j); trivial.
  now rewrite !length_insert.
Qed.

Lemma length_shuffle_from (k : nat) (g : rng) (x : list Row) :
  length (shuffle_from rng randbelow k g x) = length x.
Proof.
  revert g x. induction k as [|k IH]; intros g x; simpl; [reflexivity|].
  destruct (randbelow g (S (S k))) as [j g'].
  rewrite IH. apply length_swap.
Qed.

(** With a seed given, the generator does not depend on what the
    operating system would have supplied. *)
Lemma Random_seeded (entropy entropy' : Z) (s : Z) :
  Random rng seed_rng entropy (Some s) = Random rng seed_rng entropy' (Some s).
Proof. reflexivity. Qed.

(** The two returned datasets together hold as many rows as the two
    arguments. *)
Lemma resplit_datasets_total_rows entropy (dataset other : Dataset Row)
    random_seed cut (d1 d2 : Dataset Row) :
  resplit entropy dataset other random_seed cut = Ok (d1, d2) →
  length (rows d1) + length (rows d2) = length (rows dataset) + length (rows other).
Proof.
  unfold resplit_datasets, shuffle. destruct cut as [c|]; simpl.
  - destruct (round_len_times _ c) as [r|e]; simpl; [|discriminate].
    intros [= <- <-]; simpl.
    rewrite length_take, length_drop, !length_shuffle_from, length_app. lia.
  - intros [= <- <-]; simpl.
    rewrite length_take, length_drop, !length_shuffle_from, length_app. lia.
Qed.

(** C9: with the same two datasets, the same integer [random_seed] and
    the same [cut], any two calls return the same result, whatever the
    state of the environment (the entropy a seedless generator would
    draw) at the time of each call. *)
Theorem resplit_datasets_deterministic
    (dataset other_dataset : Dataset Row) (random_seed : Z)
    (cut : option float) (entropy1 entropy2 : Z) :
  resplit entropy1 dataset other_dataset (Some random_seed) cut
  = resplit entropy2 dataset other_dataset (Some random_seed) cut.
Proof.
  unfold resplit_datasets.
  rewrite (Random_seeded entropy1 entropy2 random_seed).
  reflexivity.
Qed.

End ResplitProperties.

(** A run: six rows split four to two, reshuffled with seed 3 and no cut. *)
Example resplit_datasets_example :
  resplit_datasets nat Z.to_nat counter_randbelow (nat * nat) ratio_round_len_times
    0 (mkDataset [10; 11; 12; 13]) (mkDataset [14; 15]) (Some 3%Z) None
  = Ok (mkDataset [12; 15; 10; 11], mkDataset [14; 13]).
Proof. vm_compute. reflexivity. Qed.

(** The same run cut at one third of the six rows. *)
Example resplit_datasets_cut_example :
  resplit_datasets nat Z.to_nat counter_randbelow (nat * nat) ratio_round_len_times
    0 (mkDataset [10; 11; 12; 13]) (mkDataset [14; 15]) (Some 3%Z) (Some (1, 3))
  = Ok (mkDataset [12; 15], mkDataset [10; 11; 14; 13]).
Proof. vm_compute. reflexivity. Qed.

(** Without a seed the result follows the entropy of the call. *)
Example resplit_datasets_unseeded :
  resplit_datasets nat Z.to_nat counter_randbelow (nat * nat) ratio_round_len_times
    0 (mkDataset [10; 11; 12; 13]) (mkDataset [14; 15]) None None
  ≠ resplit_datasets nat Z.to_nat counter_randbelow (nat * nat) ratio_round_len_times
    1 (mkDataset [10; 11; 12; 13]) (mkDataset [14; 15]) None None.
Proof. vm_compute. discriminate. Qed.

(** ** lib/datasets/zero_to_zero.py *)

Lemma length_py_range (n : Z) : (0 ≤ n)%Z → Z.of_nat (length (py_range n)) = n.
Proof.
  intros Hn. unfold py_range. rewrite length_map, length_seq. lia.
Qed.

Lemma zero_row_lookup (k : string) :
  zero_row !! "source" = Some "0" ∧ zero_row !! "target" = Some "0"
  ∧ (k ≠ "source" → k ≠ "target" → zero_row !! k = None).
Proof.
  unfold zero_row. split; [reflexivity|]. split; [reflexivity|].
  intros H1 H2. rewrite lookup_insert_ne by congruence.
  apply lookup_singleton_ne. congruence.
Qed.

Lemma zero_dataset_of_range (n : Z) :
  (0 ≤ n)%Z →
  zero_dataset_of n (mkDataset (map (λ _, zero_row) (py_range n))).
Proof.
  intros Hn. split; simpl.
  - rewrite length_map. now apply length_py_range.
  - intros r Hr. apply list_elem_of_fmap in Hr as (i & -> & _).
    split; [apply (zero_row_lookup "")|].
    split; [apply (zero_row_lookup "")|].
    intros k. apply zero_row_lookup.
Qed.

(** C10: [zero_to_zero] returns a single dataset exactly when one of the
    three flags is set and a tuple otherwise (the empty tuple when none is);
    the datasets come in (train, dev, test) order, one per flag that is
    set, each with the requested number of rows, every row being
    [{'source': '0', 'target': '0'}]. *)
Theorem zero_to_zero_returns (train dev test : bool)
    (train_rows dev_rows test_rows seq_max_length : Z) :
  (0 ≤ train_rows)%Z → (0 ≤ dev_rows)%Z → (0 ≤ test_rows)%Z →
  let ret :=
    zero_to_zero train dev test train_rows dev_rows test_rows seq_max_length in
  let requested :=
    map snd (List.filter fst
               [(train, train_rows); (dev, dev_rows); (test, test_rows)]) in
  (Nat.b2n train + Nat.b2n dev + Nat.b2n test = 1
     ↔ ∃ d, ret = SingleDataset d)
  ∧ (Nat.b2n train + Nat.b2n dev + Nat.b2n test ≠ 1
     ↔ ∃ ds, ret = TupleOfDatasets ds)
  ∧ (train = false → dev = false → test = false → ret = TupleOfDatasets [])
  ∧ Forall2 zero_dataset_of requested (returned_datasets ret).
Proof.
  intros Ht Hd Hs.
  pose proof (zero_dataset_of_range _ Ht) as Zt.
  pose proof (zero_dataset_of_range _ Hd) as Zd.
  pose proof (zero_dataset_of_range _ Hs) as Zs.
  destruct train, dev, test; cbn -[zero_dataset_of py_range zero_row];
    (split; [|split; [|split]]);
    try (split; [intros; try lia; try congruence; eauto
                | intros [? ?]; try lia; try congruence]);
    try (intros; congruence);
    try reflexivity;
    repeat (constructor; trivial).
Qed.

Lemma zero_to_zero_returns_witness :
  let ret := zero_to_zero true false true 2 64 1 10 in
  let requested :=
    map snd (List.filter fst [(true, 2%Z); (false, 64%Z); (true, 1%Z)]) in
  (Nat.b2n true + Nat.b2n false + Nat.b2n true = 1
     ↔ ∃ d, ret = SingleDataset d)
  ∧ (Nat.b2n true + Nat.b2n false + Nat.b2n true ≠ 1
     ↔ ∃ ds, ret = TupleOfDatasets ds)
  ∧ (true = false → false = false → true = false → ret = TupleOfDatasets [])
  ∧ Forall2 zero_dataset_of requested (returned_datasets ret).
Proof. apply (zero_to_zero_returns true false true 2 64 1 10); lia. Defined.

Example zero_to_zero_train_only :
  zero_to_zero true false false 2 64 64 10
  = SingleDataset (mkDataset [zero_row; zero_row]).
Proof. reflexivity. Qed.

Example zero_to_zero_dev_test :
  zero_to_zero false true true 256 1 2 10
  = TupleOfDatasets [mkDataset [zero_row]; mkDataset [zero_row; zero_row]].
Proof. reflexivity. Qed.

Example zero_to_zero_nothing :
  zero_to_zero false false false 256 64 64 10 = TupleOfDatasets [].
Proof. reflexivity. Qed.

(** ** lib/nn/attention.py *)

Lemma rsum_ext (n : nat) (f g : nat -> R) :
  (∀ k, k < n → f k = g k) → rsum n f = rsum n g.
Proof.
  induction n as [|n IH]; intros H; simpl; [reflexivity|].
  rewrite IH by (intros k Hk; apply H; lia).
  rewrite (H n) by lia. reflexivity.
Qed.

(** Row-major index arithmetic of [view]. *)
Lemma flat2_div (r c j : nat) : j < c → (r * c + j) / c = r.
Proof. intros Hj. symmetry. apply (Nat.div_unique _ _ r j); lia. Qed.

Lemma flat2_mod (r c j : nat) : j < c → (r * c + j) mod c = j.
Proof. intros Hj. symmetry. apply (Nat.mod_unique _ _ r j); lia. Qed.

Lemma flat3_div (b i j s1 s2 : nat) :
  i < s1 → j < s2 → ((b * s1 + i) * s2 + j) / (s1 * s2) = b.
Proof.
  intros Hi Hj. symmetry. apply (Nat.div_unique _ _ b (i * s2 + j)); nia.
Qed.

Lemma view3_2_at {A : Type} (t : Tensor3 A) (r c : nat) :
  r = size0 t * size1 t → c = size2 t →
  ∃ v, view3_2 t r c = Ok v
     ∧ rows2 v = r ∧ cols2 v = c
     ∧ ∀ b i j, i < size1 t → j < c →
         at2 v (b * size1 t + i) j = at3 t b i j.
Proof.
  intros -> ->. unfold view3_2. rewrite Nat.eqb_refl.
  eexists. split; [reflexivity|].
  split; [reflexivity|]. split; [reflexivity|].
  intros b i j Hi Hj. cbn [at2].
  rewrite flat3_div, flat2_div, flat2_mod by assumption.
  rewrite flat2_mod by assumption. reflexivity.
Qed.

Lemma view2_3_at {A : Type} (t : Tensor2 A) (a b c : nat) :
  rows2 t = a * b → cols2 t = c →
  ∃ v, view2_3 t a b c = Ok v
     ∧ size0 v = a ∧ size1 v = b ∧ size2 v = c
     ∧ ∀ i j k, k < c → at3 v i j k = at2 t (i * b + j) k.
Proof.
  intros Hr Hc. unfold view2_3. rewrite Hr, Hc, Nat.eqb_refl.
  eexists. split; [reflexivity|]. repeat (split; [reflexivity|]).
  intros i j k Hk. cbn [at3].
  rewrite flat2_div, flat2_mod by assumption. reflexivity.
Qed.

Section Forward.

Variables (dimensions : nat) (mask : option (Tensor3 bool))
          (attention_type : string) (init_in init_out : nat -> nat -> R)
          (self : Attention.t) (input_ context : Tensor3 R).

Hypothesis Hinit :
  Attention.__init__ dimensions mask attention_type init_in init_out = Ok self.
Hypothesis Hdim : size2 input_ = dimensions.
Hypothesis Hbatch : size0 context = size0 input_.
Hypothesis Hctx : size2 context = dimensions.

Lemma init_inv :
  self = Attention.mk attention_type
           (if String.eqb attention_type "general"
            then Some (mkLinear dimensions dimensions init_in) else None)
           (mkLinear (dimensions * 2) dimensions init_out) mask.
Proof.
  unfold Attention.__init__ in Hinit.
  destruct (negb _); [discriminate|]. now inversion Hinit.
Qed.

Lemma project_input_at :
  ∃ q, Attention.project_input self input_ = Ok q
     ∧ size0 q = size0 input_ ∧ size1 q = size1 input_ ∧ size2 q = dimensions
     ∧ ∀ b i k, i < size1 input_ → k < dimensions →
         at3 q b i k = scoring_input attention_type init_in input_ b i k.
Proof.
  rewrite init_inv. unfold Attention.project_input, scoring_input.
  cbn [Attention.attention_type Attention.linear_in].
  destruct (String.eqb attention_type "general").
  - destruct (view3_2_at input_ (size0 input_ * size1 input_) (size2 input_))
      as (v & Hv & Hr & Hc & Hat); [reflexivity..|].
    rewrite Hv. cbn [mbind result_bind].
    unfold apply_Linear. cbn [in_features out_features weight].
    rewrite Hc, Hdim, Nat.eqb_refl. cbn [mbind result_bind].
    match goal with |- context [view2_3 ?t _ _ _] =>
      destruct (view2_3_at t (size0 input_) (size1 input_) dimensions)
        as (q & Hq & Hq0 & Hq1 & Hq2 & Hqat); [exact Hr | reflexivity |]
    end.
    exists q. rewrite Hq. repeat (split; [trivial|]).
    intros b i k Hi Hk. rewrite Hqat by assumption. cbn [at2].
    unfold dot. apply rsum_ext. intros m Hm.
    rewrite Hat by lia. reflexivity.
  - exists input_. repeat (split; [trivial|]). reflexivity.
Qed.

Lemma attention_scores_at (q : Tensor3 R) :
  size0 q = size0 input_ → size2 q = dimensions →
  ∃ s, Attention.attention_scores q context = Ok s
     ∧ size0 s = size0 q ∧ size1 s = size1 q ∧ size2 s = size1 context
     ∧ ∀ b i j, at3 s b i j = dot dimensions (at3 q b i) (at3 context b j).
Proof.
  intros H0 H2. unfold Attention.attention_scores, bmm.
  cbn [transpose12 size0 size1 size2].
  rewrite H0, Hbatch, H2, Hctx, !Nat.eqb_refl. cbn [andb].
  eexists. split; [reflexivity|]. repeat (split; [reflexivity|]).
  intros b i j. reflexivity.
Qed.

Hypothesis Hmask : mask_fits mask input_ context.

Lemma apply_mask_at (s : Tensor3 R) :
  size0 s = size0 input_ → size1 s = size1 input_ → size2 s = size1 context →
  ∃ ms, Attention.apply_mask self s = Ok ms
      ∧ size0 ms = size0 s ∧ size1 ms = size1 s ∧ size2 ms = size2 s
      ∧ ∀ b i j, at3 ms b i j = masked_score mask (at3 s) b i j.
Proof.
  intros H0 H1 H2. rewrite init_inv. unfold Attention.apply_mask, masked_score.
  cbn [Attention.mask]. destruct mask as [m|].
  - destruct Hmask as (M0 & M1 & M2). unfold masked_fill_.
    rewrite M0, M1, M2, H0, H1, H2, !Nat.eqb_refl. cbn [andb].
    eexists. split; [reflexivity|]. repeat (split; [reflexivity|]).
    intros b i j. reflexivity.
  - eexists. split; [reflexivity|]. repeat (split; [reflexivity|]).
    intros b i j. reflexivity.
Qed.

(** [forward] read entry by entry: the scoring input [q], the scores
    [s], the attention weights and the output. *)
Lemma forward_entries :
  ∃ q s output weights,
    Attention.project_input self input_ = Ok q
    ∧ Attention.attention_scores q context = Ok s
    ∧ Attention.forward self input_ context = Ok (output, weights)
    ∧ (size0 output = size0 input_ ∧ size1 output = size1 input_
       ∧ size2 output = dimensions)
    ∧ (size0 weights = size0 input_ ∧ size1 weights = size1 input_
       ∧ size2 weights = size1 context)
    ∧ (∀ b i k, i < size1 input_ → k < dimensions →
         at3 q b i k = scoring_input attention_type init_in input_ b i k)
    ∧ (∀ b i j, at3 s b i j = dot dimensions (at3 q b i) (at3 context b j))
    ∧ (∀ b i j, i < size1 input_ → j < size1 context →
         at3 weights b i j
         = softmax_weight (size1 context) (masked_score mask (at3 s) b i) j)
    ∧ (∀ b i o, i < size1 input_ → o < dimensions →
         at3 output b i o
         = tanh (rsum (2 * dimensions)
                   (fun k => mix_concat dimensions (size1 context)
                               (at3 weights b i) (at3 context b) (at3 q b i) k
                             * init_out o k)%R)).
Proof.
  destruct project_input_at as (q & Hq & Q0 & Q1 & Q2 & Qat).
  destruct (attention_scores_at q Q0 Q2) as (s & Hs & S0 & S1 & S2 & Sat).
  destruct (apply_mask_at s) as (ms & Hms & M0 & M1 & M2 & Mat); [lia..|].
  exists q, s.
  unfold Attention.forward. rewrite Hq. cbn [mbind result_bind].
  rewrite Hs. cbn [mbind result_bind]. rewrite Hms. cbn [mbind result_bind].
  assert (E0 : size0 ms = size0 input_) by congruence.
  assert (E1 : size1 ms = size1 input_) by congruence.
  assert (E2 : size2 ms = size1 context) by congruence.
  destruct (view3_2_at ms (size0 input_ * size1 input_) (size1 context))
    as (v & Hv & Vr & Vc & Vat); [congruence..|].
  rewrite E1 in Vat.
  rewrite Hv. cbn [mbind result_bind].
  destruct (view2_3_at (Softmax v) (size0 input_) (size1 input_) (size1 context))
    as (w & Hw & W0 & W1 & W2 & Wat); [exact Vr | exact Vc |].
  rewrite Hw. cbn [mbind result_bind].
  unfold bmm. rewrite W0, W2, Hbatch, !Nat.eqb_refl. cbn [andb mbind result_bind].
  unfold cat_dim2. cbn [size0 size1 size2].
  rewrite ?W0, ?W1, ?Q0, ?Q1, !Nat.eqb_refl.
  cbn [andb mbind result_bind].
  match goal with |- context [view3_2 ?t ?r ?c] =>
    destruct (view3_2_at t r c) as (c2 & Hc & Cr & Cc & Cat);
      [cbn [size0 size1 size2]; lia..|]
  end.
  cbn [size0 size1 size2] in Cat.
  rewrite Hc. cbn [mbind result_bind].
  rewrite init_inv. cbn [Attention.linear_out].
  unfold apply_Linear. cbn [in_features out_features weight].
  rewrite Cc, Hdim. replace (dimensions * 2) with (2 * dimensions) by lia.
  rewrite Nat.eqb_refl. cbn [mbind result_bind].
  match goal with |- context [view2_3 ?t _ _ _] =>
    destruct (view2_3_at t (size0 input_) (size1 input_) dimensions)
      as (o & Ho & O0 & O1 & O2 & Oat); [exact Cr | reflexivity |]
  end.
  rewrite Ho. cbn [mbind result_bind].
  eexists _, w. split; [reflexivity|]. split; [reflexivity|].
  split; [reflexivity|].
  split; [cbn [Tanh size0 size1 size2]; auto|].
  split; [auto|].
  split; [exact Qat|]. split; [exact Sat|].
  assert (WAT : ∀ b i j, i < size1 input_ → j < size1 context →
            at3 w b i j
            = softmax_weight (size1 context) (masked_score mask (at3 s) b i) j).
  { intros b i j Hi Hj. rewrite Wat by assumption.
    unfold Softmax, softmax_weight. cbn [at2]. rewrite Vc.
    rewrite Vat, Mat by assumption. f_equal.
    apply rsum_ext. intros j' Hj'. rewrite Vat, Mat by assumption. reflexivity. }
  split; [exact WAT|].
  intros b i k Hi Hk. cbn [Tanh at3]. rewrite Oat by assumption. cbn [at2].
  f_equal. apply rsum_ext. intros m Hm.
  rewrite Cat by lia. cbn [at3]. unfold mix_concat. rewrite Hctx. reflexivity.
Qed.

End Forward.

(** C3: the constructor raises exactly when [attention_type] is neither
    'dot' nor 'general'; what it raises is the assertion error of line 28,
    handed to the caller as it is; for 'dot' and 'general' it returns the
    module. *)
Theorem Attention_init_raises_iff (dimensions : nat) (mask : option (Tensor3 bool))
    (attention_type : string) (init_in init_out : nat -> nat -> R) :
  (raises (Attention.__init__ dimensions mask attention_type init_in init_out)
     ↔ attention_type ≠ "dot" ∧ attention_type ≠ "general")
  ∧ (∀ e, Attention.__init__ dimensions mask attention_type init_in init_out
            = Raise e →
          e = AssertionError "Invalid attention type selected.")
  ∧ (attention_type = "dot" ∨ attention_type = "general" ↔
       ∃ self, Attention.__init__ dimensions mask attention_type init_in init_out
                 = Ok self).
Proof.
  unfold raises, Attention.__init__.
  case_bool_decide as Hin; cbn [negb].
  - assert (Hty : attention_type = "dot" ∨ attention_type = "general").
    { apply elem_of_cons in Hin as [->|Hin]; [now left|].
      apply elem_of_cons in Hin as [->|Hin]; [now right|].
      now apply elem_of_nil in Hin. }
    split; [|split].
    + split; [intros [e He]; discriminate | intros [H1 H2]; tauto].
    + intros e He. discriminate.
    + split; [eauto | intros _; exact Hty].
  - assert (Hty : attention_type ≠ "dot" ∧ attention_type ≠ "general").
    { split; intros ->; apply Hin.
      - apply list_elem_of_here.
      - apply list_elem_of_further, list_elem_of_here. }
    split; [|split].
    + split; [intros _; exact Hty | eauto].
    + intros e [= <-]. reflexivity.
    + split; [tauto | intros [self Hself]; discriminate].
Qed.

Example Attention_init_general :
  Attention.__init__ 2 None "general" zero_weights zero_weights
  = Ok (Attention.mk "general" (Some (mkLinear 2 2 zero_weights))
          (mkLinear 4 2 zero_weights) None).
Proof. reflexivity. Qed.

Example Attention_init_dot :
  Attention.__init__ 2 None "dot" zero_weights zero_weights
  = Ok (Attention.mk "dot" None (mkLinear 4 2 zero_weights) None).
Proof. reflexivity. Qed.

Example Attention_init_invalid :
  Attention.__init__ 2 None "concat" zero_weights zero_weights
  = Raise (AssertionError "Invalid attention type selected.").
Proof. reflexivity. Qed.

(** The comparison is the exact string comparison of Python. *)
Example Attention_init_case_sensitive :
  Attention.__init__ 2 None "Dot" zero_weights zero_weights
  = Raise (AssertionError "Invalid attention type selected.").
Proof. reflexivity. Qed.

Lemma dot_ext (n : nat) (u u' v : nat -> R) :
  (∀ k, k < n → u k = u' k) → dot n u v = dot n u' v.
Proof.
  intros H. unfold dot. apply rsum_ext. intros k Hk. now rewrite H.
Qed.

Lemma softmax_weight_ext (n : nat) (s s' : nat -> score) (j : nat) :
  (∀ k, s k = s' k) → softmax_weight n s j = softmax_weight n s' j.
Proof.
  intros H. unfold softmax_weight. rewrite H. f_equal.
  apply rsum_ext. intros k _. now rewrite H.
Qed.

(** C1, as the code has it: each alignment score, before the optional
    mask and the softmax, is the plain dot product (no scaling factor) of
    the input vector, projected by [linear_in] when the type is 'general',
    with the context vector; the attention weights returned by [forward]
    are the softmax of these scores after masking. *)
Theorem attention_scores_are_dot_products
    (dimensions : nat) (mask : option (Tensor3 bool)) (attention_type : string)
    (init_in init_out : nat -> nat -> R) (self : Attention.t)
    (input_ context : Tensor3 R) :
  Attention.__init__ dimensions mask attention_type init_in init_out = Ok self →
  size2 input_ = dimensions →
  size0 context = size0 input_ →
  size2 context = dimensions →
  mask_fits mask input_ context →
  ∃ q s output weights,
    Attention.project_input self input_ = Ok q
    ∧ Attention.attention_scores q context = Ok s
    ∧ Attention.forward self input_ context = Ok (output, weights)
    ∧ ∀ b i j, b < size0 input_ → i < size1 input_ → j < size1 context →
        at3 s b i j
        = dot dimensions (scoring_input attention_type init_in input_ b i)
            (at3 context b j)
        ∧ at3 weights b i j
          = softmax_weight (size1 context) (masked_score mask (at3 s) b i) j.
Proof.
  intros Hinit Hdim Hbatch Hctx Hmask.
  destruct (forward_entries _ _ _ _ _ _ _ _ Hinit Hdim Hbatch Hctx Hmask)
    as (q & s & output & weights & Hq & Hs & Hf & _ & _ & Qat & Sat & Wat & _).
  exists q, s, output, weights. repeat (split; [assumption|]).
  intros b i j Hb Hi Hj. split.
  - rewrite Sat. apply dot_ext. intros k Hk. now apply Qat.
  - now apply Wat.
Qed.

Lemma attention_scores_are_dot_products_witness :
  ∃ q s output weights,
    Attention.project_input
      (Attention.mk "general" (Some (mkLinear 1 1 zero_weights))
         (mkLinear 2 1 (second_half_weights 1)) None)
      (constant3 1 1 1 1) = Ok q
    ∧ Attention.attention_scores q (constant3 1 2 1 0) = Ok s
    ∧ Attention.forward
        (Attention.mk "general" (Some (mkLinear 1 1 zero_weights))
           (mkLinear 2 1 (second_half_weights 1)) None)
        (constant3 1 1 1 1) (constant3 1 2 1 0) = Ok (output, weights)
    ∧ ∀ b i j, b < 1 → i < 1 → j < 2 →
        at3 s b i j
        = dot 1 (scoring_input "general" zero_weights (constant3 1 1 1 1) b i)
            (at3 (constant3 1 2 1 0) b j)
        ∧ at3 weights b i j
          = softmax_weight 2 (masked_score None (at3 s) b i) j.
Proof.
  apply (attention_scores_are_dot_products 1 None "general" zero_weights
           (second_half_weights 1)
           (Attention.mk "general" (Some (mkLinear 1 1 zero_weights))
              (mkLinear 2 1 (second_half_weights 1)) None)
           (constant3 1 1 1 1) (constant3 1 2 1 0));
    reflexivity.
Defined.

(** C1 as the spec words it fails: with four dimensions the score of the
    all-ones input against the all-ones context is 4, the plain dot
    product, and not the scaled dot product 4 / sqrt 4 = 2. *)
Lemma attention_scores_not_scaled :
  ∃ self q s,
    Attention.__init__ 4 None "dot" zero_weights zero_weights = Ok self
    ∧ Attention.project_input self (constant3 1 1 4 1) = Ok q
    ∧ Attention.attention_scores q (constant3 1 1 4 1) = Ok s
    ∧ at3 s 0 0 0 = 4%R
    ∧ scaled_dot_product 4
        (scoring_input "dot" zero_weights (constant3 1 1 4 1) 0 0)
        (at3 (constant3 1 1 4 1) 0 0) = 2%R
    ∧ at3 s 0 0 0
      ≠ scaled_dot_product 4
          (scoring_input "dot" zero_weights (constant3 1 1 4 1) 0 0)
          (at3 (constant3 1 1 4 1) 0 0).
Proof.
  eexists _, _, _. split; [reflexivity|]. split; [reflexivity|].
  split; [reflexivity|].
  assert (Hs : at3 (mkTensor3 1 1 1
                      (fun n i j => rsum 4 (fun k =>
                         at3 (constant3 1 1 4 1) n i k
                         * at3 (transpose12 (constant3 1 1 4 1)) n k j)%R))
                 0 0 0 = 4%R).
  { cbn. lra. }
  assert (Hd : scaled_dot_product 4
                 (scoring_input "dot" zero_weights (constant3 1 1 4 1) 0 0)
                 (at3 (constant3 1 1 4 1) 0 0) = 2%R).
  { unfold scaled_dot_product, dot. cbn [scoring_input String.eqb].
    cbn -[sqrt INR].
    replace (INR 4) with (2 * 2)%R by (simpl; lra).
    rewrite sqrt_square by lra. lra. }
  split; [exact Hs|]. split; [exact Hd|].
  rewrite Hd. cbn. lra.
Qed.

Lemma mix_concat_ext (d n : nat) (weights : nat -> R) (ctx : nat -> nat -> R)
    (v v' : nat -> R) (k : nat) :
  k < 2 * d → (∀ m, m < d → v m = v' m) →
  mix_concat d n weights ctx v k = mix_concat d n weights ctx v' k.
Proof.
  intros Hk H. unfold mix_concat.
  destruct (Nat.ltb_spec k d); [reflexivity|]. apply H. lia.
Qed.

(** C2, as the code has it: the output is [tanh] of [linear_out] applied
    to the concatenation of the softmax-weighted mixture of the context
    vectors with the input as it entered the scores, which for 'general'
    is the [linear_in] projection of the input and for 'dot' the input
    itself; [forward] returns it together with the attention weights. *)
Theorem forward_output_from_scoring_input
    (dimensions : nat) (mask : option (Tensor3 bool)) (attention_type : string)
    (init_in init_out : nat -> nat -> R) (self : Attention.t)
    (input_ context : Tensor3 R) :
  Attention.__init__ dimensions mask attention_type init_in init_out = Ok self →
  size2 input_ = dimensions →
  size0 context = size0 input_ →
  size2 context = dimensions →
  mask_fits mask input_ context →
  ∃ output weights,
    Attention.forward self input_ context = Ok (output, weights)
    ∧ (size0 output = size0 input_ ∧ size1 output = size1 input_
       ∧ size2 output = dimensions)
    ∧ (size0 weights = size0 input_ ∧ size1 weights = size1 input_
       ∧ size2 weights = size1 context)
    ∧ ∀ b i, b < size0 input_ → i < size1 input_ →
        (∀ j, j < size1 context →
           at3 weights b i j
           = softmax_weight (size1 context)
               (masked_score mask
                  (fun b i j =>
                     dot dimensions
                       (scoring_input attention_type init_in input_ b i)
                       (at3 context b j)) b i) j)
        ∧ (∀ o, o < dimensions →
             at3 output b i o
             = tanh (rsum (2 * dimensions)
                       (fun k =>
                          mix_concat dimensions (size1 context)
                            (at3 weights b i) (at3 context b)
                            (scoring_input attention_type init_in input_ b i) k
                          * init_out o k)%R)).
Proof.
  intros Hinit Hdim Hbatch Hctx Hmask.
  destruct (forward_entries _ _ _ _ _ _ _ _ Hinit Hdim Hbatch Hctx Hmask)
    as (q & s & output & weights & Hq & Hs & Hf & Hso & Hsw
        & Qat & Sat & Wat & Oat).
  exists output, weights. repeat (split; [assumption|]).
  intros b i Hb Hi. split.
  - intros j Hj. rewrite Wat by assumption.
    apply softmax_weight_ext. intros j'. unfold masked_score.
    assert (at3 s b i j'
            = dot dimensions (scoring_input attention_type init_in input_ b i)
                (at3 context b j')) as ->.
    { rewrite Sat. apply dot_ext. intros k Hk. now apply Qat. }
    reflexivity.
  - intros o Ho. rewrite Oat by assumption. f_equal.
    apply rsum_ext. intros k Hk. f_equal.
    apply mix_concat_ext; [exact Hk|]. intros m Hm. now apply Qat.
Qed.

Lemma forward_output_from_scoring_input_witness :
  ∃ output weights,
    Attention.forward
      (Attention.mk "general" (Some (mkLinear 1 1 zero_weights))
         (mkLinear 2 1 (second_half_weights 1)) None)
      (constant3 1 1 1 1) (constant3 1 2 1 0) = Ok (output, weights)
    ∧ (size0 output = 1 ∧ size1 output = 1 ∧ size2 output = 1)
    ∧ (size0 weights = 1 ∧ size1 weights = 1 ∧ size2 weights = 2)
    ∧ ∀ b i, b < 1 → i < 1 →
        (∀ j, j < 2 →
           at3 weights b i j
           = softmax_weight 2
               (masked_score None
                  (fun b i j =>
                     dot 1 (scoring_input "general" zero_weights
                              (constant3 1 1 1 1) b i)
                       (at3 (constant3 1 2 1 0) b j)) b i) j)
        ∧ (∀ o, o < 1 →
             at3 output b i o
             = tanh (rsum 2
                       (fun k =>
                          mix_concat 1 2 (at3 weights b i)
                            (at3 (constant3 1 2 1 0) b)
                            (scoring_input "general" zero_weights
                               (constant3 1 1 1 1) b i) k
                          * second_half_weights 1 o k)%R)).
Proof.
  apply (forward_output_from_scoring_input 1 None "general" zero_weights
           (second_half_weights 1)
           (Attention.mk "general" (Some (mkLinear 1 1 zero_weights))
              (mkLinear 2 1 (second_half_weights 1)) None)
           (constant3 1 1 1 1) (constant3 1 2 1 0));
    reflexivity.
Defined.

Lemma tanh_1_pos : (0 < tanh 1)%R.
Proof.
  unfold tanh. apply Rdiv_lt_0_compat.
  - rewrite <- sinh_0. apply sinh_lt. lra.
  - unfold cosh. pose proof (exp_pos 1). pose proof (exp_pos (Ropp 1)). lra.
Qed.

Lemma tanh_0 : tanh 0 = 0%R.
Proof. unfold tanh. rewrite sinh_0. unfold Rdiv. apply Rmult_0_l. Qed.

(** C2 as the spec words it fails: for a 'general' attention whose
    [linear_in] weights are zero and whose [linear_out] copies the input
    half of the concatenation, the input 1 gives the output tanh 0 = 0,
    built from the projected input 0; the concatenation with the original,
    unprojected input would give tanh 1. *)
Lemma forward_concatenates_projected_input :
  ∃ self output weights,
    Attention.__init__ 1 None "general" zero_weights (second_half_weights 1)
      = Ok self
    ∧ Attention.forward self (constant3 1 1 1 1) (constant3 1 2 1 0)
      = Ok (output, weights)
    ∧ at3 output 0 0 0 = 0%R
    ∧ at3 output 0 0 0
      ≠ tanh (rsum 2
                (fun k =>
                   mix_concat 1 2 (at3 weights 0 0)
                     (at3 (constant3 1 2 1 0) 0)
                     (at3 (constant3 1 1 1 1) 0 0) k
                   * second_half_weights 1 0 k)%R).
Proof.
  destruct (forward_entries 1 None "general" zero_weights (second_half_weights 1)
              (Attention.mk "general" (Some (mkLinear 1 1 zero_weights))
                 (mkLinear 2 1 (second_half_weights 1)) None)
              (constant3 1 1 1 1) (constant3 1 2 1 0))
    as (q & s & output & weights & Hq & Hs & Hf & _ & _ & Qat & Sat & Wat & Oat);
    try reflexivity.
  exists (Attention.mk "general" (Some (mkLinear 1 1 zero_weights))
            (mkLinear 2 1 (second_half_weights 1)) None), output, weights.
  split; [reflexivity|]. split; [exact Hf|].
  assert (Hout : at3 output 0 0 0 = 0%R).
  { rewrite Oat by (cbn; lia).
    cbn [rsum Nat.mul Nat.add mix_concat Nat.ltb Nat.leb Nat.sub
         second_half_weights Nat.eqb constant3 at3 size1].
    rewrite Qat by (cbn; lia).
    unfold scoring_input, dot, zero_weights. cbn.
    replace (0 + _ * 0 + (0 + 1 * 0) * 1)%R with 0%R by lra.
    apply tanh_0. }
  split; [exact Hout|].
  rewrite Hout.
  cbn [rsum Nat.mul Nat.add mix_concat Nat.ltb Nat.leb Nat.sub
       second_half_weights Nat.eqb constant3 at3 size1].
  replace (0 + _ * 0 + 1 * 1)%R with 1%R by lra.
  pose proof tanh_1_pos. lra.
Qed.

(** ** scripts/python/train_seq_to_label.py *)

Section TrainProperties.

Context {value Model Encoder batch : Type}.
Context `{!Externals value Model Encoder batch}.

Local Abbreviation M' := (M value Model Encoder batch).
Local Abbreviation world' := (world value Model Encoder batch).
Local Abbreviation call' := (call Model Encoder batch).

Lemma after_calls_nil (w : world') : after_calls w [] = w.
Proof. destruct w. unfold after_calls. cbn. now rewrite app_nil_r. Qed.

Lemma after_calls_app (w : world') (cs cs' : list call') :
  after_calls (after_calls w cs) cs' = after_calls w (cs ++ cs').
Proof. unfold after_calls. cbn. now rewrite app_assoc. Qed.

Lemma bind_run {A B : Type} (m : M' A) (k : A → M' B) (w : world') :
  (m ≫= k) w = match m w with
               | (Ok a, w') => k a w'
               | (Raise e, w') => (Raise e, w')
               end.
Proof. reflexivity. Qed.

Lemma emit_run (c : call') (w : world') : emit c w = (Ok (), after_calls w [c]).
Proof. reflexivity. Qed.

Lemma train_batch_run (m : Model) (b : batch) (w : world') :
  train_batch m b w = (Ok (), after_calls w (training_steps m b)).
Proof.
  unfold train_batch. repeat (rewrite bind_run, emit_run).
  rewrite emit_run, !after_calls_app. reflexivity.
Qed.

Lemma evaluate_batch_run (m : Model) (b : batch) (w : world') :
  evaluate_batch m b w = (Ok (), after_calls w (evaluation_steps m b)).
Proof.
  unfold evaluate_batch. rewrite bind_run, !emit_run, !after_calls_app.
  reflexivity.
Qed.

(** A loop whose body only makes calls makes the calls of its iterations
    in order; the calls may depend on the rows, which the loop leaves as
    they are. *)
Lemma for_each_calls {A : Type} (body : A → M' unit)
    (steps : gmap loc (gmap string value) → A → list call')
    (xs : list A) (w : world') :
  (∀ x w, body x w = (Ok (), after_calls w (steps (row_heap w) x))) →
  for_each xs body w = (Ok (), after_calls w (flat_map (steps (row_heap w)) xs)).
Proof.
  intros Hbody. revert w.
  induction xs as [|x xs IH]; intros w; cbn [for_each flat_map].
  - now rewrite after_calls_nil.
  - rewrite bind_run, Hbody, IH, after_calls_app. reflexivity.
Qed.

Lemma filter_Checkpoint_save_training (m : Model) (bs : list batch) (epoch : Z) :
  List.filter is_Checkpoint_save (training_calls (Encoder := Encoder) m bs epoch) = [].
Proof.
  unfold training_calls. cbn [app List.filter is_Checkpoint_save].
  induction bs as [|b bs IH]; [reflexivity|]. cbn. exact IH.
Qed.

Lemma filter_Checkpoint_save_evaluation (m : Model) (bs : list batch) (epoch : Z) :
  List.filter is_Checkpoint_save (evaluation_calls (Encoder := Encoder) m bs epoch) = [].
Proof.
  unfold evaluation_calls. cbn [app List.filter is_Checkpoint_save].
  induction bs as [|b bs IH]; [reflexivity|]. cbn. exact IH.
Qed.

Lemma filter_nil_not_elem (cs : list call') (c : call') :
  List.filter is_Checkpoint_save cs = [] → c ∈ cs → is_Checkpoint_save c = false.
Proof.
  intros Hf Hc. destruct (is_Checkpoint_save c) eqn:E; [|reflexivity].
  apply list_elem_of_In in Hc.
  assert (Hin : In c (List.filter is_Checkpoint_save cs))
    by (apply filter_In; auto).
  rewrite Hf in Hin. destruct Hin.
Qed.

Lemma filter_flat_map_one {A : Type} (f : A → list call') (ck : A → call')
    (es : list A) :
  (∀ e, List.filter is_Checkpoint_save (f e) = [ck e]) →
  length (List.filter is_Checkpoint_save (flat_map f es)) = length es.
Proof.
  intros H. induction es as [|e es IH]; [reflexivity|].
  cbn [flat_map]. rewrite List.filter_app, length_app, H, IH. reflexivity.
Qed.

Lemma divide_by_len_nonempty (dv : Dataset loc) (w : world') :
  rows dv ≠ [] → divide_by_len dv w = (Ok (), w).
Proof.
  intros H. unfold divide_by_len, len_Dataset.
  destruct (rows dv); [contradiction | reflexivity].
Qed.

Lemma divide_by_len_empty (dv : Dataset loc) (w : world') :
  rows dv = [] →
  divide_by_len dv w = (Raise (ZeroDivisionError "division by zero"), w).
Proof. intros H. unfold divide_by_len, len_Dataset. now rewrite H. Qed.

Lemma py_range_nonpositive (n : Z) : (n ≤ 0)%Z → py_range n = [].
Proof.
  intros H. unfold py_range. replace (Z.to_nat n) with 0 by lia. reflexivity.
Qed.

Lemma py_range_positive (n : Z) :
  (0 < n)%Z → ∃ rest, py_range n = 0%Z :: rest.
Proof.
  intros H. unfold py_range. destruct (Z.to_nat n) eqn:E; [lia|].
  cbn [seq map]. eauto.
Qed.

(** With a development split that is not empty, or with no epoch to run,
    the loop runs all its epochs and returns. *)
Lemma train_epochs_returns (m : Model) (te le : Encoder) (tr dv : Dataset loc)
    (dir : string) (epochs : Z) (w : world') :
  rows dv ≠ [] ∨ (epochs ≤ 0)%Z →
  train_epochs m te le tr dv dir epochs w
  = (Ok (),
     after_calls w
       (flat_map
          (fun epoch =>
             training_calls m (train_iterator (row_heap w) tr epoch) epoch
             ++ [Checkpoint_save dir m te le]
             ++ evaluation_calls m (dev_iterator (row_heap w) dv) epoch)
          (py_range epochs)
        ++ [log_done])).
Proof.
  intros [Hdv|Hep]; unfold train_epochs; rewrite bind_run.
  - rewrite (for_each_calls _
               (fun h epoch =>
                  training_calls m (train_iterator h tr epoch) epoch
                  ++ [Checkpoint_save dir m te le]
                  ++ evaluation_calls m (dev_iterator h dv) epoch)).
    + rewrite emit_run, after_calls_app. reflexivity.
    + intros epoch w0.
      repeat (rewrite bind_run, emit_run).
      rewrite bind_run. unfold get_heap at 1.
      rewrite bind_run.
      rewrite (for_each_calls _ (fun _ => training_steps m))
        by (intros; apply train_batch_run).
      repeat (rewrite bind_run, emit_run).
      rewrite bind_run. unfold get_heap at 1.
      rewrite bind_run.
      rewrite (for_each_calls _ (fun _ => evaluation_steps m))
        by (intros; apply evaluate_batch_run).
      rewrite bind_run, (divide_by_len_nonempty _ _ Hdv).
      repeat (rewrite bind_run, emit_run).
      rewrite emit_run, !after_calls_app. cbn [row_heap after_calls].
      unfold training_calls, evaluation_calls.
      rewrite <- ?app_assoc. reflexivity.
  - rewrite (py_range_nonpositive _ Hep). cbn [for_each flat_map app].
    reflexivity.
Qed.

(** With an empty development split and an epoch to run, the first epoch
    trains, saves its checkpoint, runs the evaluation loop and raises at
    the division of line 193. *)
Lemma train_epochs_divides_by_zero (m : Model) (te le : Encoder)
    (tr dv : Dataset loc) (dir : string) (epochs : Z) (w : world') :
  rows dv = [] → (0 < epochs)%Z →
  train_epochs m te le tr dv dir epochs w
  = (Raise (ZeroDivisionError "division by zero"),
     after_calls w
       (training_calls m (train_iterator (row_heap w) tr 0) 0
        ++ [Checkpoint_save dir m te le]
        ++ [model_train false]
        ++ flat_map (evaluation_steps m) (dev_iterator (row_heap w) dv))).
Proof.
  intros Hdv Hep. unfold train_epochs. rewrite bind_run.
  destruct (py_range_positive _ Hep) as [rest ->].
  match goal with |- context [for_each _ ?b] => set (body := b) end.
  assert (Hbody : body 0%Z w
                  = (Raise (ZeroDivisionError "division by zero"),
                     after_calls w
                       (training_calls m (train_iterator (row_heap w) tr 0) 0
                        ++ [Checkpoint_save dir m te le]
                        ++ [model_train false]
                        ++ flat_map (evaluation_steps m)
                             (dev_iterator (row_heap w) dv)))).
  { subst body. cbv beta.
    repeat (rewrite bind_run, emit_run).
    rewrite bind_run. unfold get_heap at 1.
    rewrite bind_run.
    rewrite (for_each_calls _ (fun _ => training_steps m))
      by (intros; apply train_batch_run).
    repeat (rewrite bind_run, emit_run).
    rewrite bind_run. unfold get_heap at 1.
    rewrite bind_run.
    rewrite (for_each_calls _ (fun _ => evaluation_steps m))
      by (intros; apply evaluate_batch_run).
    rewrite bind_run, (divide_by_len_empty _ _ Hdv).
    rewrite !after_calls_app. cbn [row_heap after_calls].
    unfold training_calls. rewrite <- ?app_assoc. reflexivity. }
  cbn [for_each]. rewrite bind_run, Hbody. reflexivity.
Qed.

(** C6: the calls of the training loop. Every epoch makes, in this order,
    the calls of its training part (each training batch in turn: zero
    gradients, forward pass, loss, backward pass, optimizer step), one call
    of [Checkpoint.save], and the calls of its evaluation on the
    development split, which divides the loss by [len(dev_dataset)]. With a
    development split that is not empty (or no epoch to run) the loop
    returns after as many checkpoints as there are epochs. With an empty
    development split the first epoch trains, saves its checkpoint, runs
    the evaluation loop and raises [ZeroDivisionError]: one checkpoint has
    been saved and no epoch is completed. No checkpoint is saved inside
    the training or the evaluation part. *)
Theorem train_epochs_order (m : Model) (text_encoder label_encoder : Encoder)
    (train_dataset dev_dataset : Dataset loc) (save_directory : string)
    (epochs : Z) (w : world') :
  let trace :=
    flat_map
      (fun epoch =>
         training_calls m (train_iterator (row_heap w) train_dataset epoch) epoch
         ++ [Checkpoint_save save_directory m text_encoder label_encoder]
         ++ evaluation_calls m (dev_iterator (row_heap w) dev_dataset) epoch)
      (py_range epochs)
    ++ [log_done] in
  let cut_short :=
    training_calls m (train_iterator (row_heap w) train_dataset 0) 0
    ++ [Checkpoint_save save_directory m text_encoder label_encoder]
    ++ [model_train false]
    ++ flat_map (evaluation_steps m) (dev_iterator (row_heap w) dev_dataset) in
  (rows dev_dataset ≠ [] ∨ (epochs ≤ 0)%Z →
     train_epochs m text_encoder label_encoder train_dataset dev_dataset
       save_directory epochs w
     = (Ok (), after_calls w trace)
     ∧ length (List.filter is_Checkpoint_save trace) = Z.to_nat epochs)
  ∧ (rows dev_dataset = [] → (0 < epochs)%Z →
     train_epochs m text_encoder label_encoder train_dataset dev_dataset
       save_directory epochs w
     = (Raise (ZeroDivisionError "division by zero"), after_calls w cut_short)
     ∧ List.filter is_Checkpoint_save cut_short
       = [Checkpoint_save save_directory m text_encoder label_encoder])
  ∧ (∀ epoch bs (c : call'),
       c ∈ training_calls m bs epoch → is_Checkpoint_save c = false)
  ∧ (∀ epoch bs (c : call'),
       c ∈ evaluation_calls m bs epoch → is_Checkpoint_save c = false)
  ∧ (∀ (bs : list batch) (b : batch), b ∈ bs →
       ∃ before after : list call',
         flat_map (training_steps (Encoder := Encoder) m) bs
         = before
           ++ [optimizer_zero_grad; model_forward m b; criterion b;
               loss_backward; optimizer_step]
           ++ after).
Proof.
  cbn zeta. split; [|split; [|split; [|split]]].
  - intros Hdv. split; [now apply train_epochs_returns|].
    rewrite List.filter_app, length_app. cbn [List.filter is_Checkpoint_save length].
    rewrite (filter_flat_map_one _
               (fun _ => Checkpoint_save save_directory m text_encoder label_encoder)).
    + unfold py_range. rewrite length_map, length_seq. lia.
    + intros epoch. rewrite !List.filter_app.
      rewrite filter_Checkpoint_save_training, filter_Checkpoint_save_evaluation.
      reflexivity.
  - intros Hdv Hep. split; [now apply train_epochs_divides_by_zero|].
    rewrite !List.filter_app, filter_Checkpoint_save_training.
    cbn [List.filter is_Checkpoint_save app]. f_equal.
    induction (dev_iterator (row_heap w) dev_dataset) as [|b bs IH];
      [reflexivity | exact IH].
  - intros epoch bs c. apply filter_nil_not_elem, filter_Checkpoint_save_training.
  - intros epoch bs c. apply filter_nil_not_elem, filter_Checkpoint_save_evaluation.
  - intros bs b Hb. apply list_elem_of_In, in_split in Hb as (l1 & l2 & ->).
    exists (flat_map (training_steps m) l1), (flat_map (training_steps m) l2).
    rewrite flat_map_app. reflexivity.
Qed.

(** *** The encoding phase *)

Lemma getitem_run (l : loc) (k : string) (r : gmap string value) (v : value)
    (w : world') :
  row_heap w !! l = Some r → r !! k = Some v → getitem l k w = (Ok v, w).
Proof. intros Hl Hk. unfold getitem. now rewrite Hl, Hk. Qed.

Lemma setitem_run (l : loc) (k : string) (r : gmap string value) (v : value)
    (w : world') :
  row_heap w !! l = Some r →
  setitem l k v w
  = (Ok (), mkWorld (<[l := <[k := v]> r]> (row_heap w))
              (directories w) (files w) (calls w)).
Proof. intros Hl. unfold setitem. now rewrite Hl. Qed.

Lemma encode_row_run (te le : Encoder) (l : loc) (r : gmap string value)
    (t lb : value) (w : world') :
  row_heap w !! l = Some r → r !! "text" = Some t → r !! "label" = Some lb →
  encode_row te le l w
  = (Ok (), mkWorld
              (<[l := <["label" := encode le lb]> (<["text" := encode te t]> r)]>
                 (row_heap w))
              (directories w) (files w) (calls w)).
Proof.
  intros Hl Ht Hlb. unfold encode_row.
  rewrite bind_run, (getitem_run l "text" r t) by assumption.
  rewrite bind_run, (setitem_run l "text" r) by assumption.
  rewrite bind_run.
  rewrite (getitem_run l "label" (<["text" := encode te t]> r) lb).
  - rewrite (setitem_run l "label" (<["text" := encode te t]> r)).
    + cbn [row_heap directories files calls].
      now rewrite insert_insert_eq.
    + cbn [row_heap]. apply lookup_insert_eq.
  - cbn [row_heap]. apply lookup_insert_eq.
  - rewrite lookup_insert_ne by discriminate. exact Hlb.
Qed.

Lemma row_encoded_insert (te le : Encoder) (r : gmap string value) (t lb : value) :
  r !! "text" = Some t → r !! "label" = Some lb →
  row_encoded (encode te) (encode le) r
    (<["label" := encode le lb]> (<["text" := encode te t]> r)).
Proof.
  intros Ht Hlb. unfold row_encoded. split; [|split].
  - rewrite lookup_insert_ne by discriminate.
    rewrite lookup_insert_eq, Ht. reflexivity.
  - rewrite lookup_insert_eq, Hlb. reflexivity.
  - intros k H1 H2. now rewrite !lookup_insert_ne by congruence.
Qed.

Lemma rows_ready_cons (h : gmap loc (gmap string value)) (l : loc) (ls : list loc) :
  rows_ready h (l :: ls) = true →
  (∃ r t lb, h !! l = Some r ∧ r !! "text" = Some t ∧ r !! "label" = Some lb)
  ∧ rows_ready h ls = true.
Proof.
  unfold rows_ready. cbn [forallb]. intros H.
  apply andb_prop in H as [H1 H2]. split; [|exact H2].
  destruct (h !! l) as [r|]; [|discriminate].
  destruct (r !! "text") as [t|] eqn:Et; [|discriminate].
  destruct (r !! "label") as [lb|] eqn:El; [|discriminate].
  eauto 6.
Qed.

Lemma rows_ready_insert (h : gmap loc (gmap string value)) (l : loc)
    (r : gmap string value) (ls : list loc) :
  l ∉ ls → rows_ready (<[l := r]> h) ls = rows_ready h ls.
Proof.
  intros Hl. unfold rows_ready. induction ls as [|x ls IH]; [reflexivity|].
  apply not_elem_of_cons in Hl as [Hx Hls]. cbn [forallb].
  rewrite lookup_insert_ne by congruence. now rewrite IH.
Qed.

Lemma encode_rows_run (te le : Encoder) (ls : list loc) (w : world') :
  NoDup ls → rows_ready (row_heap w) ls = true →
  ∃ h', for_each ls (encode_row te le) w
        = (Ok (), mkWorld h' (directories w) (files w) (calls w))
      ∧ dom h' = dom (row_heap w)
      ∧ (∀ l, l ∉ ls → h' !! l = row_heap w !! l)
      ∧ (∀ l, l ∈ ls →
           ∃ r r', row_heap w !! l = Some r ∧ h' !! l = Some r'
                   ∧ row_encoded (encode te) (encode le) r r').
Proof.
  revert w. induction ls as [|l ls IH]; intros w Hnd Hready.
  - exists (row_heap w). cbn [for_each]. destruct w; cbn.
    split; [reflexivity|]. split; [reflexivity|]. split; [reflexivity|].
    intros l Hl. now apply elem_of_nil in Hl.
  - apply NoDup_cons in Hnd as [Hl Hnd].
    apply rows_ready_cons in Hready as [(r & t & lb & Hr & Ht & Hlb) Hready].
    cbn [for_each]. rewrite bind_run, (encode_row_run te le l r t lb) by assumption.
    set (r' := <["label" := encode le lb]> (<["text" := encode te t]> r)).
    destruct (IH (mkWorld (<[l := r']> (row_heap w)) (directories w) (files w)
                    (calls w)) Hnd)
      as (h' & Hrun & Hdom & Hout & Hin).
    { cbn [row_heap]. now rewrite rows_ready_insert. }
    cbn [row_heap directories files calls] in *.
    exists h'. split; [exact Hrun|]. split; [|split].
    + rewrite Hdom. apply dom_insert_lookup_L. now rewrite Hr.
    + intros x Hx. apply not_elem_of_cons in Hx as [Hxl Hx].
      rewrite Hout by assumption. now rewrite lookup_insert_ne by congruence.
    + intros x Hx. apply elem_of_cons in Hx as [->|Hx].
      * exists r, r'. split; [exact Hr|]. split.
        -- rewrite Hout by assumption. apply lookup_insert_eq.
        -- now apply row_encoded_insert.
      * destruct (Hin x Hx) as (rx & rx' & Hrx & Hrx' & Henc).
        exists rx, rx'. split; [|split; assumption].
        rewrite <- Hrx. symmetry. apply lookup_insert_ne.
        intros ->. contradiction.
Qed.

Lemma for_each_app {A : Type} (xs ys : list A) (body : A → M' unit) (w : world') :
  for_each (xs ++ ys) body w = (for_each xs body ≫= fun _ => for_each ys body) w.
Proof.
  revert w. induction xs as [|x xs IH]; intros w; cbn [app for_each].
  - reflexivity.
  - rewrite !bind_run. destruct (body x w) as [[[]|e] w1]; [|reflexivity].
    rewrite IH. reflexivity.
Qed.

Lemma encode_datasets_run (te le : Encoder) (tr dv : Dataset loc) (w w' : world') :
  for_each (rows tr ++ rows dv) (encode_row te le) w = (Ok (), w') →
  encode_datasets te le tr dv w = (Ok (), w').
Proof.
  rewrite for_each_app. unfold encode_datasets. cbn [for_each].
  change (λ row : loc, encode_row te le row) with (encode_row te le).
  rewrite !bind_run.
  destruct (for_each (rows tr) (encode_row te le) w) as [[[]|e] w1]; [|discriminate].
  cbn beta iota. rewrite !bind_run.
  destruct (for_each (rows dv) (encode_row te le) w1) as [[[]|e] w2]; [|discriminate].
  intros [= <-]. reflexivity.
Qed.

(** C8: the encoding phase works in place. Given datasets whose rows are
    distinct dictionaries that all have a 'text' and a 'label', it returns
    with the same rows in the same datasets, at the same positions; in each
    of them 'text' and 'label' hold the encoded values and every other key
    is as before; rows outside the two datasets, the file system and the
    calls made are untouched. *)
Theorem encode_datasets_in_place (text_encoder label_encoder : Encoder)
    (train_dataset dev_dataset : Dataset loc) (w : world') :
  NoDup (rows train_dataset ++ rows dev_dataset) →
  rows_ready (row_heap w) (rows train_dataset ++ rows dev_dataset) = true →
  ∃ h',
    encode_datasets text_encoder label_encoder train_dataset dev_dataset w
    = (Ok (), mkWorld h' (directories w) (files w) (calls w))
    ∧ dom h' = dom (row_heap w)
    ∧ (∀ l, l ∉ rows train_dataset ++ rows dev_dataset →
         h' !! l = row_heap w !! l)
    ∧ (∀ d, d = train_dataset ∨ d = dev_dataset →
         ∀ (i : nat) (l : loc), rows d !! i = Some l →
           ∃ r r', row_heap w !! l = Some r ∧ h' !! l = Some r'
                   ∧ dom r' = dom r
                   ∧ row_encoded (encode text_encoder) (encode label_encoder) r r').
Proof.
  intros Hnd Hready.
  destruct (encode_rows_run text_encoder label_encoder _ w Hnd Hready)
    as (h' & Hrun & Hdom & Hout & Hin).
  exists h'. split; [now apply encode_datasets_run|].
  split; [exact Hdom|]. split; [exact Hout|].
  intros d Hd i l Hi.
  assert (Hl : l ∈ rows train_dataset ++ rows dev_dataset).
  { apply elem_of_app. apply list_elem_of_lookup_2 in Hi.
    destruct Hd as [->| ->]; auto. }
  destruct (Hin l Hl) as (r & r' & Hr & Hr' & Henc).
  exists r, r'. repeat (split; [assumption|]). split; [|exact Henc].
  destruct Henc as (Ht & Hlb & Hother).
  apply set_eq. intros k. rewrite !elem_of_dom.
  destruct (decide (k = "text")) as [->|Hkt].
  { rewrite Ht. destruct (r !! "text"); cbn; split; intros [? ?]; eauto; discriminate. }
  destruct (decide (k = "label")) as [->|Hkl].
  { rewrite Hlb. destruct (r !! "label"); cbn; split; intros [? ?]; eauto; discriminate. }
  now rewrite Hother.
Qed.

(** *** The command line and resuming *)

(** The parser declares one argument, [--checkpoint_path], whose default
    is [None]. *)
Lemma parser_declares_checkpoint_path :
  map flag parser_arguments = ["--checkpoint_path"]
  ∧ map default parser_arguments = [None].
Proof. split; reflexivity. Qed.

(** Lines 216-217: a non-empty [--checkpoint_path] makes the directory of
    the checkpoint the save directory. *)
Lemma main_save_directory_resume (p : string) :
  p ≠ "" → main_save_directory (mkNamespace (Some p)) = dirname p.
Proof.
  intros Hp. unfold main_save_directory, truthy. cbn [checkpoint_path].
  destruct (String.eqb_spec p ""); [contradiction | reflexivity].
Qed.

Lemma main_save_directory_default :
  main_save_directory (mkNamespace None) = DEFAULT_SAVE_DIRECTORY.
Proof. reflexivity. Qed.

(** Lines 98-112: when [setup_training] hands back a checkpoint, [train]
    encodes with the encoders of the checkpoint and trains its model. *)
Lemma train_resumes_from_checkpoint (path : option string) (dir : string)
    (epochs : Z) (c : Checkpoint Model Encoder) (tr dv : Dataset loc)
    (w w1 w2 : world') :
  setup_training path dir w = (Ok (Some c), w1) →
  dataset w1 = (Ok (tr, dv), w2) →
  train path dir epochs w
  = (encode_datasets (input_encoder c) (output_encoder c) tr dv
     ≫= fun _ =>
     log_total_parameters (model c)
     ≫= fun _ =>
     init_optimizer (model c)
     ≫= fun _ => train_epochs (model c) (input_encoder c) (output_encoder c)
                   tr dv dir epochs) w2.
Proof.
  intros Hsetup Hdata. unfold train.
  rewrite bind_run, Hsetup, bind_run, Hdata. reflexivity.
Qed.

Lemma os_makedirs_exists (name : string) (w : world') :
  name ∈ directories w → os_makedirs name w = (Raise (FileExistsError name), w).
Proof.
  intros H. unfold os_makedirs. now rewrite (bool_decide_eq_true_2 _ H).
Qed.

Lemma os_makedirs_empty (w : world') :
  ∃ e, os_makedirs "" w = (Raise e, w)
       ∧ (e = FileExistsError "" ∨ e = FileNotFoundError "").
Proof.
  unfold os_makedirs.
  destruct (bool_decide _ || bool_decide _); eauto.
Qed.

(** X24: [__main__] creates the save directory before it calls [train], and
    the directory of a checkpoint that exists is there already: given the
    path of an existing checkpoint, [main] raises in [os.makedirs] and
    never reaches [train]. *)
Lemma main_raises_if_checkpoint_exists (p : string) (w : world') :
  fs_consistent w → p ∈ files w →
  ∃ e, main (mkNamespace (Some p)) w = (Raise e, w)
       ∧ (e = FileExistsError (dirname p) ∨ e = FileNotFoundError "").
Proof.
  intros Hfs Hp. destruct (Hfs p Hp) as [Hne Hdir].
  unfold main. rewrite main_save_directory_resume by assumption.
  rewrite bind_run. destruct Hdir as [Hdir|Hdir].
  - rewrite Hdir. destruct (os_makedirs_empty w) as (e & -> & He). eauto.
  - rewrite (os_makedirs_exists _ _ Hdir). eauto.
Qed.

(** C7: the run [--checkpoint_path save/run/1.pt] in a file system that
    holds this checkpoint. The save directory is the directory of the
    checkpoint, [save/run]; [os.makedirs] finds it there and raises
    [FileExistsError], whatever the toolkit behind [train] is: nothing is
    loaded and no training call is made. *)
Theorem main_resume_raises :
  main (mkNamespace (Some "save/run/1.pt"))
    (mkWorld ∅ {[ "save"; "save/run" ]} {[ "save/run/1.pt" ]} [])
  = (Raise (FileExistsError "save/run"),
     mkWorld ∅ {[ "save"; "save/run" ]} {[ "save/run/1.pt" ]} []).
Proof.
  unfold main. rewrite main_save_directory_resume by discriminate.
  rewrite bind_run.
  change (dirname "save/run/1.pt") with "save/run".
  rewrite os_makedirs_exists; [reflexivity|].
  cbn [directories]. set_solver.
Qed.

End TrainProperties.

(** The loop on the small instance. One epoch over the training batches
    [0] and [1] with the development split [2] runs to its end; with an
    empty development split, two epochs asked for end in the first one,
    after its checkpoint. *)
Example train_epochs_examples :
  train_epochs () "w:" "i:" (mkDataset [0; 1]) (mkDataset [2]) "save/new" 1
    toy_world
  = (Ok (),
     after_calls toy_world
       [log_epoch 0; model_train true;
        optimizer_zero_grad; model_forward () 0; criterion 0; loss_backward;
        optimizer_step;
        optimizer_zero_grad; model_forward () 1; criterion 1; loss_backward;
        optimizer_step;
        Checkpoint_save "save/new" () "w:" "i:";
        model_train false; model_forward () 2; criterion 2;
        optimizer_update 0; log_loss; get_accuracy; get_bucket_accuracy;
        get_random_sample; log_done])
  ∧ train_epochs () "w:" "i:" (mkDataset [0; 1]) (mkDataset []) "save/new" 2
      toy_world
    = (Raise (ZeroDivisionError "division by zero"),
       after_calls toy_world
         [log_epoch 0; model_train true;
          optimizer_zero_grad; model_forward () 0; criterion 0; loss_backward;
          optimizer_step;
          optimizer_zero_grad; model_forward () 1; criterion 1; loss_backward;
          optimizer_step;
          Checkpoint_save "save/new" () "w:" "i:";
          model_train false]).
Proof. split; reflexivity. Qed.

Lemma encode_datasets_in_place_witness :
  ∃ h',
    encode_datasets "W:" "I:" (mkDataset [0; 1]) (mkDataset [2]) toy_world
    = (Ok (), mkWorld h' (directories toy_world) (files toy_world)
                (calls toy_world))
    ∧ dom h' = dom (row_heap toy_world)
    ∧ (∀ l, l ∉ rows (mkDataset [0; 1]) ++ rows (mkDataset [2]) →
         h' !! l = row_heap toy_world !! l)
    ∧ (∀ d, d = mkDataset [0; 1] ∨ d = mkDataset [2] →
         ∀ (i : nat) (l : loc), rows d !! i = Some l →
           ∃ r r', row_heap toy_world !! l = Some r ∧ h' !! l = Some r'
                   ∧ dom r' = dom r
                   ∧ row_encoded (encode "W:") (encode "I:") r r').
Proof.
  apply (encode_datasets_in_place "W:" "I:" (mkDataset [0; 1]) (mkDataset [2])
           toy_world).
  - apply (bool_decide_unpack _). vm_compute. exact I.
  - vm_compute. reflexivity.
Defined.

(** A fresh run of the script on the small instance: two epochs of two
    training batches and one development batch. *)
Example main_fresh_run :
  let out := main (mkNamespace None) toy_world in
  fst out = Ok ()
  ∧ calls (snd out)
    = [log_epoch 0; model_train true;
       optimizer_zero_grad; model_forward () 0; criterion 0; loss_backward;
       optimizer_step;
       optimizer_zero_grad; model_forward () 1; criterion 1; loss_backward;
       optimizer_step;
       Checkpoint_save "save/train_seq_to_label" () "w:" "i:";
       model_train false; model_forward () 2; criterion 2;
       optimizer_update 0; log_loss; get_accuracy; get_bucket_accuracy;
       get_random_sample;
       log_epoch 1; model_train true;
       optimizer_zero_grad; model_forward () 0; criterion 0; loss_backward;
       optimizer_step;
       optimizer_zero_grad; model_forward () 1; criterion 1; loss_backward;
       optimizer_step;
       Checkpoint_save "save/train_seq_to_label" () "w:" "i:";
       model_train false; model_forward () 2; criterion 2;
       optimizer_update 1; log_loss; get_accuracy; get_bucket_accuracy;
       get_random_sample;
       log_done]
  ∧ row_heap (snd out) !! 0
    = Some {[ "text" := "w:a b"; "label" := "i:x"; "id" := "7" ]}.
Proof. vm_compute. repeat split; reflexivity. Qed.

(** [train] itself, called with the checkpoint and its directory, does
    resume: it encodes with the encoders of the checkpoint and saves its
    model. *)
Example train_resumes :
  let out := train (Some "save/run/1.pt") "save/run" 1 toy_world in
  fst out = Ok ()
  ∧ List.filter is_Checkpoint_save (calls (snd out))
    = [Checkpoint_save "save/run" () "W:" "I:"]
  ∧ row_heap (snd out) !! 1 = Some {[ "text" := "W:c"; "label" := "I:y" ]}.
Proof. vm_compute. repeat split; reflexivity. Qed.

(** The same through the command line: [main] stops in [os.makedirs]. *)
Example main_resume_stops :
  main (mkNamespace (Some "save/run/1.pt")) toy_world
  = (Raise (FileExistsError "save/run"), toy_world).
Proof. vm_compute. reflexivity. Qed.

Example dirname_examples :
  dirname "save/run/1.pt" = "save/run" ∧ dirname "/x" = "/"
  ∧ dirname "a//b" = "a" ∧ dirname "x" = "" ∧ dirname "a/b/" = "a/b".
Proof. repeat split; reflexivity. Qed.

(** ** lib/utils.py: batch *)

Section BatchProperties.

Context {A : Type}.

(** Induction that follows the batches: a list is empty, or a first batch
    of [m] items followed by the rest. *)
Lemma batch_ind (m : nat) (P : list A → Prop) :
  0 < m → P [] → (∀ xs, xs ≠ [] → P (drop m xs) → P xs) → ∀ xs, P xs.
Proof.
  intros Hm Hnil Hstep xs.
  remember (length xs) as k eqn:Hk. revert xs Hk.
  induction k as [k IH] using lt_wf_ind. intros xs Hk.
  destruct xs as [|x xs]; [exact Hnil|].
  apply Hstep; [discriminate|].
  apply (IH (length (drop m (x :: xs)))); [|reflexivity].
  rewrite length_drop, Hk. cbn [length]. lia.
Qed.

Lemma py_slice_inside (xs : list A) (lo hi : Z) :
  (0 ≤ lo)%Z → (0 ≤ hi)%Z →
  py_slice xs lo hi
  = take (Z.to_nat (Z.min hi (Z.of_nat (length xs)))
          - Z.to_nat (Z.min lo (Z.of_nat (length xs))))
      (drop (Z.to_nat (Z.min lo (Z.of_nat (length xs)))) xs).
Proof.
  intros Hlo Hhi. unfold py_slice, py_slice_bound.
  destruct (Z.ltb_spec lo 0); [lia|]. destruct (Z.ltb_spec hi 0); [lia|].
  f_equal. lia.
Qed.

Lemma take_min_length (xs : list A) (m : nat) :
  take (m `min` length xs) xs = take m xs.
Proof.
  destruct (Nat.le_ge_cases m (length xs)) as [H|H].
  - now rewrite Nat.min_l.
  - rewrite Nat.min_r by assumption. now rewrite !take_ge by lia.
Qed.

Lemma py_slice_first (xs : list A) (n : Z) :
  (0 < n)%Z →
  py_slice xs 0 (Z.min (0 + n) (Z.of_nat (length xs))) = take (Z.to_nat n) xs.
Proof.
  intros Hn. rewrite py_slice_inside by lia.
  replace (Z.to_nat (Z.min 0 (Z.of_nat (length xs)))) with 0 by lia.
  rewrite drop_0, Nat.sub_0_r.
  replace (Z.to_nat (Z.min (Z.min (0 + n) (Z.of_nat (length xs)))
                       (Z.of_nat (length xs))))
    with (Z.to_nat n `min` length xs) by lia.
  apply take_min_length.
Qed.

Lemma py_slice_shift (xs : list A) (n a : Z) :
  (0 < n)%Z → (0 ≤ a)%Z →
  py_slice xs (a + n) (Z.min (a + n + n) (Z.of_nat (length xs)))
  = py_slice (drop (Z.to_nat n) xs) a
      (Z.min (a + n) (Z.of_nat (length (drop (Z.to_nat n) xs)))).
Proof.
  intros Hn Ha. rewrite !py_slice_inside by lia.
  rewrite length_drop, drop_drop.
  destruct (Z.le_gt_cases n (Z.of_nat (length xs))) as [Hle|Hgt].
  - f_equal; [lia|]. f_equal. lia.
  - replace (Z.to_nat (Z.min (Z.min (a + n + n) (Z.of_nat (length xs)))
                         (Z.of_nat (length xs)))
             - Z.to_nat (Z.min (a + n) (Z.of_nat (length xs)))) with 0 by lia.
    replace (Z.to_nat (Z.min (Z.min (a + n)
                                (Z.of_nat (length xs - Z.to_nat n)))
                         (Z.of_nat (length xs - Z.to_nat n)))
             - Z.to_nat (Z.min a (Z.of_nat (length xs - Z.to_nat n))))
      with 0 by lia.
    reflexivity.
Qed.

Lemma range_count_step (l n : Z) :
  (0 < n)%Z → (0 < l)%Z →
  Z.to_nat ((l - 0 + n - 1) / n)
  = S (Z.to_nat ((Z.max (l - n) 0 - 0 + n - 1) / n)).
Proof.
  intros Hn Hl.
  replace (l - 0 + n - 1)%Z with ((l - 1) + 1 * n)%Z by lia.
  rewrite Z.div_add by lia.
  assert (0 ≤ (l - 1) / n)%Z by (apply Z.div_pos; lia).
  destruct (Z.le_gt_cases n l) as [Hle|Hgt].
  - rewrite Z.max_l by lia.
    replace (l - n - 0 + n - 1)%Z with (l - 1)%Z by lia. lia.
  - rewrite Z.max_r by lia.
    rewrite (Z.div_small (l - 1) n) by lia.
    rewrite (Z.div_small (0 - 0 + n - 1) n) by lia. lia.
Qed.

(** The slices of a non-empty list: its first [n] items, then the slices
    of the rest. *)
Lemma slices_unfold (xs : list A) (n : Z) :
  (0 < n)%Z → xs ≠ [] →
  ∃ bs, slices (drop (Z.to_nat n) xs) n = Ok bs
      ∧ slices xs n = Ok (take (Z.to_nat n) xs :: bs).
Proof.
  intros Hn Hxs. unfold slices, py_range3.
  destruct (Z.eqb_spec n 0); [lia|]. destruct (Z.ltb_spec 0 n); [|lia].
  eexists. split; [reflexivity|]. cbn [mbind result_bind]. f_equal.
  assert (Hl : (0 < Z.of_nat (length xs))%Z) by (destruct xs; [congruence | cbn; lia]).
  rewrite (range_count_step _ _ Hn Hl). cbn [seq map].
  f_equal.
  - replace (0 + Z.of_nat 0 * n)%Z with 0%Z by lia. now apply py_slice_first.
  - rewrite length_drop.
    replace (Z.of_nat (length xs - Z.to_nat n))
      with (Z.max (Z.of_nat (length xs) - n) 0) by lia.
    rewrite <- seq_shift, !map_map.
    apply map_ext. intros k.
    replace (0 + Z.of_nat (S k) * n)%Z with (0 + Z.of_nat k * n + n)%Z by lia.
    rewrite py_slice_shift by lia. rewrite length_drop.
    replace (Z.of_nat (length xs - Z.to_nat n))
      with (Z.max (Z.of_nat (length xs) - n) 0) by lia.
    reflexivity.
Qed.

Lemma slices_nil (n : Z) : (0 < n)%Z → slices (@nil A) n = Ok [].
Proof.
  intros Hn. unfold slices, py_range3.
  destruct (Z.eqb_spec n 0); [lia|]. destruct (Z.ltb_spec 0 n); [|lia].
  change (Z.of_nat (length (@nil A))) with 0%Z.
  rewrite (Z.div_small (0 - 0 + n - 1) n) by lia. reflexivity.
Qed.

(** The loop with a batch under way that is [k] items short of [n]. *)
Lemma batch_slow_fill (xs cur : list A) (n : Z) :
  (0 < n)%Z → length cur < Z.to_nat n →
  batch_slow xs n cur
  = if Nat.ltb (length cur + length xs) (Z.to_nat n)
    then match cur ++ xs with [] => [] | b => [b] end
    else (cur ++ take (Z.to_nat n - length cur) xs)
         :: batch_slow (drop (Z.to_nat n - length cur) xs) n [].
Proof.
  intros Hn. revert cur. induction xs as [|x xs IH]; intros cur Hcur.
  - cbn [batch_slow length]. rewrite Nat.add_0_r, app_nil_r.
    destruct (Nat.ltb_spec (length cur) (Z.to_nat n)); [|lia].
    destruct cur; reflexivity.
  - cbn [batch_slow]. rewrite length_app. cbn [length].
    destruct (Z.eqb_spec (Z.of_nat (length cur + 1)) n) as [Heq|Hne].
    + destruct (Nat.ltb_spec (length cur + S (length xs)) (Z.to_nat n)); [lia|].
      replace (Z.to_nat n - length cur) with 1 by lia.
      cbn [take drop]. reflexivity.
    + rewrite IH by (rewrite length_app; cbn [length]; lia).
      rewrite length_app. cbn [length].
      replace (length cur + 1 + length xs) with (length cur + S (length xs)) by lia.
      destruct (Nat.ltb_spec (length cur + S (length xs)) (Z.to_nat n)).
      * rewrite <- app_assoc. reflexivity.
      * replace (Z.to_nat n - length cur) with (S (Z.to_nat n - (length cur + 1)))
          by lia.
        cbn [take drop]. rewrite <- app_assoc. reflexivity.
Qed.

Lemma batch_slow_unfold (xs : list A) (n : Z) :
  (0 < n)%Z → xs ≠ [] →
  batch_slow xs n [] = take (Z.to_nat n) xs :: batch_slow (drop (Z.to_nat n) xs) n [].
Proof.
  intros Hn Hxs. rewrite batch_slow_fill by (cbn [length]; lia).
  cbn [length app]. rewrite Nat.add_0_l, Nat.sub_0_r.
  destruct (Nat.ltb_spec (length xs) (Z.to_nat n)) as [Hlt|Hge]; [|reflexivity].
  rewrite take_ge, drop_ge by lia. destruct xs; [congruence | reflexivity].
Qed.

Lemma slices_eq_slow (xs : list A) (n : Z) :
  (0 < n)%Z → slices xs n = Ok (batch_slow xs n []).
Proof.
  intros Hn. pattern xs. apply (batch_ind (Z.to_nat n)); [lia | | clear xs; intros xs Hxs IH].
  - now apply slices_nil.
  - destruct (slices_unfold xs n Hn Hxs) as (bs & Hbs & ->).
    rewrite IH in Hbs. injection Hbs as <-.
    now rewrite (batch_slow_unfold xs n Hn Hxs).
Qed.

Lemma batch_slow_concat (xs : list A) (n : Z) :
  (0 < n)%Z → concat (batch_slow xs n []) = xs.
Proof.
  intros Hn. pattern xs. apply (batch_ind (Z.to_nat n)); [lia | | clear xs; intros xs Hxs IH].
  - reflexivity.
  - rewrite (batch_slow_unfold xs n Hn Hxs). cbn [concat].
    rewrite IH. apply take_drop.
Qed.

Lemma batch_slow_sizes (xs : list A) (n : Z) (i : nat) (b : list A) :
  (0 < n)%Z → batch_slow xs n [] !! i = Some b →
  0 < length b ≤ Z.to_nat n
  ∧ (S i < length (batch_slow xs n []) → length b = Z.to_nat n).
Proof.
  intros Hn. revert i. pattern xs.
  apply (batch_ind (Z.to_nat n)); [lia | | clear xs; intros xs Hxs IH]; intros i.
  - cbn. discriminate.
  - rewrite (batch_slow_unfold xs n Hn Hxs).
    destruct i as [|i]; cbn [lookup list_lookup length].
    + intros [= <-]. rewrite length_take. split.
      * destruct xs; [congruence | cbn [length]; lia].
      * intros Hmore.
        destruct (Nat.le_gt_cases (Z.to_nat n) (length xs)) as [Hle|Hgt]; [lia|].
        rewrite drop_ge in Hmore by lia. cbn in Hmore. lia.
    + intros Hb. destruct (IH i Hb) as [H1 H2]. split; [exact H1|].
      intros Hmore. apply H2. lia.
Qed.

Lemma batch_slow_count (xs : list A) (n : Z) :
  (0 < n)%Z →
  Z.of_nat (length (batch_slow xs n [])) = ((Z.of_nat (length xs) + n - 1) / n)%Z.
Proof.
  intros Hn. pattern xs. apply (batch_ind (Z.to_nat n)); [lia | | clear xs; intros xs Hxs IH].
  - cbn. now rewrite Z.div_small by lia.
  - rewrite (batch_slow_unfold xs n Hn Hxs). cbn [length].
    rewrite Nat2Z.inj_succ, IH, length_drop.
    assert (Hl : (0 < Z.of_nat (length xs))%Z)
      by (destruct xs; [congruence | cbn; lia]).
    pose proof (range_count_step _ _ Hn Hl) as Hstep.
    replace (Z.of_nat (length xs - Z.to_nat n))
      with (Z.max (Z.of_nat (length xs) - n) 0) by lia.
    assert (0 ≤ (Z.max (Z.of_nat (length xs) - n) 0 - 0 + n - 1) / n)%Z
      by (apply Z.div_pos; lia).
    assert (0 ≤ (Z.of_nat (length xs) - 0 + n - 1) / n)%Z
      by (apply Z.div_pos; lia).
    replace (Z.of_nat (length xs) + n - 1)%Z
      with (Z.of_nat (length xs) - 0 + n - 1)%Z by lia.
    replace (Z.max (Z.of_nat (length xs) - n) 0 + n - 1)%Z
      with (Z.max (Z.of_nat (length xs) - n) 0 - 0 + n - 1)%Z by lia.
    lia.
Qed.

Lemma batch_slow_nonpositive (xs cur : list A) (n : Z) :
  (n ≤ 0)%Z →
  batch_slow xs n cur = match cur ++ xs with [] => [] | _ => [cur ++ xs] end.
Proof.
  intros Hn. revert cur. induction xs as [|x xs IH]; intros cur.
  - cbn [batch_slow]. rewrite app_nil_r. reflexivity.
  - cbn [batch_slow]. rewrite length_app. cbn [length].
    destruct (Z.eqb_spec (Z.of_nat (length cur + 1)) n); [lia|].
    rewrite IH, <- app_assoc. reflexivity.
Qed.

Lemma yield_each_Ok {B C : Type} (f : B → C) (xs : list B) :
  yield_each (fun x => Ok (f x)) xs = Ok (map f xs).
Proof.
  induction xs as [|x xs IH]; [reflexivity|].
  cbn [yield_each map mbind result_bind]. rewrite IH. reflexivity.
Qed.

(** The slices of a list, a tuple or a str are of its type and hold the
    items of [slices]. *)
Lemma batch_fast_sliceable (t : sequence_type) (items : list A) (n : Z) :
  batch_fast (Sliceable t items) n
  = match slices items n with
    | Ok chunks => Ok (map (mkSequence t) chunks)
    | Raise e => Raise e
    end.
Proof.
  unfold batch_fast, slices, getslice. cbn [sized_items].
  destruct (py_range3 0 (Z.of_nat (length items)) n) as [ndxs|e];
    cbn [mbind result_bind]; [|reflexivity].
  rewrite (yield_each_Ok
             (fun ndx => mkSequence t
                           (py_slice items ndx
                              (Z.min (ndx + n) (Z.of_nat (length items)))))).
  rewrite map_map. reflexivity.
Qed.

(** An object that cannot be sliced raises at its first slice, if there
    is one to take. *)
Lemma batch_fast_unsliceable (items : list A) (e : exn) (n : Z) :
  (0 < n)%Z →
  batch_fast (Unsliceable items e) n
  = match items with
    | [] => Ok []
    | _ => Raise e
    end.
Proof.
  intros Hn. unfold batch_fast, py_range3, getslice. cbn [sized_items].
  destruct (Z.eqb_spec n 0); [lia|]. destruct (Z.ltb_spec 0 n); [|lia].
  cbn [mbind result_bind].
  destruct items as [|x items].
  - change (Z.of_nat (length (@nil A))) with 0%Z.
    rewrite (Z.div_small (0 - 0 + n - 1) n) by lia. reflexivity.
  - assert (Hl : (0 < Z.of_nat (length (x :: items)))%Z) by (cbn [length]; lia).
    rewrite (range_count_step _ _ Hn Hl). reflexivity.
Qed.

(** Whatever [batch] is given, the items of the batches it yields are
    those that the loop of lines 85-92 collects. *)
Lemma batch_items (it : iterable A) (n : Z) (bs : list (sequence A)) :
  (0 < n)%Z → batch it n = Ok bs →
  map seq_items bs = batch_slow (items_of it) n [].
Proof.
  intros Hn Hbs. destruct it as [items|[t items|items e]];
    cbn [batch items_of sized_items] in *.
  - injection Hbs as <-. rewrite map_map. cbn [seq_items]. apply map_id.
  - rewrite batch_fast_sliceable, slices_eq_slow in Hbs by assumption.
    injection Hbs as <-. rewrite map_map. cbn [seq_items]. apply map_id.
  - rewrite batch_fast_unsliceable in Hbs by assumption.
    destruct items; [|discriminate]. injection Hbs as <-. reflexivity.
Qed.

(** X1: for a batch size of at least one, [batch] yields the same items
    in the same batches whether or not its argument has a length: the loop
    that collects items and the slicing agree. The batches of a list, a
    tuple, a str or another sequence are slices, so of its type, and those
    of an iterable without a length are lists: on a list the two ways
    yield the same. *)
Theorem batch_sized_unsized_agree (items : list A) (n : Z) :
  (0 < n)%Z →
  batch (Sized (Sliceable list_type items)) n = batch (Unsized items) n
  ∧ ∀ t, ∃ chunks,
      batch (Sized (Sliceable t items)) n = Ok (map (mkSequence t) chunks)
      ∧ batch (Unsized items) n = Ok (map (mkSequence list_type) chunks).
Proof.
  intros Hn. cbn [batch]. split.
  - now rewrite batch_fast_sliceable, slices_eq_slow.
  - intros t. exists (batch_slow items n []).
    now rewrite batch_fast_sliceable, slices_eq_slow.
Qed.

(** X2: for a batch size of at least one, on an iterable without a length
    and on a list, a tuple, a str or another sequence, [batch] returns,
    and the batches put end to end are the items in their order: nothing
    is lost, repeated or moved. On an object with a length that cannot be
    sliced, such as a set or a dict, it raises what the first slice
    raises (the [TypeError] of a set), unless the object is empty and
    there is no slice to take. *)
Theorem batch_partitions (it : iterable A) (n : Z) :
  (0 < n)%Z →
  match it with
  | Sized (Unsliceable items e) =>
      batch it n = match items with
                   | [] => Ok []
                   | _ => Raise e
                   end
  | _ => ∃ bs, batch it n = Ok bs ∧ concat (map seq_items bs) = items_of it
  end.
Proof.
  intros Hn. destruct it as [items|[t items|items e]];
    cbn [batch items_of sized_items].
  - eexists. split; [reflexivity|].
    rewrite map_map. cbn [seq_items]. rewrite map_id.
    now apply batch_slow_concat.
  - rewrite batch_fast_sliceable, slices_eq_slow by assumption.
    eexists. split; [reflexivity|].
    rewrite map_map. cbn [seq_items]. rewrite map_id.
    now apply batch_slow_concat.
  - now apply batch_fast_unsliceable.
Qed.

(** X3: for a batch size [n] of at least one, no batch is empty, no batch
    has more than [n] items, and every batch but the last has exactly [n]. *)
Theorem batch_sizes (it : iterable A) (n : Z) (bs : list (sequence A))
    (i : nat) (b : sequence A) :
  (0 < n)%Z → batch it n = Ok bs → bs !! i = Some b →
  (0 < Z.of_nat (length (seq_items b)) ≤ n)%Z
  ∧ (S i < length bs → Z.of_nat (length (seq_items b)) = n).
Proof.
  intros Hn Hbs Hb.
  pose proof (batch_items _ _ _ Hn Hbs) as Hitems.
  assert (Hb' : batch_slow (items_of it) n [] !! i = Some (seq_items b))
    by (rewrite <- Hitems, list_lookup_fmap, Hb; reflexivity).
  destruct (batch_slow_sizes _ _ _ _ Hn Hb') as [H1 H2].
  split; [lia|]. intros Hmore.
  rewrite <- Hitems, length_map in H2. specialize (H2 Hmore). lia.
Qed.

(** X4: for a batch size [n] of at least one, the number of batches is the
    number of items divided by [n], rounded up. *)
Theorem batch_count (it : iterable A) (n : Z) (bs : list (sequence A)) :
  (0 < n)%Z → batch it n = Ok bs →
  Z.of_nat (length bs) = ((Z.of_nat (length (items_of it)) + n - 1) / n)%Z.
Proof.
  intros Hn Hbs.
  pose proof (batch_items _ _ _ Hn Hbs) as Hitems.
  rewrite <- (length_map seq_items), Hitems.
  now apply batch_slow_count.
Qed.

(** X5: for a batch size below one the two versions part ways. Without a
    length, all the items come as one batch, a list (none when there are
    no items); with a length, a batch size of zero raises the [ValueError]
    of [range] and a negative one yields no batch at all, whatever the
    items and whether or not the object can be sliced. *)
Theorem batch_nonpositive (items : list A) (n : Z) :
  (n ≤ 0)%Z →
  batch (Unsized items) n
  = Ok (match items with [] => [] | _ => [mkSequence list_type items] end)
  ∧ (n = 0%Z →
     ∀ s, sized_items s = items →
       batch (Sized s) n
       = Raise (ValueError "range() arg 3 must not be zero"))
  ∧ ((n < 0)%Z → ∀ s, sized_items s = items → batch (Sized s) n = Ok []).
Proof.
  intros Hn. split; [|split].
  - cbn [batch]. rewrite batch_slow_nonpositive by assumption.
    cbn [app]. destruct items; reflexivity.
  - intros -> s _. reflexivity.
  - intros Hneg s Hs. cbn [batch]. unfold batch_fast, py_range3.
    destruct (Z.eqb_spec n 0); [lia|]. destruct (Z.ltb_spec 0 n); [lia|].
    rewrite Hs.
    assert (Hc : ((0 - Z.of_nat (length items) - n - 1) / - n < 1)%Z)
      by (apply Z.div_lt_upper_bound; lia).
    replace (Z.to_nat ((0 - Z.of_nat (length items) - n - 1) / - n)) with 0 by lia.
    reflexivity.
Qed.

End BatchProperties.

Lemma batch_sized_unsized_agree_witness :
  batch (Sized (Sliceable list_type [1; 2; 3; 4; 5; 6; 7])) 3
  = batch (Unsized [1; 2; 3; 4; 5; 6; 7]) 3
  ∧ ∀ t, ∃ chunks,
      batch (Sized (Sliceable t [1; 2; 3; 4; 5; 6; 7])) 3
      = Ok (map (mkSequence t) chunks)
      ∧ batch (Unsized [1; 2; 3; 4; 5; 6; 7]) 3
        = Ok (map (mkSequence list_type) chunks).
Proof. apply (batch_sized_unsized_agree [1; 2; 3; 4; 5; 6; 7] 3). lia. Defined.

Lemma batch_partitions_witness :
  ∃ bs, batch (Sized (Sliceable tuple_type [1; 2; 3; 4; 5; 6; 7])) 3 = Ok bs
      ∧ concat (map seq_items bs)
        = items_of (Sized (Sliceable tuple_type [1; 2; 3; 4; 5; 6; 7])).
Proof.
  apply (batch_partitions (Sized (Sliceable tuple_type [1; 2; 3; 4; 5; 6; 7])) 3).
  lia.
Defined.

Lemma batch_sizes_witness :
  (0 < Z.of_nat (length (seq_items (mkSequence list_type [4; 5; 6]))) ≤ 3)%Z
  ∧ (S 1 < length [mkSequence list_type [1; 2; 3]; mkSequence list_type [4; 5; 6];
                   mkSequence list_type [7]] →
     Z.of_nat (length (seq_items (mkSequence list_type [4; 5; 6]))) = 3%Z).
Proof.
  apply (batch_sizes (Unsized [1; 2; 3; 4; 5; 6; 7]) 3
           [mkSequence list_type [1; 2; 3]; mkSequence list_type [4; 5; 6];
            mkSequence list_type [7]] 1 (mkSequence list_type [4; 5; 6]));
    [lia | reflexivity | reflexivity].
Defined.

Lemma batch_count_witness :
  Z.of_nat (length [mkSequence str_type [1; 2; 3]; mkSequence str_type [4; 5; 6];
                    mkSequence str_type [7]])
  = ((Z.of_nat (length (items_of (Sized (Sliceable str_type [1; 2; 3; 4; 5; 6; 7]))))
      + 3 - 1) / 3)%Z.
Proof.
  apply (batch_count (Sized (Sliceable str_type [1; 2; 3; 4; 5; 6; 7])) 3
           [mkSequence str_type [1; 2; 3]; mkSequence str_type [4; 5; 6];
            mkSequence str_type [7]]);
    [lia | reflexivity].
Defined.

Lemma batch_nonpositive_witness :
  batch (Unsized [1; 2; 3]) (-2)
  = Ok (match [1; 2; 3] with [] => [] | _ => [mkSequence list_type [1; 2; 3]] end)
  ∧ ((-2)%Z = 0%Z →
     ∀ s, sized_items s = [1; 2; 3] →
       batch (Sized s) (-2)
       = Raise (ValueError "range() arg 3 must not be zero"))
  ∧ ((-2 < 0)%Z → ∀ s, sized_items s = [1; 2; 3] → batch (Sized s) (-2) = Ok []).
Proof. apply (batch_nonpositive [1; 2; 3] (-2)). lia. Defined.

Example batch_examples :
  batch (Sized (Sliceable list_type [1; 2; 3; 4; 5; 6; 7])) 3
  = Ok [mkSequence list_type [1; 2; 3]; mkSequence list_type [4; 5; 6];
        mkSequence list_type [7]]
  ∧ batch (Sized (Sliceable tuple_type [1; 2; 3; 4; 5; 6; 7])) 3
    = Ok [mkSequence tuple_type [1; 2; 3]; mkSequence tuple_type [4; 5; 6];
          mkSequence tuple_type [7]]
  ∧ batch (Unsized [1; 2; 3; 4]) 2
    = Ok [mkSequence list_type [1; 2]; mkSequence list_type [3; 4]]
  ∧ batch (Sized (Unsliceable [1; 2; 3] (TypeError "'set' object is not subscriptable"))) 2
    = Raise (TypeError "'set' object is not subscriptable")
  ∧ batch (Sized (Unsliceable (@nil Z) (TypeError "'set' object is not subscriptable"))) 2
    = Ok []
  ∧ batch (Sized (Sliceable list_type [1; 2; 3])) 0
    = Raise (ValueError "range() arg 3 must not be zero")
  ∧ batch (Sized (Unsliceable [1; 2; 3] (TypeError "'set' object is not subscriptable"))) 0
    = Raise (ValueError "range() arg 3 must not be zero")
  ∧ batch (Unsized [1; 2; 3]) 0 = Ok [mkSequence list_type [1; 2; 3]]
  ∧ batch (Sized (Sliceable list_type [1; 2; 3])) (-1) = Ok [].
Proof. repeat split; reflexivity. Qed.

(** ** lib/utils.py: padding, further properties *)

(** X6: [pad_tensor] never shortens a tensor. The result starts with the
    tensor, continues with [PADDING_INDEX] only, and its length is the
    larger of the length asked for and the length of the tensor: a length
    below that of the tensor leaves the tensor as it is. *)
Theorem pad_tensor_never_truncates (PADDING_INDEX : Z) (tensor : list Z) (n : Z) :
  Z.of_nat (length (pad_tensor PADDING_INDEX tensor n))
  = Z.max (Z.of_nat (length tensor)) n
  ∧ take (length tensor) (pad_tensor PADDING_INDEX tensor n) = tensor
  ∧ (∀ i x, length tensor ≤ i →
       pad_tensor PADDING_INDEX tensor n !! i = Some x → x = PADDING_INDEX)
  ∧ ((n ≤ Z.of_nat (length tensor))%Z →
       pad_tensor PADDING_INDEX tensor n = tensor).
Proof.
  unfold pad_tensor, py_repeat. split; [|split; [|split]].
  - rewrite length_app, repeat_length. lia.
  - now rewrite take_app_length.
  - intros i x Hi Hx. rewrite lookup_app_r in Hx by assumption.
    apply list_elem_of_lookup_2, list_elem_of_In, repeat_spec in Hx. exact Hx.
  - intros Hn. replace (Z.to_nat (n - Z.of_nat (length tensor))) with 0 by lia.
    apply app_nil_r.
Qed.

Lemma unpad_map (PADDING_INDEX m : Z) (batch : list (list Z)) :
  zip_with (fun p len => take (Z.to_nat len) p)
    (map (fun row => pad_tensor PADDING_INDEX row m) batch)
    (map (fun row => Z.of_nat (length row)) batch)
  = batch.
Proof.
  induction batch as [|row batch IH]; [reflexivity|].
  cbn [map zip_with]. rewrite IH. f_equal.
  unfold pad_tensor. rewrite Nat2Z.id. apply take_app_length.
Qed.

(** X7: the lengths that [pad_batch] returns undo the padding: cutting
    each padded row back to its returned length gives the batch that went
    in. *)
Theorem pad_batch_lengths_undo_padding (PADDING_INDEX : Z)
    (batch padded : list (list Z)) (lengths : list Z) :
  pad_batch PADDING_INDEX batch = Ok (padded, lengths) →
  zip_with (fun p len => take (Z.to_nat len) p) padded lengths = batch.
Proof.
  unfold pad_batch. destruct (py_max _) as [m|e]; cbn; [|discriminate].
  intros [= <- <-]. apply unpad_map.
Qed.

Lemma pad_batch_lengths_undo_padding_witness :
  zip_with (fun p len => take (Z.to_nat len) p)
    [[5; 6; 7]; [8; 0; 0]; [0; 0; 0]]%Z [3; 1; 0]%Z
  = [[5; 6; 7]; [8]; []]%Z.
Proof.
  apply (pad_batch_lengths_undo_padding 0 [[5; 6; 7]; [8]; []]%Z
           [[5; 6; 7]; [8; 0; 0]; [0; 0; 0]]%Z [3; 1; 0]%Z).
  reflexivity.
Defined.

(** X8: padding a padded batch changes nothing: [pad_batch] returns the
    same rows, and every returned length is the common length. *)
Theorem pad_batch_idempotent (PADDING_INDEX : Z)
    (batch padded : list (list Z)) (lengths : list Z) :
  pad_batch PADDING_INDEX batch = Ok (padded, lengths) →
  ∃ max_len,
    pad_batch PADDING_INDEX padded = Ok (padded, map (fun _ => max_len) batch)
    ∧ ∀ len, len ∈ lengths → (len ≤ max_len)%Z.
Proof.
  unfold pad_batch at 1.
  destruct (py_max _) as [m|e] eqn:Hmax; cbn; [|discriminate].
  intros [= <- <-]. exists m.
  assert (Hne : batch ≠ []) by (destruct batch; [discriminate | congruence]).
  destruct (py_max_spec (map (λ row, Z.of_nat (length row)) batch))
    as (m' & Hm' & Hin & Hge); [destruct batch; [congruence | discriminate]|].
  rewrite Hmax in Hm'. injection Hm' as <-.
  split; [|exact Hge].
  assert (Hlen : map (λ row, Z.of_nat (length row))
                   (map (λ row, pad_tensor PADDING_INDEX row m) batch)
                 = map (λ _, m) batch).
  { rewrite map_map. apply map_ext_in. intros row Hrow.
    apply length_pad_tensor, Hge, list_elem_of_fmap.
    exists row. split; [reflexivity | now apply list_elem_of_In]. }
  unfold pad_batch. rewrite Hlen.
  destruct (py_max_spec (map (λ _ : list Z, m) batch)) as (m2 & Hm2 & Hin2 & _).
  { destruct batch; [congruence | discriminate]. }
  apply list_elem_of_fmap in Hin2 as (? & -> & _).
  rewrite Hm2. cbn. f_equal. f_equal.
  rewrite map_map. apply map_ext_in. intros row Hrow.
  assert (Z.of_nat (length (pad_tensor PADDING_INDEX row m)) = m).
  { apply length_pad_tensor, Hge, list_elem_of_fmap.
    exists row. split; [reflexivity | now apply list_elem_of_In]. }
  unfold pad_tensor at 1, py_repeat.
  replace (Z.to_nat (m - Z.of_nat (length (pad_tensor PADDING_INDEX row m))))
    with 0 by lia.
  apply app_nil_r.
Qed.

Lemma pad_batch_idempotent_witness :
  ∃ max_len,
    pad_batch 0 [[5; 6; 7]; [8; 0; 0]; [0; 0; 0]]%Z
    = Ok ([[5; 6; 7]; [8; 0; 0]; [0; 0; 0]]%Z,
          map (fun _ => max_len) [[5; 6; 7]; [8]; []]%Z)
    ∧ ∀ len, len ∈ [3; 1; 0]%Z → (len ≤ max_len)%Z.
Proof.
  apply (pad_batch_idempotent 0 [[5; 6; 7]; [8]; []]%Z
           [[5; 6; 7]; [8; 0; 0]; [0; 0; 0]]%Z [3; 1; 0]%Z).
  reflexivity.
Defined.

(** ** lib/utils.py: torch_equals_ignore_index *)

Lemma length_select_entries (es es' : list Z) (mask : list bool) :
  length es = length es' →
  length (select_entries es mask) = length (select_entries es' mask).
Proof.
  revert es' mask. induction es as [|v es IH]; intros [|v' es'] mask Hlen;
    try discriminate; [reflexivity|].
  destruct mask as [|[] mask]; cbn [select_entries length]; auto.
Qed.

Lemma select_entries_agree (ignore_index : Z) (es es' : list Z) :
  length es = length es' →
  select_entries es (map (fun v => negb (Z.eqb v ignore_index)) es)
  = select_entries es' (map (fun v => negb (Z.eqb v ignore_index)) es)
  ↔ ∀ (i : nat) (x : Z), es !! i = Some x → x ≠ ignore_index → es' !! i = Some x.
Proof.
  revert es'. induction es as [|v es IH]; intros [|v' es'] Hlen; try discriminate.
  - split; [intros _ i x Hi; discriminate | reflexivity].
  - injection Hlen as Hlen. cbn [map select_entries].
    destruct (Z.eqb_spec v ignore_index) as [->|Hne]; cbn [negb].
    + rewrite (IH es' Hlen). split.
      * intros H [|i] x Hi Hx; cbn in *; [congruence | eauto].
      * intros H i x Hi Hx. apply (H (S i) x Hi Hx).
    + split.
      * intros [= <- Hrest]. pose proof (proj1 (IH es' Hlen) Hrest) as Hall.
        intros [|i] x Hi Hx; cbn in *; [congruence | eauto].
      * intros H. f_equal.
        -- specialize (H 0 v eq_refl Hne). cbn in H. congruence.
        -- apply (IH es' Hlen). intros i x Hi Hx. apply (H (S i) x Hi Hx).
Qed.

Lemma wrap_int64_in_range (z : Z) : in_int64 z → to_int64 z = inr z.
Proof.
  unfold in_int64. intros Hz. cbn [to_int64 wrapping_conversion].
  unfold wrap_int64. f_equal. rewrite Z.mod_small by lia. lia.
Qed.

Section TorchEqualsProperties.

Context `{!ScalarConversion}.

(** The conversion leaves a 64-bit integer as it is. *)
Hypothesis to_int64_in_range : ∀ z, in_int64 z → to_int64 z = inr z.

(** X9: for two tensors of the same sizes and an [ignore_index] that is a
    64-bit integer, [torch_equals_ignore_index] returns, and it says true
    exactly when the second tensor has the entry of the first at every
    position where the first tensor does not hold [ignore_index]; what the
    second tensor holds at the other positions does not matter. *)
Theorem torch_equals_ignore_index_ignores (tensor tensor_other : LongTensor)
    (ignore_index : Z) :
  LongTensor_wf tensor → LongTensor_wf tensor_other →
  sizes tensor = sizes tensor_other →
  in_int64 ignore_index →
  ∃ b, torch_equals_ignore_index tensor tensor_other (Some ignore_index) = inr b
     ∧ (b = true
        ↔ ∀ (i : nat) (x : Z),
            entries tensor !! i = Some x → x ≠ ignore_index →
            entries tensor_other !! i = Some x).
Proof.
  intros [Hwf _] [Hwf' _] Hsizes Hrange.
  assert (Hlen : length (entries tensor) = length (entries tensor_other))
    by congruence.
  unfold torch_equals_ignore_index.
  rewrite (bool_decide_eq_true_2 _ Hsizes). cbn [negb].
  unfold ne. rewrite (to_int64_in_range _ Hrange).
  eexists. split; [reflexivity|].
  unfold torch_equal, masked_select. cbn [sizes entries].
  rewrite <- (select_entries_agree ignore_index _ _ Hlen).
  rewrite andb_true_iff, !bool_decide_eq_true. split; [tauto|].
  intros Heq. split; [|exact Heq]. now rewrite Heq.
Qed.

End TorchEqualsProperties.

Lemma torch_equals_ignore_index_ignores_witness :
  ∃ b, torch_equals_ignore_index
         (mkLongTensor [2; 2] [1; 0; 3; 0]%Z) (mkLongTensor [2; 2] [1; 7; 3; 9]%Z)
         (Some 0%Z) = inr b
     ∧ (b = true
        ↔ ∀ (i : nat) (x : Z),
            entries (mkLongTensor [2; 2] [1; 0; 3; 0]%Z) !! i = Some x →
            x ≠ 0%Z →
            entries (mkLongTensor [2; 2] [1; 7; 3; 9]%Z) !! i = Some x).
Proof.
  apply (torch_equals_ignore_index_ignores wrap_int64_in_range
           (mkLongTensor [2; 2] [1; 0; 3; 0]%Z) (mkLongTensor [2; 2] [1; 7; 3; 9]%Z)
           0%Z).
  - split; [reflexivity|].
    repeat first [apply List.Forall_cons | apply List.Forall_nil];
      unfold in_int64; lia.
  - split; [reflexivity|].
    repeat first [apply List.Forall_cons | apply List.Forall_nil];
      unfold in_int64; lia.
  - reflexivity.
  - unfold in_int64. lia.
Defined.

(** The mask is read off the first tensor only, so the arguments do not
    commute; and tensors of different sizes make the call with an
    [ignore_index] fail its assertion while the plain call says false.
    Beyond the 64-bit integers the result is that for the converted
    [ignore_index]: where the conversion wraps around, [2^64 - 1] masks
    the entries [-1]. *)
Example torch_equals_ignore_index_examples :
  torch_equals_ignore_index (mkLongTensor [3] [1; 0; 3]%Z)
    (mkLongTensor [3] [1; 7; 3]%Z) (Some 0%Z) = inr true
  ∧ torch_equals_ignore_index (mkLongTensor [3] [1; 7; 3]%Z)
      (mkLongTensor [3] [1; 0; 3]%Z) (Some 0%Z) = inr false
  ∧ torch_equals_ignore_index (mkLongTensor [3] [1; 0; 3]%Z)
      (mkLongTensor [3] [1; 7; 3]%Z) None = inr false
  ∧ torch_equals_ignore_index (mkLongTensor [2] [1; 0]%Z)
      (mkLongTensor [3] [1; 0; 3]%Z) (Some 0%Z) = inl AssertionFailed
  ∧ torch_equals_ignore_index (mkLongTensor [2] [1; 0]%Z)
      (mkLongTensor [3] [1; 0; 3]%Z) None = inr false
  ∧ torch_equals_ignore_index (mkLongTensor [2] [1; -1]%Z)
      (mkLongTensor [2] [1; 5]%Z) (Some 18446744073709551615%Z) = inr true.
Proof. repeat split; vm_compute; reflexivity. Qed.

(** ** lib/utils.py: get_total_parameters *)

Lemma counted_size_numel (x : TorchParameter) :
  length (size x) = 1 ∨ length (size x) = 2 → counted_size x = inr (numel x).
Proof.
  unfold counted_size, numel. destruct (size x) as [|s0 [|s1 [|s2 rest]]]; cbn.
  - intros [H|H]; discriminate.
  - intros _. f_equal. lia.
  - intros _. f_equal. lia.
  - intros [H|H]; discriminate.
Qed.

(** X10: when every trainable parameter has one or two dimensions,
    [get_total_parameters] returns the number of entries of the trainable
    parameters; parameters that do not require a gradient are not
    counted. *)
Theorem get_total_parameters_counts (parameters : list TorchParameter) :
  (∀ x, x ∈ parameters → requires_grad x = true →
        length (size x) = 1 ∨ length (size x) = 2) →
  get_total_parameters parameters
  = inr (sum_list (map numel (List.filter requires_grad parameters))).
Proof.
  unfold get_total_parameters.
  induction parameters as [|x ps IH]; intros Hdims; [reflexivity|].
  assert (Hps : ∀ y, y ∈ ps → requires_grad y = true →
                length (size y) = 1 ∨ length (size y) = 2)
    by (intros y Hy; apply Hdims; now apply list_elem_of_further).
  cbn [List.filter]. destruct (requires_grad x) eqn:Hx; [|now apply IH].
  cbn [sum_counted map sum_list sum_list_with].
  rewrite counted_size_numel by (apply Hdims; [apply list_elem_of_here | exact Hx]).
  now rewrite (IH Hps).
Qed.

Lemma get_total_parameters_counts_witness :
  get_total_parameters
    [mkTorchParameter true [16; 100]; mkTorchParameter false [50; 50];
     mkTorchParameter true [16]]
  = inr (sum_list (map numel (List.filter requires_grad
           [mkTorchParameter true [16; 100]; mkTorchParameter false [50; 50];
            mkTorchParameter true [16]]))).
Proof.
  apply (get_total_parameters_counts
           [mkTorchParameter true [16; 100]; mkTorchParameter false [50; 50];
            mkTorchParameter true [16]]).
  intros x Hx _.
  apply elem_of_cons in Hx as [->|Hx]; [right; reflexivity|].
  apply elem_of_cons in Hx as [->|Hx]; [right; reflexivity|].
  apply elem_of_cons in Hx as [->|Hx]; [left; reflexivity|].
  now apply elem_of_nil in Hx.
Defined.

(** X11: a trainable parameter with three or more dimensions is counted
    by its first two sizes only, and a trainable parameter without
    dimensions makes the call raise [IndexError]. *)
Theorem get_total_parameters_beyond_two_dimensions
    (before after : list TorchParameter) (x : TorchParameter) (total : nat) :
  requires_grad x = true →
  get_total_parameters (before ++ after) = inr total →
  (∀ s0 s1 rest, size x = s0 :: s1 :: rest →
     get_total_parameters (before ++ x :: after) = inr (total + s0 * s1))
  ∧ (size x = [] →
     get_total_parameters (before ++ x :: after)
     = inl (IndexError "tuple index out of range")).
Proof.
  intros Hx. unfold get_total_parameters. rewrite !List.filter_app.
  cbn [List.filter]. rewrite Hx.
  generalize (List.filter requires_grad before) as bs.
  generalize (List.filter requires_grad after) as cs. clear.
  intros cs bs. revert total.
  induction bs as [|b bs IH]; intros total; cbn [app sum_counted].
  - intros Hcs. unfold counted_size. split.
    + intros s0 s1 rest ->. rewrite Hcs. f_equal. lia.
    + intros ->. reflexivity.
  - destruct (counted_size b) as [e|c]; [discriminate|].
    destruct (sum_counted (bs ++ cs)) as [e|s] eqn:Hs; [discriminate|].
    intros [= <-]. destruct (IH s eq_refl) as [H1 H2]. split.
    + intros s0 s1 rest Hsz. rewrite (H1 s0 s1 rest Hsz). f_equal. lia.
    + intros Hsz. now rewrite (H2 Hsz).
Qed.

Lemma get_total_parameters_beyond_two_dimensions_witness :
  (∀ s0 s1 rest, size (mkTorchParameter true [8; 3; 5; 5]) = s0 :: s1 :: rest →
     get_total_parameters
       ([mkTorchParameter true [4]] ++ mkTorchParameter true [8; 3; 5; 5]
        :: [mkTorchParameter true [2; 2]])
     = inr (8 + s0 * s1))
  ∧ (size (mkTorchParameter true [8; 3; 5; 5]) = [] →
     get_total_parameters
       ([mkTorchParameter true [4]] ++ mkTorchParameter true [8; 3; 5; 5]
        :: [mkTorchParameter true [2; 2]])
     = inl (IndexError "tuple index out of range")).
Proof.
  apply (get_total_parameters_beyond_two_dimensions
           [mkTorchParameter true [4]] [mkTorchParameter true [2; 2]]
           (mkTorchParameter true [8; 3; 5; 5]) 8); reflexivity.
Defined.

(** ** lib/utils.py: StreamFork *)







(** ** lib/utils.py: resplit_datasets, further properties *)

Section ResplitMore.

Context {Row : Type}.
Variable rng : Type.
Variable seed_rng : Z -> rng.
Variable randbelow : rng -> nat -> nat * rng.
Variable float : Type.
Variable round_len_times : nat -> float -> result Z.

Local Abbreviation resplit :=
  (resplit_datasets rng seed_rng randbelow float round_len_times).

Lemma swap_Permutation (x : list Row) (i j : nat) : swap x i j ≡ₚ x.
Proof.
  unfold swap. destruct (x !! i) as [xi|] eqn:Hi; [|reflexivity].
  destruct (x !! j) as [xj|] eqn:Hj; [|reflexivity].
  now apply Permutation_insert_swap.
Qed.

Lemma shuffle_from_Permutation (k : nat) (g : rng) (x : list Row) :
  shuffle_from rng randbelow k g x ≡ₚ x.
Proof.
  revert g x. induction k as [|k IH]; intros g x; cbn [shuffle_from]; [reflexivity|].
  destruct (randbelow g (S (S k))) as [j g'].
  rewrite IH. apply swap_Permutation.
Qed.

Lemma resplit_rows (entropy : Z) (dataset other : Dataset Row)
    (random_seed : option Z) (cut : option float) (d1 d2 : Dataset Row) :
  resplit entropy dataset other random_seed cut = Ok (d1, d2) →
  rows d1 ++ rows d2
  = shuffle rng randbelow (Random rng seed_rng entropy random_seed)
      (rows dataset ++ rows other).
Proof.
  unfold resplit_datasets. destruct cut as [c|].
  - destruct (round_len_times _ c) as [r|e]; cbn; [|discriminate].
    intros [= <- <-]. cbn [rows]. apply take_drop.
  - intros [= <- <-]. cbn [rows]. apply take_drop.
Qed.

(** X14: with a generator that draws below its bound, the two datasets
    that [resplit_datasets] returns hold, between them, the rows of the
    two datasets given: each row as often as before, none lost and none
    made up, whatever the seed and the cut. *)
Theorem resplit_datasets_permutes (entropy : Z) (dataset other : Dataset Row)
    (random_seed : option Z) (cut : option float) (d1 d2 : Dataset Row) :
  (∀ g n, 0 < n → fst (randbelow g n) < n) →
  resplit entropy dataset other random_seed cut = Ok (d1, d2) →
  rows d1 ++ rows d2 ≡ₚ rows dataset ++ rows other.
Proof.
  intros _ Hrun. rewrite (resplit_rows _ _ _ _ _ _ _ Hrun).
  unfold shuffle. apply shuffle_from_Permutation.
Qed.

(** X15: the sizes of the split. Without a cut the returned datasets have
    the sizes of the datasets given. With a cut the first holds
    [round(len * cut)] rows, brought into the range from no row to all
    rows, and the second the rest; the call raises only if the rounding
    does. *)
Theorem resplit_datasets_sizes (entropy : Z) (dataset other : Dataset Row)
    (random_seed : option Z) :
  (∃ d1 d2,
     resplit entropy dataset other random_seed None = Ok (d1, d2)
     ∧ length (rows d1) = length (rows dataset)
     ∧ length (rows d2) = length (rows other))
  ∧ (∀ cut r,
       round_len_times (length (rows dataset ++ rows other)) cut = Ok r →
       ∃ d1 d2,
         resplit entropy dataset other random_seed (Some cut) = Ok (d1, d2)
         ∧ Z.of_nat (length (rows d1))
           = Z.max (Z.min r (Z.of_nat (length (rows dataset ++ rows other)))) 0
         ∧ length (rows d1) + length (rows d2)
           = length (rows dataset) + length (rows other))
  ∧ (∀ cut e,
       round_len_times (length (rows dataset ++ rows other)) cut = Raise e →
       resplit entropy dataset other random_seed (Some cut) = Raise e).
Proof.
  unfold resplit_datasets, shuffle, len_Dataset. split; [|split].
  - eexists _, _. split; [reflexivity|]. cbn [rows].
    rewrite length_take, length_drop, !length_shuffle_from, length_app. lia.
  - intros cut r Hr. rewrite length_shuffle_from, Hr. cbn.
    eexists _, _. split; [reflexivity|]. cbn [rows].
    rewrite length_take, length_drop, !length_shuffle_from, length_app. lia.
  - intros cut e Hr. rewrite length_shuffle_from, Hr. reflexivity.
Qed.

End ResplitMore.

Lemma resplit_datasets_permutes_witness :
  rows (mkDataset [12; 15; 10; 11]) ++ rows (mkDataset [14; 13])
  ≡ₚ rows (mkDataset [10; 11; 12; 13]) ++ rows (mkDataset [14; 15]).
Proof.
  apply (resplit_datasets_permutes nat Z.to_nat counter_randbelow (nat * nat)
           ratio_round_len_times 0 (mkDataset [10; 11; 12; 13])
           (mkDataset [14; 15]) (Some 3%Z) None).
  - intros g n Hn. cbn [counter_randbelow fst]. apply Nat.mod_upper_bound. lia.
  - vm_compute. reflexivity.
Defined.

(** ** lib/nn/attention.py: further properties *)

Lemma masked_score_cases (mask : option (Tensor3 bool)) (s : nat -> nat -> nat -> R)
    (b i j : nat) :
  masked_score mask s b i j
  = if is_masked mask b i j then NegInf else Finite (s b i j).
Proof. unfold masked_score, is_masked. destruct mask; reflexivity. Qed.

Lemma rsum_delta (n k : nat) (x : nat -> R) :
  k < n → rsum n (fun m => x m * identity_weights k m)%R = x k.
Proof.
  unfold identity_weights. induction n as [|n IH]; intros Hk; [lia|].
  cbn [rsum]. destruct (decide (k = n)) as [->|Hne].
  - rewrite Nat.eqb_refl.
    rewrite (rsum_ext n _ (fun _ => 0%R)).
    + assert (Hz : rsum n (fun _ => 0%R) = 0%R)
        by (clear; induction n; cbn [rsum]; [reflexivity | lra]).
      rewrite Hz. lra.
    + intros m Hm. destruct (Nat.eqb_spec n m); [lia | lra].
  - rewrite IH by lia. destruct (Nat.eqb_spec k n); [lia | lra].
Qed.

Section ForwardMore.

Variables (dimensions : nat) (mask : option (Tensor3 bool))
          (attention_type : string) (init_in init_out : nat -> nat -> R)
          (self : Attention.t) (input_ context : Tensor3 R).

Hypothesis Hinit :
  Attention.__init__ dimensions mask attention_type init_in init_out = Ok self.
Hypothesis Hdim : size2 input_ = dimensions.
Hypothesis Hbatch : size0 context = size0 input_.
Hypothesis Hctx : size2 context = dimensions.
Hypothesis Hmask : mask_fits mask input_ context.

(** [forward] in terms of its arguments alone. *)
Lemma forward_closed_form :
  ∃ output weights,
    Attention.forward self input_ context = Ok (output, weights)
    ∧ ∀ b i, i < size1 input_ →
        (∀ j, j < size1 context →
           at3 weights b i j
           = softmax_weight (size1 context)
               (masked_score mask
                  (fun b i j =>
                     dot dimensions
                       (scoring_input attention_type init_in input_ b i)
                       (at3 context b j)) b i) j)
        ∧ (∀ o, o < dimensions →
             at3 output b i o
             = tanh (rsum (2 * dimensions)
                       (fun k =>
                          mix_concat dimensions (size1 context)
                            (at3 weights b i) (at3 context b)
                            (scoring_input attention_type init_in input_ b i) k
                          * init_out o k)%R)).
Proof.
  destruct (forward_entries _ _ _ _ _ _ _ _ Hinit Hdim Hbatch Hctx Hmask)
    as (q & s & output & weights & Hq & Hs & Hf & Hso & Hsw
        & Qat & Sat & Wat & Oat).
  exists output, weights. split; [exact Hf|].
  intros b i Hi. split.
  - intros j Hj. rewrite Wat by assumption.
    apply softmax_weight_ext. intros j'. unfold masked_score.
    assert (at3 s b i j'
            = dot dimensions (scoring_input attention_type init_in input_ b i)
                (at3 context b j')) as ->.
    { rewrite Sat. apply dot_ext. intros k Hk. now apply Qat. }
    reflexivity.
  - intros o Ho. rewrite Oat by assumption. f_equal.
    apply rsum_ext. intros k Hk. f_equal.
    apply mix_concat_ext; [exact Hk|]. intros m Hm. now apply Qat.
Qed.

End ForwardMore.

Lemma softmax_weight_ext_lt (n : nat) (s s' : nat -> score) (j : nat) :
  j < n → (∀ k, k < n → s k = s' k) →
  softmax_weight n s j = softmax_weight n s' j.
Proof.
  intros Hj H. unfold softmax_weight. rewrite (H j Hj). f_equal.
  apply rsum_ext. intros k Hk. now rewrite H.
Qed.

Lemma dot_ext_both (n : nat) (u u' v v' : nat -> R) :
  (∀ k, k < n → u k = u' k) → (∀ k, k < n → v k = v' k) →
  dot n u v = dot n u' v'.
Proof.
  intros Hu Hv. unfold dot. apply rsum_ext. intros k Hk.
  now rewrite Hu, Hv.
Qed.

(** Two runs of the formulas of [forward] on scoring inputs and contexts
    that agree on one batch entry agree there. *)
Lemma forward_values_agree (d L : nat) (mask : option (Tensor3 bool))
    (Q1 Q2 C1 C2 : nat -> nat -> nat -> R) (W1 W2 : nat -> nat -> R)
    (w_out : nat -> nat -> R) (b i : nat) :
  (∀ k, k < d → Q1 b i k = Q2 b i k) →
  (∀ j k, j < L → k < d → C1 b j k = C2 b j k) →
  (∀ j, j < L →
     W1 i j = softmax_weight L
                (masked_score mask (fun b i j => dot d (Q1 b i) (C1 b j)) b i) j) →
  (∀ j, j < L →
     W2 i j = softmax_weight L
                (masked_score mask (fun b i j => dot d (Q2 b i) (C2 b j)) b i) j) →
  (∀ j, j < L → W1 i j = W2 i j)
  ∧ ∀ o,
      tanh (rsum (2 * d)
              (fun k => mix_concat d L (W1 i) (C1 b) (Q1 b i) k * w_out o k)%R)
      = tanh (rsum (2 * d)
                (fun k => mix_concat d L (W2 i) (C2 b) (Q2 b i) k * w_out o k)%R).
Proof.
  intros HQ HC H1 H2.
  assert (HW : ∀ j, j < L → W1 i j = W2 i j).
  { intros j Hj. rewrite H1, H2 by assumption.
    apply softmax_weight_ext_lt; [exact Hj|]. intros j' Hj'.
    rewrite !masked_score_cases. destruct (is_masked mask b i j'); [reflexivity|].
    f_equal. apply dot_ext_both; [exact HQ | intros k Hk; now apply HC]. }
  split; [exact HW|]. intros o. f_equal. apply rsum_ext. intros k Hk. f_equal.
  unfold mix_concat. destruct (Nat.ltb_spec k d) as [Hlt|Hge].
  - apply rsum_ext. intros j Hj. rewrite HW by assumption. now rewrite HC.
  - apply HQ. lia.
Qed.

Lemma scoring_input_agree (attention_type : string) (w_in : nat -> nat -> R)
    (input1 input2 : Tensor3 R) (b i k : nat) :
  size2 input1 = size2 input2 →
  (∀ m, m < size2 input1 → at3 input1 b i m = at3 input2 b i m) →
  k < size2 input1 →
  scoring_input attention_type w_in input1 b i k
  = scoring_input attention_type w_in input2 b i k.
Proof.
  intros Hsz Hin Hk. unfold scoring_input.
  destruct (String.eqb attention_type "general"); [|now apply Hin].
  rewrite <- Hsz. apply dot_ext. exact Hin.
Qed.

(** X18: [forward] keeps the entries of a batch apart. If two calls on
    the same module get inputs and contexts of the same sizes that agree
    on batch entry [b], their attention weights and outputs agree on [b],
    whatever the other batch entries hold. *)
Theorem forward_batch_independent
    (dimensions : nat) (mask : option (Tensor3 bool)) (attention_type : string)
    (init_in init_out : nat -> nat -> R) (self : Attention.t)
    (input1 context1 input2 context2 : Tensor3 R) (b : nat) :
  Attention.__init__ dimensions mask attention_type init_in init_out = Ok self →
  size2 input1 = dimensions → size2 input2 = dimensions →
  size0 context1 = size0 input1 → size0 context2 = size0 input2 →
  size2 context1 = dimensions → size2 context2 = dimensions →
  size1 input2 = size1 input1 → size1 context2 = size1 context1 →
  mask_fits mask input1 context1 → mask_fits mask input2 context2 →
  (∀ i k, i < size1 input1 → k < dimensions →
     at3 input1 b i k = at3 input2 b i k) →
  (∀ j k, j < size1 context1 → k < dimensions →
     at3 context1 b j k = at3 context2 b j k) →
  ∃ output1 weights1 output2 weights2,
    Attention.forward self input1 context1 = Ok (output1, weights1)
    ∧ Attention.forward self input2 context2 = Ok (output2, weights2)
    ∧ ∀ i, i < size1 input1 →
        (∀ j, j < size1 context1 → at3 weights1 b i j = at3 weights2 b i j)
        ∧ (∀ o, o < dimensions → at3 output1 b i o = at3 output2 b i o).
Proof.
  intros Hinit Hd1 Hd2 Hb1 Hb2 Hc1 Hc2 HO HL Hm1 Hm2 Hin Hctx.
  destruct (forward_closed_form _ _ _ _ _ _ _ _ Hinit Hd1 Hb1 Hc1 Hm1)
    as (o1 & w1 & Hf1 & Hform1).
  destruct (forward_closed_form _ _ _ _ _ _ _ _ Hinit Hd2 Hb2 Hc2 Hm2)
    as (o2 & w2 & Hf2 & Hform2).
  exists o1, w1, o2, w2. split; [exact Hf1|]. split; [exact Hf2|].
  intros i Hi.
  destruct (Hform1 b i Hi) as [Hw1 Ho1].
  destruct (Hform2 b i) as [Hw2 Ho2]; [lia|]. rewrite HL in Hw2, Ho2.
  destruct (forward_values_agree dimensions (size1 context1) mask
              (scoring_input attention_type init_in input1)
              (scoring_input attention_type init_in input2)
              (at3 context1) (at3 context2) (at3 w1 b) (at3 w2 b) init_out b i)
    as [HW HO']; [| exact Hctx | exact Hw1 | exact Hw2 |].
  - intros k Hk. apply scoring_input_agree; [congruence | | lia].
    intros m Hm. apply Hin; [exact Hi | lia].
  - split; [exact HW|]. intros o Ho. rewrite Ho1, Ho2 by assumption. apply HO'.
Qed.

Lemma forward_batch_independent_witness :
  ∃ output1 weights1 output2 weights2,
    Attention.forward
      (Attention.mk "dot" None (mkLinear 2 1 (second_half_weights 1)) None)
      (mkTensor3 2 1 1 (fun b _ _ => INR b))
      (constant3 2 2 1 1) = Ok (output1, weights1)
    ∧ Attention.forward
        (Attention.mk "dot" None (mkLinear 2 1 (second_half_weights 1)) None)
        (constant3 2 1 1 1)
        (constant3 2 2 1 1) = Ok (output2, weights2)
    ∧ ∀ i, i < 1 →
        (∀ j, j < 2 → at3 weights1 1 i j = at3 weights2 1 i j)
        ∧ (∀ o, o < 1 → at3 output1 1 i o = at3 output2 1 i o).
Proof.
  apply (forward_batch_independent 1 None "dot" zero_weights
           (second_half_weights 1)
           (Attention.mk "dot" None (mkLinear 2 1 (second_half_weights 1)) None)
           (mkTensor3 2 1 1 (fun b _ _ => INR b)) (constant3 2 2 1 1)
           (constant3 2 1 1 1) (constant3 2 2 1 1) 1);
    reflexivity.
Defined.

(** X19: a 'general' attention whose [linear_in] leaves its input as it
    is (identity weights) computes what the 'dot' attention with the same
    [linear_out] and mask computes: the same weights and the same
    output. *)
Theorem general_with_identity_is_dot
    (dimensions : nat) (mask : option (Tensor3 bool))
    (init_in init_out : nat -> nat -> R) (general dot_ : Attention.t)
    (input_ context : Tensor3 R) :
  Attention.__init__ dimensions mask "general" identity_weights init_out
    = Ok general →
  Attention.__init__ dimensions mask "dot" init_in init_out = Ok dot_ →
  size2 input_ = dimensions → size0 context = size0 input_ →
  size2 context = dimensions → mask_fits mask input_ context →
  ∃ output1 weights1 output2 weights2,
    Attention.forward general input_ context = Ok (output1, weights1)
    ∧ Attention.forward dot_ input_ context = Ok (output2, weights2)
    ∧ ∀ b i, b < size0 input_ → i < size1 input_ →
        (∀ j, j < size1 context → at3 weights1 b i j = at3 weights2 b i j)
        ∧ (∀ o, o < dimensions → at3 output1 b i o = at3 output2 b i o).
Proof.
  intros Hg Hd Hdim Hbatch Hctx Hmask.
  destruct (forward_closed_form _ _ _ _ _ _ _ _ Hg Hdim Hbatch Hctx Hmask)
    as (o1 & w1 & Hf1 & Hform1).
  destruct (forward_closed_form _ _ _ _ _ _ _ _ Hd Hdim Hbatch Hctx Hmask)
    as (o2 & w2 & Hf2 & Hform2).
  exists o1, w1, o2, w2. split; [exact Hf1|]. split; [exact Hf2|].
  intros b i Hb Hi.
  destruct (Hform1 b i Hi) as [Hw1 Ho1]. destruct (Hform2 b i Hi) as [Hw2 Ho2].
  destruct (forward_values_agree dimensions (size1 context) mask
              (scoring_input "general" identity_weights input_)
              (scoring_input "dot" init_in input_)
              (at3 context) (at3 context) (at3 w1 b) (at3 w2 b) init_out b i)
    as [HW HO']; [| reflexivity | exact Hw1 | exact Hw2 |].
  - intros k Hk. unfold scoring_input. cbn [String.eqb Ascii.eqb Bool.eqb].
    unfold dot. rewrite Hdim. now apply rsum_delta.
  - split; [exact HW|]. intros o Ho. rewrite Ho1, Ho2 by assumption. apply HO'.
Qed.

Lemma general_with_identity_is_dot_witness :
  ∃ output1 weights1 output2 weights2,
    Attention.forward
      (Attention.mk "general" (Some (mkLinear 2 2 identity_weights))
         (mkLinear 4 2 (second_half_weights 2)) None)
      (constant3 1 1 2 1) (constant3 1 3 2 1) = Ok (output1, weights1)
    ∧ Attention.forward
        (Attention.mk "dot" None (mkLinear 4 2 (second_half_weights 2)) None)
        (constant3 1 1 2 1) (constant3 1 3 2 1) = Ok (output2, weights2)
    ∧ ∀ b i, b < size0 (constant3 1 1 2 1) → i < size1 (constant3 1 1 2 1) →
        (∀ j, j < size1 (constant3 1 3 2 1) →
           at3 weights1 b i j = at3 weights2 b i j)
        ∧ (∀ o, o < 2 → at3 output1 b i o = at3 output2 b i o).
Proof.
  apply (general_with_identity_is_dot 2 None zero_weights (second_half_weights 2)
           (Attention.mk "general" (Some (mkLinear 2 2 identity_weights))
              (mkLinear 4 2 (second_half_weights 2)) None)
           (Attention.mk "dot" None (mkLinear 4 2 (second_half_weights 2)) None)
           (constant3 1 1 2 1) (constant3 1 3 2 1));
    reflexivity.
Defined.

(** X20: [forward] checks no sizes itself. A context whose batch size or
    number of dimensions differs from that of the input makes the batched
    product of the scores raise, for both attention types. *)
Theorem forward_size_mismatch_raises
    (dimensions : nat) (mask : option (Tensor3 bool)) (attention_type : string)
    (init_in init_out : nat -> nat -> R) (self : Attention.t)
    (input_ context : Tensor3 R) :
  Attention.__init__ dimensions mask attention_type init_in init_out = Ok self →
  size2 input_ = dimensions →
  size0 context ≠ size0 input_ ∨ size2 context ≠ dimensions →
  ∃ msg, Attention.forward self input_ context = Raise (RuntimeError msg).
Proof.
  intros Hinit Hdim Hbad.
  destruct (project_input_at _ _ _ _ _ _ input_ input_ Hinit Hdim eq_refl Hdim)
    as (q & Hq & Q0 & Q1 & Q2 & _).
  unfold Attention.forward. rewrite Hq. cbn [mbind result_bind].
  unfold Attention.attention_scores, bmm. cbn [transpose12 size0 size1 size2].
  rewrite Q0, Q2.
  assert (Hcheck : Nat.eqb (size0 input_) (size0 context)
                   && Nat.eqb dimensions (size2 context) = false).
  { apply andb_false_iff. destruct Hbad as [H|H]; [left | right];
      apply Nat.eqb_neq; congruence. }
  rewrite Hcheck. cbn [mbind result_bind]. eauto.
Qed.

Lemma forward_size_mismatch_raises_witness :
  ∃ msg,
    Attention.forward
      (Attention.mk "dot" None (mkLinear 4 2 (second_half_weights 2)) None)
      (constant3 2 1 2 1) (constant3 3 5 2 1) = Raise (RuntimeError msg).
Proof.
  apply (forward_size_mismatch_raises 2 None "dot" zero_weights
           (second_half_weights 2)
           (Attention.mk "dot" None (mkLinear 4 2 (second_half_weights 2)) None)
           (constant3 2 1 2 1) (constant3 3 5 2 1));
    [reflexivity | reflexivity | left; cbn; lia].
Defined.

(** ** scripts/python/train_seq_to_label.py: further properties *)

Section TrainMore.

Context {value Model Encoder batch : Type}.
Context `{!Externals value Model Encoder batch}.

Local Abbreviation M' := (M value Model Encoder batch).
Local Abbreviation world' := (world value Model Encoder batch).
Local Abbreviation call' := (call Model Encoder batch).

Lemma bind_mret_unit (m : M' unit) (w : world') :
  (m ≫= fun _ => mret ()) w = m w.
Proof.
  rewrite bind_run. destruct (m w) as [[[]|e] w']; reflexivity.
Qed.

(** The two nested loops of the encoding phase are one loop over the
    rows of the training dataset followed by those of the development
    dataset. *)
Lemma encode_datasets_eq (te le : Encoder) (tr dv : Dataset loc) (w : world') :
  encode_datasets te le tr dv w
  = for_each (rows tr ++ rows dv) (encode_row te le) w.
Proof.
  rewrite for_each_app. unfold encode_datasets. cbn [for_each].
  change (λ row : loc, encode_row te le row) with (encode_row te le).
  rewrite !bind_run.
  destruct (for_each (rows tr) (encode_row te le) w) as [[[]|e] w1]; [|reflexivity].
  apply bind_mret_unit.
Qed.

Lemma encode_row_missing (te le : Encoder) (l : loc) (r : gmap string value)
    (w : world') :
  row_heap w !! l = Some r →
  r !! "text" = None ∨ r !! "label" = None →
  match r !! "text" with
  | None => encode_row te le l w = (Raise (KeyError "text"), w)
  | Some t =>
      encode_row te le l w
      = (Raise (KeyError "label"),
         mkWorld (<[l := <["text" := encode te t]> r]> (row_heap w))
           (directories w) (files w) (calls w))
  end.
Proof.
  intros Hl Hmiss. destruct (r !! "text") as [t|] eqn:Ht.
  - destruct Hmiss as [?|Hlb]; [discriminate|].
    unfold encode_row.
    rewrite bind_run, (getitem_run l "text" r t) by assumption.
    rewrite bind_run, (setitem_run l "text" r) by assumption.
    rewrite bind_run. unfold getitem. cbn [row_heap].
    rewrite lookup_insert_eq, lookup_insert_ne by discriminate.
    rewrite Hlb. reflexivity.
  - unfold encode_row. rewrite bind_run. unfold getitem.
    rewrite Hl, Ht. reflexivity.
Qed.

(** X21: the encoding phase does not undo what it has done. When the
    first row that lacks 'text' or 'label' comes after rows that have
    both, the phase raises [KeyError] for the missing key and leaves the
    earlier rows encoded; of the offending row, 'text' is already encoded
    when it is 'label' that is missing. *)
Theorem encode_datasets_stops_at_missing_key (te le : Encoder)
    (tr dv : Dataset loc) (w : world') (earlier later : list loc) (l : loc)
    (r : gmap string value) :
  rows tr ++ rows dv = earlier ++ l :: later →
  NoDup (earlier ++ [l]) →
  rows_ready (row_heap w) earlier = true →
  row_heap w !! l = Some r →
  r !! "text" = None ∨ r !! "label" = None →
  ∃ h' key,
    encode_datasets te le tr dv w
    = (Raise (KeyError key), mkWorld h' (directories w) (files w) (calls w))
    ∧ (∀ x, x ∈ earlier →
         ∃ rx rx', row_heap w !! x = Some rx ∧ h' !! x = Some rx'
                   ∧ row_encoded (encode te) (encode le) rx rx')
    ∧ match r !! "text" with
      | None => key = "text" ∧ h' !! l = Some r
      | Some t => key = "label" ∧ h' !! l = Some (<["text" := encode te t]> r)
      end
    ∧ (∀ x, x ∉ earlier → x ≠ l → h' !! x = row_heap w !! x).
Proof.
  intros Hrows Hnd Hready Hl Hmiss.
  apply NoDup_app in Hnd as (Hnd & Hdisj & _).
  assert (Hl_out : l ∉ earlier).
  { intros Hin. apply (Hdisj l Hin). apply list_elem_of_here. }
  destruct (encode_rows_run te le earlier w Hnd Hready)
    as (h1 & Hrun & _ & Hout & Hin).
  rewrite encode_datasets_eq, Hrows, for_each_app, bind_run, Hrun.
  cbn [for_each]. rewrite bind_run.
  pose proof (encode_row_missing te le l r
                (mkWorld h1 (directories w) (files w) (calls w))) as Hrow.
  cbn [row_heap directories files calls] in Hrow.
  rewrite (Hout l Hl_out) in Hrow. specialize (Hrow Hl Hmiss).
  destruct (r !! "text") as [t|] eqn:Ht; rewrite Hrow.
  - exists (<[l := <["text" := encode te t]> r]> h1), "label".
    split; [reflexivity|]. split; [|split; [split; [reflexivity|]|]].
    + intros x Hx. destruct (Hin x Hx) as (rx & rx' & H1 & H2 & H3).
      exists rx, rx'. split; [exact H1|]. split; [|exact H3].
      rewrite lookup_insert_ne by (intros ->; contradiction). exact H2.
    + apply lookup_insert_eq.
    + intros x Hx Hxl. rewrite lookup_insert_ne by congruence. now apply Hout.
  - exists h1, "text". split; [reflexivity|]. split; [exact Hin|].
    split; [split; [reflexivity|]|].
    + now rewrite (Hout l Hl_out).
    + intros x Hx _. now apply Hout.
Qed.

Lemma rows_ready_spec (h : gmap loc (gmap string value)) (ls : list loc) :
  rows_ready h ls = true
  ↔ ∀ l, l ∈ ls →
      ∃ r t lb, h !! l = Some r ∧ r !! "text" = Some t ∧ r !! "label" = Some lb.
Proof.
  unfold rows_ready. rewrite forallb_forall. split.
  - intros H l Hl. apply list_elem_of_In in Hl. specialize (H l Hl).
    destruct (h !! l) as [r|]; [|discriminate].
    destruct (r !! "text") as [t|] eqn:Et; [|discriminate].
    destruct (r !! "label") as [lb|] eqn:El; [|discriminate].
    exists r, t, lb. auto.
  - intros H l Hl. apply list_elem_of_In in Hl.
    destruct (H l Hl) as (r & t & lb & -> & -> & ->). reflexivity.
Qed.

(** X22: a row that both datasets hold is encoded twice. With the rows of
    each dataset distinct and every row holding 'text' and 'label', the
    phase returns, and a row that is in the training and in the
    development dataset ends with the encoding of its encoded 'text' and
    'label'. *)
Theorem encode_datasets_shared_row_twice (te le : Encoder)
    (tr dv : Dataset loc) (w : world') (l : loc) (r : gmap string value) :
  NoDup (rows tr) → NoDup (rows dv) →
  rows_ready (row_heap w) (rows tr ++ rows dv) = true →
  l ∈ rows tr → l ∈ rows dv → row_heap w !! l = Some r →
  ∃ h' r',
    encode_datasets te le tr dv w
    = (Ok (), mkWorld h' (directories w) (files w) (calls w))
    ∧ h' !! l = Some r'
    ∧ r' !! "text" = encode te <$> (encode te <$> r !! "text")
    ∧ r' !! "label" = encode le <$> (encode le <$> r !! "label")
    ∧ ∀ k, k ≠ "text" → k ≠ "label" → r' !! k = r !! k.
Proof.
  intros Hnd1 Hnd2 Hready Htr Hdv Hl.
  pose proof (proj1 (rows_ready_spec _ _) Hready) as Hall. clear Hready.
  rename Hall into Hready.
  assert (Hr1 : rows_ready (row_heap w) (rows tr) = true).
  { apply rows_ready_spec. intros x Hx. apply Hready, elem_of_app. now left. }
  destruct (encode_rows_run te le (rows tr) w Hnd1 Hr1)
    as (h1 & Hrun1 & _ & Hout1 & Hin1).
  assert (Hr2 : rows_ready h1 (rows dv) = true).
  { apply rows_ready_spec. intros x Hx.
    destruct (Hready x) as (rx & t & lb & Hx1 & Hx2 & Hx3);
      [apply elem_of_app; now right|].
    destruct (decide (x ∈ rows tr)) as [Hxin|Hxout].
    - destruct (Hin1 x Hxin) as (rx0 & rx' & H1 & H2 & (E1 & E2 & _)).
      rewrite Hx1 in H1. injection H1 as <-.
      exists rx', (encode te t), (encode le lb).
      rewrite E1, E2, Hx2, Hx3. auto.
    - exists rx, t, lb. rewrite (Hout1 x Hxout). auto. }
  destruct (encode_rows_run te le (rows dv)
              (mkWorld h1 (directories w) (files w) (calls w)) Hnd2 Hr2)
    as (h2 & Hrun2 & _ & Hout2 & Hin2).
  cbn [row_heap directories files calls] in *.
  destruct (Hin1 l Htr) as (r0 & r1 & H0 & H1 & (E1 & E2 & E3)).
  rewrite Hl in H0. injection H0 as <-.
  destruct (Hin2 l Hdv) as (r1' & r2 & H1' & H2 & (F1 & F2 & F3)).
  rewrite H1 in H1'. injection H1' as <-.
  exists h2, r2.
  split.
  { rewrite encode_datasets_eq, for_each_app, bind_run, Hrun1. exact Hrun2. }
  split; [exact H2|].
  split; [now rewrite F1, E1|]. split; [now rewrite F2, E2|].
  intros k Hk1 Hk2. now rewrite F3, E3.
Qed.

Lemma column_run (ls : list loc) (key : string) (w : world') :
  (∀ l, l ∈ ls → ∃ r v, row_heap w !! l = Some r ∧ r !! key = Some v) →
  column ls key w = (Ok (raw_column (row_heap w) ls key), w).
Proof.
  induction ls as [|l ls IH]; intros H; [reflexivity|].
  destruct (H l) as (r & v & Hr & Hv); [apply list_elem_of_here|].
  cbn [column]. rewrite bind_run, (getitem_run l key r v) by assumption.
  rewrite bind_run, IH by (intros x Hx; apply H; now apply list_elem_of_further).
  unfold raw_column. cbn [omap list_omap]. rewrite Hr. cbn. rewrite Hv. reflexivity.
Qed.

(** X23: [train] from end to end. Once [setup_training] and the dataset
    loader have returned, the rows are distinct and hold 'text' and
    'label', [get_total_parameters] returns on the model, the model has a
    parameter that requires a gradient, and the development split is not
    empty (or there is no epoch to run), [train] returns. Without a
    checkpoint its encoders are built from the raw 'text' and 'label'
    columns of the training dataset alone; with one, encoders and model
    are those of the checkpoint. All rows are encoded before the first
    epoch, the batches of every epoch are drawn from the encoded rows,
    every checkpoint is saved with this model and these encoders to the
    save directory, and nothing is called besides the calls of the
    epochs. *)
Theorem train_end_to_end (path : option string) (dir : string) (epochs : Z)
    (checkpoint : option (Checkpoint Model Encoder)) (tr dv : Dataset loc)
    (w w1 w2 : world') :
  setup_training path dir w = (Ok checkpoint, w1) →
  dataset w1 = (Ok (tr, dv), w2) →
  NoDup (rows tr ++ rows dv) →
  rows_ready (row_heap w2) (rows tr ++ rows dv) = true →
  let te := match checkpoint with
            | Some c => input_encoder c
            | None => WordEncoder (raw_column (row_heap w2) (rows tr) "text")
            end in
  let le := match checkpoint with
            | Some c => output_encoder c
            | None => IdentityEncoder (raw_column (row_heap w2) (rows tr) "label")
            end in
  let m := match checkpoint with
           | Some c => model c
           | None => SeqToLabel te le
           end in
  (∃ total, get_total_parameters (parameters m) = inr total) →
  (∃ x, x ∈ parameters m ∧ requires_grad x = true) →
  rows dv ≠ [] ∨ (epochs ≤ 0)%Z →
  ∃ h',
    train path dir epochs w
    = (Ok (),
       mkWorld h' (directories w2) (files w2)
         (calls w2
          ++ flat_map
               (fun epoch =>
                  training_calls m (train_iterator h' tr epoch) epoch
                  ++ [Checkpoint_save dir m te le]
                  ++ evaluation_calls m (dev_iterator h' dv) epoch)
               (py_range epochs)
          ++ [log_done]))
    ∧ ∀ l, l ∈ rows tr ++ rows dv →
        ∃ r r', row_heap w2 !! l = Some r ∧ h' !! l = Some r'
                ∧ row_encoded (encode te) (encode le) r r'.
Proof.
  intros Hsetup Hdata Hnd Hready te le m [total Htotal] (x & Hx & Hgrad) Hdv.
  destruct (encode_rows_run te le _ w2 Hnd Hready)
    as (h' & Hrun & _ & _ & Hin).
  exists h'. split; [|exact Hin].
  unfold train. rewrite bind_run, Hsetup, bind_run, Hdata.
  cbn beta iota. rewrite bind_run.
  assert (Henc : init_encoders checkpoint tr w2 = (Ok (te, le), w2)).
  { unfold init_encoders, te, le. destruct checkpoint as [c|]; [reflexivity|].
    pose proof (proj1 (rows_ready_spec _ _) Hready) as Hall.
    rewrite bind_run, column_run.
    - rewrite bind_run, column_run; [reflexivity|].
      intros l Hl. destruct (Hall l) as (r & t & lb & ? & ? & ?);
        [apply elem_of_app; now left | eauto].
    - intros l Hl. destruct (Hall l) as (r & t & lb & ? & ? & ?);
        [apply elem_of_app; now left | eauto]. }
  rewrite Henc. cbn beta iota. rewrite bind_run.
  rewrite encode_datasets_eq, Hrun.
  fold m. unfold init_model. fold m.
  replace (match checkpoint with
           | Some c => model c
           | None => SeqToLabel te le
           end) with m by reflexivity.
  rewrite bind_run. unfold log_total_parameters. rewrite Htotal.
  rewrite bind_run. unfold init_optimizer.
  destruct (List.filter requires_grad (parameters m)) as [|x' xs'] eqn:Hfilter.
  { assert (Hinf : In x (List.filter requires_grad (parameters m)))
      by (apply filter_In; split; [now apply list_elem_of_In | exact Hgrad]).
    rewrite Hfilter in Hinf. destruct Hinf. }
  cbn [mret M_ret].
  rewrite train_epochs_returns by exact Hdv.
  unfold after_calls. cbn [row_heap directories files calls].
  reflexivity.
Qed.

End TrainMore.

Lemma encode_datasets_stops_at_missing_key_witness :
  ∃ h' key,
    encode_datasets "W:" "I:" (mkDataset [0; 3]) (mkDataset [2])
      toy_world_unlabelled
    = (Raise (KeyError key),
       mkWorld h' (directories toy_world_unlabelled)
         (files toy_world_unlabelled) (calls toy_world_unlabelled))
    ∧ (∀ x, x ∈ [0] →
         ∃ rx rx', row_heap toy_world_unlabelled !! x = Some rx
                   ∧ h' !! x = Some rx'
                   ∧ row_encoded (encode "W:") (encode "I:") rx rx')
    ∧ match ({[ "text" := "e" ]} : gmap string string) !! "text" with
      | None => key = "text" ∧ h' !! 3 = Some {[ "text" := "e" ]}
      | Some t =>
          key = "label"
          ∧ h' !! 3 = Some (<["text" := encode "W:" t]> {[ "text" := "e" ]})
      end
    ∧ (∀ x, x ∉ [0] → x ≠ 3 → h' !! x = row_heap toy_world_unlabelled !! x).
Proof.
  apply (encode_datasets_stops_at_missing_key "W:" "I:" (mkDataset [0; 3])
           (mkDataset [2]) toy_world_unlabelled [0] [2] 3 {[ "text" := "e" ]}).
  - reflexivity.
  - apply (bool_decide_unpack _). vm_compute. exact I.
  - vm_compute. reflexivity.
  - vm_compute. reflexivity.
  - right. vm_compute. reflexivity.
Defined.

Lemma encode_datasets_shared_row_twice_witness :
  ∃ h' r',
    encode_datasets "W:" "I:" (mkDataset [0; 1]) (mkDataset [1; 2]) toy_world
    = (Ok (), mkWorld h' (directories toy_world) (files toy_world)
                (calls toy_world))
    ∧ h' !! 1 = Some r'
    ∧ r' !! "text"
      = encode "W:"
        <$> (encode "W:"
             <$> ({[ "text" := "c"; "label" := "y" ]} : gmap string string) !! "text")
    ∧ r' !! "label"
      = encode "I:"
        <$> (encode "I:"
             <$> ({[ "text" := "c"; "label" := "y" ]} : gmap string string) !! "label")
    ∧ ∀ k, k ≠ "text" → k ≠ "label" →
        r' !! k = ({[ "text" := "c"; "label" := "y" ]} : gmap string string) !! k.
Proof.
  apply (encode_datasets_shared_row_twice "W:" "I:" (mkDataset [0; 1])
           (mkDataset [1; 2]) toy_world 1 {[ "text" := "c"; "label" := "y" ]}).
  - apply (bool_decide_unpack _). vm_compute. exact I.
  - apply (bool_decide_unpack _). vm_compute. exact I.
  - vm_compute. reflexivity.
  - apply (bool_decide_unpack _). vm_compute. exact I.
  - apply (bool_decide_unpack _). vm_compute. exact I.
  - vm_compute. reflexivity.
Defined.

Lemma train_end_to_end_witness :
  ∃ h',
    train None "save/new" 1 toy_world
    = (Ok (),
       mkWorld h' (directories toy_world) (files toy_world)
         (calls toy_world
          ++ flat_map
               (fun epoch =>
                  training_calls () (train_iterator h' (mkDataset [0; 1]) epoch)
                    epoch
                  ++ [Checkpoint_save "save/new" () "w:" "i:"]
                  ++ evaluation_calls () (dev_iterator h' (mkDataset [2])) epoch)
               (py_range 1)
          ++ [log_done]))
    ∧ ∀ l, l ∈ rows (mkDataset [0; 1]) ++ rows (mkDataset [2]) →
        ∃ r r', row_heap toy_world !! l = Some r ∧ h' !! l = Some r'
                ∧ row_encoded (encode "w:") (encode "i:") r r'.
Proof.
  assert (Hnd : NoDup (rows (mkDataset [0; 1]) ++ rows (mkDataset [2])))
    by (apply (bool_decide_unpack _); vm_compute; exact I).
  assert (Hready : rows_ready (row_heap toy_world)
                     (rows (mkDataset [0; 1]) ++ rows (mkDataset [2])) = true)
    by (vm_compute; reflexivity).
  assert (Htotal : ∃ total,
             get_total_parameters (parameters (SeqToLabel "w:" "i:")) = inr total)
    by (exists 15; reflexivity).
  assert (Hgrad : ∃ x, x ∈ parameters (SeqToLabel "w:" "i:")
                       ∧ requires_grad x = true)
    by (exists (mkTorchParameter true [4; 3]);
        split; [apply list_elem_of_here | reflexivity]).
  assert (Hdv : rows (mkDataset [2]) ≠ [] ∨ (1 ≤ 0)%Z)
    by (left; discriminate).
  exact (train_end_to_end None "save/new" 1 None (mkDataset [0; 1])
           (mkDataset [2]) toy_world toy_world toy_world eq_refl eq_refl
           Hnd Hready Htotal Hgrad Hdv).
Defined.

Lemma main_raises_if_checkpoint_exists_witness :
  ∃ e, main (mkNamespace (Some "save/run/1.pt")) toy_world = (Raise e, toy_world)
       ∧ (e = FileExistsError (dirname "save/run/1.pt")
          ∨ e = FileNotFoundError "").
Proof.
  apply (main_raises_if_checkpoint_exists "save/run/1.pt" toy_world).
  - intros f Hf. unfold toy_world in Hf. cbn [files] in Hf.
    apply elem_of_singleton_1 in Hf. subst f.
    split; [discriminate|]. right.
    apply (bool_decide_unpack _). vm_compute. exact I.
  - apply (bool_decide_unpack _). vm_compute. exact I.
Defined.

(** ** lib/datasets/zero_to_zero.py: further properties *)

(** X25: a row count below zero is no error: the dataset of that split is
    empty. For any counts, each returned dataset has as many rows as
    asked for, or none if the count is negative, every row being
    [{'source': '0', 'target': '0'}]. *)
Theorem zero_to_zero_negative_rows (train dev test : bool)
    (train_rows dev_rows test_rows seq_max_length : Z) :
  Forall2
    (fun n d =>
       Z.of_nat (length (rows d)) = Z.max n 0
       ∧ ∀ r, r ∈ rows d → r = zero_row)
    (map snd (List.filter fst
                [(train, train_rows); (dev, dev_rows); (test, test_rows)]))
    (returned_datasets
       (zero_to_zero train dev test train_rows dev_rows test_rows seq_max_length)).
Proof.
  assert (Hone : ∀ n,
            Z.of_nat (length (rows (mkDataset (map (λ _ : Z, zero_row) (py_range n)))))
            = Z.max n 0
            ∧ ∀ r, r ∈ rows (mkDataset (map (λ _ : Z, zero_row) (py_range n))) →
                r = zero_row).
  { intros n. cbn [rows]. split.
    - unfold py_range. rewrite !length_map, length_seq. lia.
    - intros r Hr. apply list_elem_of_fmap in Hr as (? & -> & _). reflexivity. }
  destruct train, dev, test; cbn -[py_range zero_row Z.max];
    repeat (constructor; try apply Hone).
Qed.
